(** * Absence tracking of the school administration application

    A shallow embedding of the absence aggregator, the threshold evaluator,
    the notifier run by the absence-creation handlers and the JSON error
    envelope, followed by the properties stated about them.

    Conventions of the embedding.
    - [Integer] columns and primary keys are integers ([Z]).  The columns
      the code computes with hold a value (no NULL).
    - The numbers of the [Float] columns are read in two ways.  The
      handlers, and what is said of the order of totals and of what the
      handlers store and send, use exact rationals ([Q]).  What is said of
      the numbers the methods of models.py return uses IEEE doubles, in
      the module [Float64]: there a sum is rounded after each addition and
      depends on the order of the rows.
    - A table is the list of its rows, in insertion order.
    - A Python exception is a value of [PyExn]; code that may raise returns
      a [PyResult].
    - What the handlers do to the outside world (database, mail, logger) is
      explicit state passing over a [World]. *)

From Stdlib Require Import ZArith QArith Qround List String Bool Lia Lqa Floats.
From stdpp Require Import base gmap strings.
Import ListNotations.

Local Open Scope string_scope.
Local Open Scope Z_scope.

#[local] Set Warnings "-inexact-float".

(** ** Python values and exceptions *)

Inductive PyExn : Type :=
  | ZeroDivisionError
  | AttributeError
  | SQLAlchemyError
  | MailException.

Inductive PyResult (A : Type) : Type :=
  | Ret (a : A)
  | Raise (e : PyExn).

Arguments Ret {A} a.
Arguments Raise {A} e.

Definition py_bind {A B : Type} (r : PyResult A) (k : A -> PyResult B) : PyResult B :=
  match r with
  | Ret a => k a
  | Raise e => Raise e
  end.

#[global] Instance PyResult_ret : MRet PyResult := fun A a => Ret a.
#[global] Instance PyResult_bind : MBind PyResult := fun A B k r => py_bind r k.

(** [a / b] on numbers: raises [ZeroDivisionError] on a zero divisor. *)
Definition py_truediv (a b : Q) : PyResult Q :=
  if Qeq_bool b 0 then Raise ZeroDivisionError else Ret (a / b)%Q.

(** [sum(xs)]: starts from 0 and adds from the left. *)
Definition py_sum (xs : list Q) : Q := fold_left Qplus xs 0%Q.

(** [round(x)] with one argument: nearest integer, ties to the even one. *)
Definition py_round (x : Q) : Z :=
  let f := Qfloor x in
  match (x - inject_Z f ?= 1 # 2)%Q with
  | Lt => f
  | Gt => f + 1
  | Eq => if Z.even f then f else f + 1
  end.

(** Truth value of an integer argument that may be [None]: [None] and 0
    are false. *)
Definition truthy_id (o : option Z) : option Z :=
  match o with
  | Some z => if z =? 0 then None else Some z
  | None => None
  end.

(** ** models.py *)

Record Date : Type := mkDate { year : Z; month : Z; day : Z }.

Definition date_eqb (a b : Date) : bool :=
  (year a =? year b) && (month a =? month b) && (day a =? day b).

(** [a > b] on dates. *)
Definition date_gtb (a b : Date) : bool :=
  (year b <? year a)
  || ((year a =? year b)
      && ((month b <? month a) || ((month a =? month b) && (day b <? day a)))).

Record User : Type := mkUser {
  user_id : Z;
  user_email : string;
  user_full_name : string
}.

Record StudentProfile : Type := mkStudentProfile {
  sp_id : Z;
  sp_student_id : string;
  sp_first_name : string;
  sp_last_name : string;
  sp_user : User
}.

Record ProfessorProfile : Type := mkProfessorProfile {
  pp_id : Z;
  pp_employee_id : string;
  pp_first_name : string;
  pp_last_name : string;
  pp_user : User
}.

Record Module : Type := mkModule {
  m_id : Z;
  m_code : string;
  m_name : string;
  m_total_hours : Q;
  m_absence_threshold : Q;
  m_is_active : bool
}.

Record StudentAbsence : Type := mkStudentAbsence {
  sa_id : Z;
  sa_student_id : Z;
  sa_module_id : Z;
  sa_date : Date;
  sa_hours : Q;
  sa_reason : option string;
  sa_is_justified : bool;
  sa_recorded_by_id : Z
}.

Record ProfessorAbsence : Type := mkProfessorAbsence {
  pa_id : Z;
  pa_professor_id : Z;
  pa_date : Date;
  pa_hours : Q;
  pa_reason : option string;
  pa_is_justified : bool;
  pa_recorded_by_id : Z
}.

Record ThresholdSetting : Type := mkThresholdSetting {
  ts_setting_type : string;
  threshold_days : Z;
  threshold_hours : Z;
  warning_percentage : Q
}.

(** The tables the absence code reads and writes. *)
Record DB : Type := mkDB {
  student_profile : list StudentProfile;
  professor_profile : list ProfessorProfile;
  module : list Module;
  student_absence : list StudentAbsence;
  professor_absence : list ProfessorAbsence
}.

(** [Model.query.get(id)]: the row with that primary key, if any. *)
Definition StudentProfile_query_get (db : DB) (id : Z) : option StudentProfile :=
  List.find (fun s => sp_id s =? id) (student_profile db).

Definition ProfessorProfile_query_get (db : DB) (id : Z) : option ProfessorProfile :=
  List.find (fun p => pp_id p =? id) (professor_profile db).

Definition Module_query_get (db : DB) (id : Z) : option Module :=
  List.find (fun m => m_id m =? id) (module db).

Definition StudentAbsence_query_get (db : DB) (id : Z) : option StudentAbsence :=
  List.find (fun a => sa_id a =? id) (student_absence db).

(** The three values [check_threshold_status] returns. *)
Inductive Status : Type := ok | warning | exceeded.

Definition status_str (s : Status) : string :=
  match s with
  | ok => "ok"
  | warning => "warning"
  | exceeded => "exceeded"
  end.

(** Position in the order ok < warning < exceeded. *)
Definition status_rank (s : Status) : Z :=
  match s with
  | ok => 0
  | warning => 1
  | exceeded => 2
  end.

Definition status_le (a b : Status) : Prop := status_rank a <= status_rank b.

Module StudentProfileMethods.

(** [StudentProfile.get_total_absence_hours(self, module_id=None,
    count_justified=False)]: the query is narrowed step by step. *)
Definition get_total_absence_hours (db : DB) (self : StudentProfile)
    (module_id : option Z) (count_justified : bool) : Q :=
  let query := List.filter (fun a => sa_student_id a =? sp_id self) (student_absence db) in
  let query :=
    match truthy_id module_id with
    | Some mid => List.filter (fun a => sa_module_id a =? mid) query
    | None => query
    end in
  let query :=
    if negb count_justified
    then List.filter (fun a => Bool.eqb (sa_is_justified a) false) query
    else query in
  py_sum (map sa_hours query).

(** [StudentProfile.get_absence_rate(self, module_id)]. *)
Definition get_absence_rate (db : DB) (self : StudentProfile) (module_id : Z)
    : PyResult Q :=
  match Module_query_get db module_id with
  | None => Ret 0%Q
  | Some module =>
      if Qeq_bool (m_absence_threshold module) 0 then Ret 0%Q
      else
        let total_absence := get_total_absence_hours db self (Some module_id) false in
        q ← py_truediv total_absence (m_absence_threshold module);
        Ret (q * 100)%Q
  end.

(** [StudentProfile.check_threshold_status(self, module_id)]. *)
Definition check_threshold_status (db : DB) (self : StudentProfile) (module_id : Z)
    : Status :=
  match Module_query_get db module_id with
  | None => ok
  | Some module =>
      let total_absence := get_total_absence_hours db self (Some module_id) false in
      let threshold := m_absence_threshold module in
      if Qle_bool threshold total_absence then exceeded
      else if Qle_bool (threshold * (1 # 2)) total_absence then warning
      else ok
  end.

End StudentProfileMethods.

Module ThresholdSettingMethods.

(** [ThresholdSetting.get_total_hours(self)]. *)
Definition get_total_hours (self : ThresholdSetting) : Z :=
  (threshold_days self * 8) + threshold_hours self.

End ThresholdSettingMethods.

(** ** JSON values *)

#[local] Set Warnings "-register-all".

(** What [jsonify] serialises: the values the handlers put in a [dict]. *)
Inductive JVal : Type :=
  | JNull
  | JBool (b : bool)
  | JInt (z : Z)
  | JNum (q : Q)
  | JStr (s : string)
  | JList (l : list JVal)
  | JDict (d : gmap string JVal).

(** Python truth value of such a value, as read by [if x:]. *)
Definition py_truthy (v : JVal) : bool :=
  match v with
  | JNull => false
  | JBool b => b
  | JInt z => negb (z =? 0)
  | JNum q => negb (Qeq_bool q 0)
  | JStr s => negb (String.eqb s "")
  | JList l => match l with [] => false | _ :: _ => true end
  | JDict d => negb (bool_decide (d = ∅))
  end.

Definition truthy_str (o : option string) : option string :=
  match o with
  | Some s => if String.eqb s "" then None else Some s
  | None => None
  end.

Definition truthy_num (o : option Q) : option Q :=
  match o with
  | Some q => if Qeq_bool q 0 then None else Some q
  | None => None
  end.

(** ** utils/exceptions.py *)

Module Exceptions.

(** An instance of [AppException] or of one of its subclasses, with the
    attributes its [__init__] sets.  The subclasses call
    [super().__init__(message, status_code=...)], so only a direct
    [AppException] carries a payload. *)
Inductive AppExc : Type :=
  | AppException (message : string) (status_code : Z)
      (payload : option (gmap string JVal))
  | ValidationError (message : string) (field : option string) (errors : list JVal)
  | AuthorizationError (message : string)
  | AuthenticationError (message : string)
  | NotFoundError (message : string) (resource_type : option string)
      (resource_id : option JVal)
  | BusinessRuleError (message : string) (rule : option string)
  | ThresholdExceededError (message : string)
      (current_hours threshold_hours : option Q) (module_name : option string)
  | DuplicateError (message : string) (field : option string)
  | DatabaseError (message : string)
  | EmailError (message : string).

(** [self.__class__.__name__] *)
Definition class_name (e : AppExc) : string :=
  match e with
  | AppException _ _ _ => "AppException"
  | ValidationError _ _ _ => "ValidationError"
  | AuthorizationError _ => "AuthorizationError"
  | AuthenticationError _ => "AuthenticationError"
  | NotFoundError _ _ _ => "NotFoundError"
  | BusinessRuleError _ _ => "BusinessRuleError"
  | ThresholdExceededError _ _ _ _ => "ThresholdExceededError"
  | DuplicateError _ _ => "DuplicateError"
  | DatabaseError _ => "DatabaseError"
  | EmailError _ => "EmailError"
  end.

(** [self.message] *)
Definition message (e : AppExc) : string :=
  match e with
  | AppException m _ _ | ValidationError m _ _ | AuthorizationError m
  | AuthenticationError m | NotFoundError m _ _ | BusinessRuleError m _
  | ThresholdExceededError m _ _ _ | DuplicateError m _ | DatabaseError m
  | EmailError m => m
  end.

(** [self.status_code], as each [__init__] passes it up. *)
Definition status_code (e : AppExc) : Z :=
  match e with
  | AppException _ c _ => c
  | ValidationError _ _ _ => 400
  | AuthorizationError _ => 403
  | AuthenticationError _ => 401
  | NotFoundError _ _ _ => 404
  | BusinessRuleError _ _ => 422
  | ThresholdExceededError _ _ _ _ => 422
  | DuplicateError _ _ => 409
  | DatabaseError _ => 500
  | EmailError _ => 500
  end.

(** [self.payload] *)
Definition payload (e : AppExc) : option (gmap string JVal) :=
  match e with
  | AppException _ _ p => p
  | _ => None
  end.

(** [if v: rv[k] = v] for a string attribute that may be [None]. *)
Definition set_if_str (k : string) (v : option string)
    (rv : gmap string JVal) : gmap string JVal :=
  match truthy_str v with
  | Some s => <[k := JStr s]> rv
  | None => rv
  end.

(** [if v: rv[k] = v] for an attribute holding any value. *)
Definition set_if_truthy (k : string) (v : option JVal)
    (rv : gmap string JVal) : gmap string JVal :=
  match v with
  | Some x => if py_truthy x then <[k := x]> rv else rv
  | None => rv
  end.

(** [if v is not None: rv[k] = v] for a number. *)
Definition set_if_not_none (k : string) (v : option Q)
    (rv : gmap string JVal) : gmap string JVal :=
  match v with
  | Some q => <[k := JNum q]> rv
  | None => rv
  end.

(** [AppException.to_dict]: the method every subclass reaches through
    [super().to_dict()]. *)
Definition AppException_to_dict (self : AppExc) : gmap string JVal :=
  let rv := match payload self with
            | Some d => d
            | None => ∅
            end in
  let rv := <["success" := JBool false]> rv in
  let rv := <["error" := JStr (class_name self)]> rv in
  let rv := <["message" := JStr (message self)]> rv in
  rv.

(** [BusinessRuleError.to_dict], also the [super().to_dict()] of
    [ThresholdExceededError], whose [__init__] sets the rule itself. *)
Definition BusinessRuleError_to_dict (self : AppExc) (rule : option string)
    : gmap string JVal :=
  let rv := AppException_to_dict self in
  set_if_str "rule" rule rv.

(** [to_dict], dispatched on the class of [self]. *)
Definition to_dict (self : AppExc) : gmap string JVal :=
  match self with
  | ValidationError _ field errors =>
      let rv := AppException_to_dict self in
      let rv := set_if_str "field" field rv in
      set_if_truthy "errors" (Some (JList errors)) rv
  | NotFoundError _ resource_type resource_id =>
      let rv := AppException_to_dict self in
      let rv := set_if_str "resource_type" resource_type rv in
      set_if_truthy "resource_id" resource_id rv
  | BusinessRuleError _ rule => BusinessRuleError_to_dict self rule
  | ThresholdExceededError _ current_hours threshold_hours module_name =>
      let rv := BusinessRuleError_to_dict self (Some "absence_threshold_exceeded") in
      let rv := set_if_not_none "current_hours" current_hours rv in
      let rv := set_if_not_none "threshold_hours" threshold_hours rv in
      set_if_str "module_name" module_name rv
  | DuplicateError _ field =>
      let rv := AppException_to_dict self in
      set_if_str "field" field rv
  | AppException _ _ _ | AuthorizationError _ | AuthenticationError _
  | DatabaseError _ | EmailError _ => AppException_to_dict self
  end.

(** [to_response]: the serialised dictionary and the HTTP status. *)
Definition to_response (self : AppExc) : gmap string JVal * Z :=
  (to_dict self, status_code self).

(** The fields a subclass may add to the envelope. *)
Definition extra_fields : list string :=
  ["field"; "errors"; "resource_type"; "resource_id"; "rule";
   "current_hours"; "threshold_hours"; "module_name"].

End Exceptions.

(** ** The world the handlers act on *)

(** A message handed to [EmailService.send_email], by the method that
    builds it and the arguments it was given. *)
Inductive Email : Type :=
  | ThresholdWarning (user : User) (module_name : string)
      (current_hours threshold_hours : Q) (percentage : Z)
  | ThresholdExceeded (user : User) (module_name : string)
      (current_hours threshold_hours : Q).

(** What the handlers depend on and the repository does not define. *)
Record Env : Type := mkEnv {
  (** [datetime.strptime(s, '%Y-%m-%d').date()]; [None] stands for
      [ValueError]. *)
  strptime_date : string -> option Date;
  (** [date.today()] *)
  date_today : Date;
  (** whether handing this message to the mail service raises *)
  mail_raises : Email -> bool;
  (** whether [db.session.commit()] raises when it is to store this row *)
  commit_raises : Z -> bool
}.

Record World : Type := mkWorld {
  w_db : DB;
  (** messages handed over to the mail service, oldest first *)
  w_outbox : list Email;
  (** [current_app.logger.error] lines, oldest first *)
  w_log : list string;
  (** [flash(message, category)] calls, oldest first *)
  w_flashes : list (string * string)
}.

(** Handler code: it updates the world and returns or raises. *)
Definition M (A : Type) : Type := World -> World * PyResult A.

Definition m_ret {A : Type} (a : A) : M A := fun w => (w, Ret a).

Definition m_bind {A B : Type} (m : M A) (k : A -> M B) : M B :=
  fun w =>
    match m w with
    | (w', Ret a) => k a w'
    | (w', Raise e) => (w', Raise e)
    end.

Notation "'let*' x ':=' m 'in' k" := (m_bind m (fun x => k))
  (at level 10, x name, m at level 100, k at level 200).
Notation "m '>>' k" := (m_bind m (fun _ => k))
  (at level 90, right associativity).

(** The tables as a query sees them now. *)
Definition query : M DB := fun w => (w, Ret (w_db w)).

(** A computation that touches nothing. *)
Definition m_lift {A : Type} (r : PyResult A) : M A := fun w => (w, r).

(** [try: body except Exception as e: handler(e)] *)
Definition m_try {A : Type} (body : M A) (handler : PyExn -> M A) : M A :=
  fun w =>
    match body w with
    | (w', Ret a) => (w', Ret a)
    | (w', Raise e) => handler e w'
    end.

Definition set_db (db : DB) (w : World) : World :=
  mkWorld db (w_outbox w) (w_log w) (w_flashes w).

(** [str(e)] *)
Definition exn_str (e : PyExn) : string :=
  match e with
  | ZeroDivisionError => "division by zero"
  | AttributeError => "'NoneType' object has no attribute"
  | SQLAlchemyError => "database error"
  | MailException => "mail error"
  end.

(** [current_app.logger.error(line)] *)
Definition logger_error (line : string) : M unit :=
  fun w => (mkWorld (w_db w) (w_outbox w) (w_log w ++ [line]) (w_flashes w), Ret tt).

(** [flash(message, category)] *)
Definition flash (message category : string) : M unit :=
  fun w =>
    (mkWorld (w_db w) (w_outbox w) (w_log w) (w_flashes w ++ [(message, category)]),
     Ret tt).

(** The key a freshly inserted row gets: one more than the largest key. *)
Definition next_id (ids : list Z) : Z := 1 + fold_right Z.max 0 ids.

Module Session.

(** [db.session.add(absence); db.session.commit()] for a student absence;
    the stored row, with its key, is returned.  A commit that raises
    stores nothing. *)
Definition add_student_absence (env : Env) (absence : StudentAbsence)
    : M StudentAbsence :=
  fun w =>
    let db := w_db w in
    let id := next_id (map sa_id (student_absence db)) in
    if commit_raises env id then (w, Raise SQLAlchemyError)
    else
      let row := mkStudentAbsence id (sa_student_id absence) (sa_module_id absence)
                   (sa_date absence) (sa_hours absence) (sa_reason absence)
                   (sa_is_justified absence) (sa_recorded_by_id absence) in
      (set_db (mkDB (student_profile db) (professor_profile db) (module db)
                 (student_absence db ++ [row]) (professor_absence db)) w,
       Ret row).

Definition add_professor_absence (env : Env) (absence : ProfessorAbsence)
    : M ProfessorAbsence :=
  fun w =>
    let db := w_db w in
    let id := next_id (map pa_id (professor_absence db)) in
    if commit_raises env id then (w, Raise SQLAlchemyError)
    else
      let row := mkProfessorAbsence id (pa_professor_id absence) (pa_date absence)
                   (pa_hours absence) (pa_reason absence) (pa_is_justified absence)
                   (pa_recorded_by_id absence) in
      (set_db (mkDB (student_profile db) (professor_profile db) (module db)
                 (student_absence db) (professor_absence db ++ [row])) w,
       Ret row).

(** [absence.is_justified = not absence.is_justified; db.session.commit()] *)
Definition toggle_justified (env : Env) (absence : StudentAbsence) : M bool :=
  fun w =>
    let db := w_db w in
    if commit_raises env (sa_id absence) then (w, Raise SQLAlchemyError)
    else
      let flip (a : StudentAbsence) :=
        if sa_id a =? sa_id absence
        then mkStudentAbsence (sa_id a) (sa_student_id a) (sa_module_id a)
               (sa_date a) (sa_hours a) (sa_reason a)
               (negb (sa_is_justified a)) (sa_recorded_by_id a)
        else a in
      (set_db (mkDB (student_profile db) (professor_profile db) (module db)
                 (map flip (student_absence db)) (professor_absence db)) w,
       Ret (negb (sa_is_justified absence))).

(** [db.session.delete(absence); db.session.commit()] *)
Definition delete_student_absence (env : Env) (absence : StudentAbsence) : M unit :=
  fun w =>
    let db := w_db w in
    if commit_raises env (sa_id absence) then (w, Raise SQLAlchemyError)
    else
      (set_db (mkDB (student_profile db) (professor_profile db) (module db)
                 (List.filter (fun a => negb (sa_id a =? sa_id absence))
                    (student_absence db))
                 (professor_absence db)) w,
       Ret tt).

(** [db.session.rollback()]: nothing is pending once a commit has
    returned or raised. *)
Definition rollback : M unit := m_ret tt.

End Session.

(** ** utils/email_service.py *)

Module EmailService.

(** [send_email]: the message is built and handed to a background
    thread; building or handing over may raise. *)
Definition send_email (env : Env) (msg : Email) : M unit :=
  fun w =>
    if mail_raises env msg then (w, Raise MailException)
    else (mkWorld (w_db w) (w_outbox w ++ [msg]) (w_log w) (w_flashes w), Ret tt).

Definition send_threshold_warning (env : Env) (user : User) (module_name : string)
    (current_hours threshold_hours : Q) (percentage : Z) : M unit :=
  send_email env
    (ThresholdWarning user module_name current_hours threshold_hours percentage).

Definition send_threshold_exceeded (env : Env) (user : User) (module_name : string)
    (current_hours threshold_hours : Q) : M unit :=
  send_email env (ThresholdExceeded user module_name current_hours threshold_hours).

End EmailService.

(** ** routes/api.py *)

Module Api.

(** A JSON response: the serialised dictionary and the HTTP status. *)
Definition Response : Type := gmap string JVal * Z.

(** [success_response(data=None, message=None, status_code=200)] *)
Definition success_response (data : option JVal) (message : option string)
    (status_code : Z) : Response :=
  let response : gmap string JVal := {[ "success" := JBool true ]} in
  let response :=
    match data with
    | Some d => <["data" := d]> response
    | None => response
    end in
  let response :=
    match truthy_str message with
    | Some m => <["message" := JStr m]> response
    | None => response
    end in
  (response, status_code).

(** [error_response(message, error_type='Error', status_code=400)] *)
Definition error_response (message error_type : string) (status_code : Z)
    : Response :=
  let response : gmap string JVal :=
    {[ "success" := JBool false;
       "error" := JStr error_type;
       "message" := JStr message ]} in
  (response, status_code).

(** The body of [POST /absences/students] as [request.get_json()] gives
    it: a non-empty object whose fields, when present and not null, have
    the types the handler expects.  [None] at the call stands for a body
    that [if not data] reads as false, such as [null] or an empty object.
    Bodies of another shape (a list, a field of another type) and requests
    that [get_json] itself refuses are not described. *)
Record AbsenceJson : Type := mkAbsenceJson {
  j_student_id : option Z;
  j_module_id : option Z;
  j_date : option string;
  j_hours : option Q;
  j_reason : option string;
  j_is_justified : option bool
}.

(** [StudentAbsence.query.filter_by(student_id=.., module_id=..,
    date=..).first()] *)
Definition existing_absence (db : DB) (student_id module_id : Z) (date : Date)
    : option StudentAbsence :=
  List.find
    (fun a => (sa_student_id a =? student_id) && (sa_module_id a =? module_id)
              && date_eqb (sa_date a) date)
    (student_absence db).

(** The two branches on [status] in [create_student_absence]; the result
    is [notification_sent]. *)
Definition send_notifications (env : Env) (student : StudentProfile)
    (module : Module) (total_hours : Q) (status : Status) : M JVal :=
  match status with
  | warning =>
      let* q := m_lift (py_truediv total_hours (m_absence_threshold module)) in
      let percentage := (q * 100)%Q in
      m_try
        (EmailService.send_threshold_warning env (sp_user student)
           (m_name module) total_hours (m_absence_threshold module)
           (py_round percentage) >>
         m_ret (JStr "warning"))
        (fun e =>
           logger_error ("Failed to send warning: " ++ exn_str e) >>
           m_ret JNull)
  | exceeded =>
      m_try
        (EmailService.send_threshold_exceeded env (sp_user student)
           (m_name module) total_hours (m_absence_threshold module) >>
         m_ret (JStr "exceeded"))
        (fun e =>
           logger_error ("Failed to send exceeded: " ++ exn_str e) >>
           m_ret JNull)
  | ok => m_ret JNull
  end.

(** [create_student_absence], the handler of [POST /absences/students]. *)
Definition create_student_absence (env : Env) (current_user_id : Z)
    (data : option AbsenceJson) : M Response :=
  match data with
  | None => m_ret (error_response "Données requises" "ValidationError" 400)
  | Some data =>
      match truthy_id (j_student_id data), truthy_id (j_module_id data),
            truthy_str (j_date data), truthy_num (j_hours data) with
      | Some student_id, Some module_id, Some date_str, Some hours =>
          let* db := query in
          match StudentProfile_query_get db student_id with
          | None => m_ret (error_response "Étudiant non trouvé" "NotFoundError" 404)
          | Some student =>
          match Module_query_get db module_id with
          | None => m_ret (error_response "Module non trouvé" "NotFoundError" 404)
          | Some module =>
          match strptime_date env date_str with
          | None =>
              m_ret (error_response "Format de date invalide (YYYY-MM-DD)"
                       "ValidationError" 400)
          | Some absence_date =>
          match existing_absence db student_id module_id absence_date with
          | Some _ =>
              m_ret (error_response "Cette absence existe déjà" "DuplicateError" 409)
          | None =>
              m_try
                (let* absence :=
                   Session.add_student_absence env
                     (mkStudentAbsence 0 student_id module_id absence_date hours
                        (j_reason data)
                        (match j_is_justified data with
                         | Some b => b
                         | None => false
                         end)
                        current_user_id) in
                 let* db := query in
                 let total_hours :=
                   StudentProfileMethods.get_total_absence_hours db student
                     (Some module_id) false in
                 let status :=
                   StudentProfileMethods.check_threshold_status db student module_id in
                 let* notification_sent :=
                   send_notifications env student module total_hours status in
                 m_ret (success_response
                          (Some (JDict {[ "id" := JInt (sa_id absence);
                                          "total_hours" := JNum total_hours;
                                          "threshold_status" := JStr (status_str status);
                                          "notification_sent" := notification_sent ]}))
                          (Some "Absence enregistrée") 201))
                (fun e =>
                   Session.rollback >>
                   logger_error ("Error creating absence: " ++ exn_str e) >>
                   m_ret (error_response (exn_str e) "DatabaseError" 500))
          end end end end
      | _, _, _, _ =>
          m_ret (error_response "Tous les champs sont requis" "ValidationError" 400)
      end
  end.

(** [toggle_student_absence_justified], the handler of
    [POST /absences/students/<id>/toggle-justified]. *)
Definition toggle_student_absence_justified (env : Env) (absence_id : Z)
    : M Response :=
  let* db := query in
  match StudentAbsence_query_get db absence_id with
  | None => m_ret (error_response "Absence non trouvée" "NotFoundError" 404)
  | Some absence =>
      m_try
        (let* is_justified := Session.toggle_justified env absence in
         m_ret (success_response
                  (Some (JDict {[ "is_justified" := JBool is_justified ]}))
                  (Some (if is_justified then "Absence justifiée"
                         else "Absence non justifiée"))
                  200))
        (fun e =>
           Session.rollback >>
           m_ret (error_response (exn_str e) "DatabaseError" 500))
  end.

(** [delete_student_absence], the handler of
    [DELETE /absences/students/<id>]. *)
Definition delete_student_absence (env : Env) (absence_id : Z) : M Response :=
  let* db := query in
  match StudentAbsence_query_get db absence_id with
  | None => m_ret (error_response "Absence non trouvée" "NotFoundError" 404)
  | Some absence =>
      m_try
        (Session.delete_student_absence env absence >>
         m_ret (success_response None (Some "Absence supprimée") 200))
        (fun e =>
           Session.rollback >>
           m_ret (error_response (exn_str e) "DatabaseError" 500))
  end.

End Api.

(** ** forms.py *)

Module Forms.

(** [StudentAbsenceForm] after the request was bound to it: each field
    holds the coerced value, [None] when the input was missing or could
    not be coerced. *)
Record StudentAbsenceForm : Type := mkStudentAbsenceForm {
  f_is_submitted : bool;
  f_csrf_ok : bool;
  f_student_id : option Z;
  f_module_id : option Z;
  f_date : option Date;
  f_hours : option Q;
  f_reason : string;
  f_is_justified : bool
}.

Record ProfessorAbsenceForm : Type := mkProfessorAbsenceForm {
  g_is_submitted : bool;
  g_csrf_ok : bool;
  g_professor_id : option Z;
  g_date : option Date;
  g_hours : option Q;
  g_reason : string;
  g_is_justified : bool
}.

(** [SelectField(coerce=int, validators=[DataRequired()])]: the value
    is one of the choices and is truthy. *)
Definition validate_select (choices : list Z) (data : option Z) : option Z :=
  match data with
  | Some v =>
      if existsb (Z.eqb v) choices && negb (v =? 0) then Some v else None
  | None => None
  end.

(** [DateField(validators=[DataRequired(), validate_future_date])] *)
Definition validate_date (env : Env) (data : option Date) : option Date :=
  match data with
  | Some d => if date_gtb d (date_today env) then None else Some d
  | None => None
  end.

(** [FloatField(validators=[DataRequired(), NumberRange(min=0.5, max=12)])] *)
Definition validate_hours (data : option Q) : option Q :=
  match truthy_num data with
  | Some h =>
      if Qle_bool (1 # 2) h && Qle_bool h 12 then Some h else None
  | None => None
  end.

(** [StringField(validators=[Optional(), Length(max=255)])] *)
Definition validate_reason (data : string) : bool :=
  (String.length data <=? 255)%nat.

(** [form.validate_on_submit()] for [StudentAbsenceForm], with the choices
    the handler has set; the validated data is returned. *)
Definition student_validate_on_submit (env : Env) (student_choices module_choices : list Z)
    (form : StudentAbsenceForm) : option (Z * Z * Date * Q) :=
  if f_is_submitted form && f_csrf_ok form && validate_reason (f_reason form) then
    match validate_select student_choices (f_student_id form),
          validate_select module_choices (f_module_id form),
          validate_date env (f_date form),
          validate_hours (f_hours form) with
    | Some s, Some m, Some d, Some h => Some (s, m, d, h)
    | _, _, _, _ => None
    end
  else None.

(** [form.validate_on_submit()] for [ProfessorAbsenceForm]. *)
Definition professor_validate_on_submit (env : Env) (professor_choices : list Z)
    (form : ProfessorAbsenceForm) : option (Z * Date * Q) :=
  if g_is_submitted form && g_csrf_ok form && validate_reason (g_reason form) then
    match validate_select professor_choices (g_professor_id form),
          validate_date env (g_date form),
          validate_hours (g_hours form) with
    | Some p, Some d, Some h => Some (p, d, h)
    | _, _, _ => None
    end
  else None.

End Forms.

(** ** routes/admin.py *)

Module Admin.

Import Forms.

(** What a page handler returns. *)
Inductive HtmlResponse : Type :=
  | RenderTemplate (name : string)
  | Redirect (endpoint : string)
  | Abort (code : Z).

Definition existing_student_absence (db : DB) (student_id module_id : Z) (date : Date)
    : option StudentAbsence :=
  List.find
    (fun a => (sa_student_id a =? student_id) && (sa_module_id a =? module_id)
              && date_eqb (sa_date a) date)
    (student_absence db).

Definition existing_professor_absence (db : DB) (professor_id : Z) (date : Date)
    : option ProfessorAbsence :=
  List.find
    (fun a => (pa_professor_id a =? professor_id) && date_eqb (pa_date a) date)
    (professor_absence db).

(** The two branches on [status] in [create_student_absence]. *)
Definition send_notifications (env : Env) (student : StudentProfile)
    (module : Module) (total_hours : Q) (status : Status) : M unit :=
  match status with
  | warning =>
      let* q := m_lift (py_truediv total_hours (m_absence_threshold module)) in
      let percentage := (q * 100)%Q in
      m_try
        (EmailService.send_threshold_warning env (sp_user student)
           (m_name module) total_hours (m_absence_threshold module)
           (py_round percentage))
        (fun e => logger_error ("Failed to send warning email: " ++ exn_str e))
  | exceeded =>
      m_try
        (EmailService.send_threshold_exceeded env (sp_user student)
           (m_name module) total_hours (m_absence_threshold module))
        (fun e => logger_error ("Failed to send exceeded email: " ++ exn_str e))
  | ok => m_ret tt
  end.

(** [create_student_absence], the handler of the page
    [/absences/students/create]. *)
Definition create_student_absence (env : Env) (current_user_id : Z)
    (form : StudentAbsenceForm) : M HtmlResponse :=
  let* db := query in
  let student_choices := map sp_id (student_profile db) in
  let module_choices := map m_id (List.filter m_is_active (module db)) in
  match student_validate_on_submit env student_choices module_choices form with
  | Some (student_id, module_id, date, hours) =>
      match existing_student_absence db student_id module_id date with
      | Some _ =>
          flash "Cette absence a déjà été enregistrée." "danger" >>
          m_ret (RenderTemplate "admin/absences/create_student.html")
      | None =>
          let* absence :=
            Session.add_student_absence env
              (mkStudentAbsence 0 student_id module_id date hours
                 (Some (f_reason form)) (f_is_justified form) current_user_id) in
          let* db := query in
          match StudentProfile_query_get db student_id,
                Module_query_get db module_id with
          | Some student, Some module =>
              let total_hours :=
                StudentProfileMethods.get_total_absence_hours db student
                  (Some (m_id module)) false in
              let status :=
                StudentProfileMethods.check_threshold_status db student (m_id module) in
              send_notifications env student module total_hours status >>
              flash "Absence enregistrée avec succès!" "success" >>
              m_ret (Redirect "admin.list_student_absences")
          | _, _ => m_lift (Raise AttributeError)
          end
      end
  | None => m_ret (RenderTemplate "admin/absences/create_student.html")
  end.

(** [create_professor_absence], the handler of the page
    [/absences/professors/create]. *)
Definition create_professor_absence (env : Env) (current_user_id : Z)
    (form : ProfessorAbsenceForm) : M HtmlResponse :=
  let* db := query in
  let professor_choices := map pp_id (professor_profile db) in
  match professor_validate_on_submit env professor_choices form with
  | Some (professor_id, date, hours) =>
      match existing_professor_absence db professor_id date with
      | Some _ =>
          flash "Cette absence a déjà été enregistrée." "danger" >>
          m_ret (RenderTemplate "admin/absences/create_professor.html")
      | None =>
          Session.add_professor_absence env
            (mkProfessorAbsence 0 professor_id date hours
               (Some (g_reason form)) (g_is_justified form) current_user_id) >>
          flash "Absence enregistrée avec succès!" "success" >>
          m_ret (Redirect "admin.list_professor_absences")
      end
  | None => m_ret (RenderTemplate "admin/absences/create_professor.html")
  end.

(** [toggle_student_absence_justified] *)
Definition toggle_student_absence_justified (env : Env) (absence_id : Z)
    : M HtmlResponse :=
  let* db := query in
  match StudentAbsence_query_get db absence_id with
  | None => m_ret (Abort 404)
  | Some absence =>
      let* is_justified := Session.toggle_justified env absence in
      flash (if is_justified then "Absence justifiée avec succès!"
             else "Absence non justifiée avec succès!") "success" >>
      m_ret (Redirect "admin.list_student_absences")
  end.

(** [delete_student_absence] *)
Definition delete_student_absence (env : Env) (absence_id : Z) : M HtmlResponse :=
  let* db := query in
  match StudentAbsence_query_get db absence_id with
  | None => m_ret (Abort 404)
  | Some absence =>
      Session.delete_student_absence env absence >>
      flash "Absence supprimée avec succès!" "success" >>
      m_ret (Redirect "admin.list_student_absences")
  end.

End Admin.

(** ** The totals in the words of the specification *)

Module Spec.

(** Sum of the [hours] of the rows that satisfy [matching]. *)
Fixpoint sum_hours {A : Type} (hours : A -> Q) (matching : A -> bool)
    (rows : list A) : Q :=
  match rows with
  | [] => 0%Q
  | a :: rows' =>
      if matching a then (hours a + sum_hours hours matching rows')%Q
      else sum_hours hours matching rows'
  end.

(** A student absence counts for a student when it is theirs, is of the
    module asked for when one is asked for, and is not justified unless
    justified absences are to be counted. *)
Definition student_matching (student_id : Z) (module_filter : option Z)
    (count_justified : bool) (a : StudentAbsence) : bool :=
  (sa_student_id a =? student_id)
  && match module_filter with
     | Some m => sa_module_id a =? m
     | None => true
     end
  && (count_justified || negb (sa_is_justified a)).

End Spec.


(** ** The requests that write to the absence tables *)

Inductive Request : Type :=
  | ApiCreateStudentAbsence (current_user_id : Z) (data : option Api.AbsenceJson)
  | ApiToggleStudentAbsenceJustified (absence_id : Z)
  | ApiDeleteStudentAbsence (absence_id : Z)
  | AdminCreateStudentAbsence (current_user_id : Z) (form : Forms.StudentAbsenceForm)
  | AdminCreateProfessorAbsence (current_user_id : Z) (form : Forms.ProfessorAbsenceForm)
  | AdminToggleStudentAbsenceJustified (absence_id : Z)
  | AdminDeleteStudentAbsence (absence_id : Z).

(** The world after the handler of a request has run. *)
Definition handle (env : Env) (r : Request) (w : World) : World :=
  match r with
  | ApiCreateStudentAbsence u data => fst (Api.create_student_absence env u data w)
  | ApiToggleStudentAbsenceJustified id =>
      fst (Api.toggle_student_absence_justified env id w)
  | ApiDeleteStudentAbsence id => fst (Api.delete_student_absence env id w)
  | AdminCreateStudentAbsence u form => fst (Admin.create_student_absence env u form w)
  | AdminCreateProfessorAbsence u form =>
      fst (Admin.create_professor_absence env u form w)
  | AdminToggleStudentAbsenceJustified id =>
      fst (Admin.toggle_student_absence_justified env id w)
  | AdminDeleteStudentAbsence id => fst (Admin.delete_student_absence env id w)
  end.

(** Requests served one after the other. *)
Definition serve (env : Env) (rs : list Request) (w : World) : World :=
  fold_left (fun w r => handle env r w) rs w.


(** ** Vocabulary of the properties *)

(** The request body passes the validation of the API handler: the four
    required fields are truthy, the student and the module exist and the
    date parses. *)
Definition api_passes_validation (env : Env) (db : DB) (data : Api.AbsenceJson)
    (student : StudentProfile) (m : Module) (date : Date) (hours : Q) : Prop :=
  (exists student_id, truthy_id (Api.j_student_id data) = Some student_id
     /\ StudentProfile_query_get db student_id = Some student)
  /\ (exists module_id, truthy_id (Api.j_module_id data) = Some module_id
     /\ Module_query_get db module_id = Some m)
  /\ (exists date_str, truthy_str (Api.j_date data) = Some date_str
     /\ strptime_date env date_str = Some date)
  /\ truthy_num (Api.j_hours data) = Some hours.

(** The form passes [validate_on_submit] with the choices the page handler
    offers. *)
Definition admin_passes_validation (env : Env) (db : DB)
    (form : Forms.StudentAbsenceForm) (student_id module_id : Z) (date : Date)
    (hours : Q) : Prop :=
  Forms.student_validate_on_submit env (map sp_id (student_profile db))
    (map m_id (List.filter m_is_active (module db))) form
  = Some (student_id, module_id, date, hours).

Definition professor_passes_validation (env : Env) (db : DB)
    (form : Forms.ProfessorAbsenceForm) (professor_id : Z) (date : Date)
    (hours : Q) : Prop :=
  Forms.professor_validate_on_submit env (map pp_id (professor_profile db)) form
  = Some (professor_id, date, hours).

(** Some stored student absence has this student, module and date. *)
Definition student_absence_recorded (db : DB) (student_id module_id : Z) (date : Date)
    : Prop :=
  exists a, In a (student_absence db)
    /\ sa_student_id a = student_id /\ sa_module_id a = module_id /\ sa_date a = date.

Definition professor_absence_recorded (db : DB) (professor_id : Z) (date : Date)
    : Prop :=
  exists a, In a (professor_absence db)
    /\ pa_professor_id a = professor_id /\ pa_date a = date.

(** The message that goes with a status, for the total counted after the
    creation. *)
Definition notification_for (student : StudentProfile) (m : Module) (total_hours : Q)
    (status : Status) : list Email :=
  match status with
  | ok => []
  | warning =>
      [ThresholdWarning (sp_user student) (m_name m) total_hours
         (m_absence_threshold m)
         (py_round ((total_hours / m_absence_threshold m) * 100)%Q)]
  | exceeded =>
      [ThresholdExceeded (sp_user student) (m_name m) total_hours
         (m_absence_threshold m)]
  end.

(** The absence table with one more row. *)
Definition with_student_absence (db : DB) (row : StudentAbsence) : DB :=
  mkDB (student_profile db) (professor_profile db) (module db)
    (student_absence db ++ [row]) (professor_absence db).

(** The row the API handler stores for a validated body. *)
Definition api_new_row (db : DB) (current_user_id : Z) (data : Api.AbsenceJson)
    (student : StudentProfile) (m : Module) (date : Date) (hours : Q) : StudentAbsence :=
  mkStudentAbsence (next_id (map sa_id (student_absence db))) (sp_id student) (m_id m)
    date hours (Api.j_reason data)
    (match Api.j_is_justified data with Some b => b | None => false end)
    current_user_id.


(** The row the page handler stores for a validated form. *)
Definition admin_new_row (db : DB) (current_user_id : Z)
    (form : Forms.StudentAbsenceForm) (student_id module_id : Z) (date : Date)
    (hours : Q) : StudentAbsence :=
  mkStudentAbsence (next_id (map sa_id (student_absence db))) student_id module_id
    date hours (Some (Forms.f_reason form)) (Forms.f_is_justified form)
    current_user_id.

(** The world with one more flashed message. *)
Definition flashed (message category : string) (w : World) : World :=
  mkWorld (w_db w) (w_outbox w) (w_log w) (w_flashes w ++ [(message, category)]).

(** ** A small school, for the examples *)

Module School.

Definition alice_user : User := mkUser 1 "alice@example.org" "Alice Martin".

Definition alice : StudentProfile := mkStudentProfile 1 "S001" "Alice" "Martin" alice_user.

Definition durand_user : User := mkUser 2 "durand@example.org" "Paul Durand".

Definition durand : ProfessorProfile :=
  mkProfessorProfile 1 "P001" "Paul" "Durand" durand_user.

(** A module with the default threshold of 10 hours. *)
Definition prog1 : Module := mkModule 1 "PROG1" "Programmation 1" 42 10 true.

(** A module whose threshold was set to 0 hours and 0 minutes. *)
Definition seminar : Module := mkModule 2 "SEM" "Seminaire" 12 0 true.

Definition january (d : Z) : Date := mkDate 2024 1 d.

(** An unjustified absence of [alice] in [prog1]. *)
Definition missed (id : Z) (d : Z) (hours : Q) : StudentAbsence :=
  mkStudentAbsence id 1 1 (january d) hours None false 9.

Definition school (absences : list StudentAbsence) : DB :=
  mkDB [alice] [durand] [prog1; seminar] absences [].

Definition world (absences : list StudentAbsence) : World :=
  mkWorld (school absences) [] [] [].

(** Dates of January 2024 are read from their ISO form; anything else is
    refused. *)
Definition read_date (s : string) : option Date :=
  if String.eqb s "2024-01-08" then Some (january 8)
  else if String.eqb s "2024-01-09" then Some (january 9)
  else if String.eqb s "2024-01-10" then Some (january 10)
  else None.

(** Mail and database both work. *)
Definition fair_weather : Env :=
  mkEnv read_date (january 31) (fun _ => false) (fun _ => false).


(** The body of a request to record [hours] missed by [alice] in [prog1]. *)
Definition request (date_str : string) (hours : Q) : Api.AbsenceJson :=
  Api.mkAbsenceJson (Some 1) (Some 1) (Some date_str) (Some hours) None None.

(** The same absence entered in the web form. *)
Definition form (d : Z) (hours : Q) : Forms.StudentAbsenceForm :=
  Forms.mkStudentAbsenceForm true true (Some 1) (Some 1) (Some (january d))
    (Some hours) "" false.

(** A day off of [durand], stored and as entered in the web form. *)
Definition day_off (id : Z) (d : Z) (hours : Q) : ProfessorAbsence :=
  mkProfessorAbsence id 1 (january d) hours None false 9.

Definition day_off_form (d : Z) (hours : Q) : Forms.ProfessorAbsenceForm :=
  Forms.mkProfessorAbsenceForm true true (Some 1) (Some (january d)) (Some hours)
    "" false.

Definition staff_world (absences : list ProfessorAbsence) : World :=
  mkWorld (mkDB [alice] [durand] [prog1; seminar] [] absences) [] [] [].

(** Five hours missed on 8 January, then one more hour on 9 January. *)
Definition first_request : Request :=
  ApiCreateStudentAbsence 9 (Some (request "2024-01-08" 5)).

Definition second_request : Request :=
  ApiCreateStudentAbsence 9 (Some (request "2024-01-09" 1)).



End School.
(** ** models.py on IEEE doubles

    A [Float] column comes back from the database as a Python [float], an
    IEEE 754 binary64 number, and [sum], [+], [*], [/] and [>=] work on
    these with a rounding after every operation.  The module below is the
    aggregator and the threshold evaluator of models.py read this way, on
    Rocq's primitive [float], whose operations are the binary64 ones.  It is
    the reading for what is said about the numbers the methods return; the
    rows of a table come in the order the query returns them. *)

Module Float64.

(** [sum(xs)]: starts from 0 and adds from the left, each addition rounded
    to the nearest double.  This is the plain loop, which CPython runs up
    to version 3.11; from 3.12 on [sum] carries a correction term for
    floats and can differ from the plain loop in the last place. *)
Definition py_sum (xs : list float) : float := fold_left PrimFloat.add xs 0%float.

(** [a / b]: raises [ZeroDivisionError] when [b == 0], which 0.0 and -0.0
    both are. *)
Definition py_truediv (a b : float) : PyResult float :=
  if PrimFloat.eqb b 0%float then Raise ZeroDivisionError else Ret (a / b)%float.

Record Module : Type := mkModule {
  m_id : Z;
  m_code : string;
  m_name : string;
  m_total_hours : float;
  m_absence_threshold : float;
  m_is_active : bool
}.

Record StudentAbsence : Type := mkStudentAbsence {
  sa_id : Z;
  sa_student_id : Z;
  sa_module_id : Z;
  sa_date : Date;
  sa_hours : float;
  sa_reason : option string;
  sa_is_justified : bool;
  sa_recorded_by_id : Z
}.

Record ProfessorAbsence : Type := mkProfessorAbsence {
  pa_id : Z;
  pa_professor_id : Z;
  pa_date : Date;
  pa_hours : float;
  pa_reason : option string;
  pa_is_justified : bool;
  pa_recorded_by_id : Z
}.

(** The tables the methods read. *)
Record DB : Type := mkDB {
  module : list Module;
  student_absence : list StudentAbsence;
  professor_absence : list ProfessorAbsence
}.

(** [Module.query.get(id)] *)
Definition Module_query_get (db : DB) (id : Z) : option Module :=
  List.find (fun m => m_id m =? id) (module db).

Module StudentProfileMethods.

(** [StudentProfile.get_total_absence_hours(self, module_id=None,
    count_justified=False)] *)
Definition get_total_absence_hours (db : DB) (self : StudentProfile)
    (module_id : option Z) (count_justified : bool) : float :=
  let query := List.filter (fun a => sa_student_id a =? sp_id self) (student_absence db) in
  let query :=
    match truthy_id module_id with
    | Some mid => List.filter (fun a => sa_module_id a =? mid) query
    | None => query
    end in
  let query :=
    if negb count_justified
    then List.filter (fun a => Bool.eqb (sa_is_justified a) false) query
    else query in
  py_sum (map sa_hours query).

(** [StudentProfile.get_absence_rate(self, module_id)] *)
Definition get_absence_rate (db : DB) (self : StudentProfile) (module_id : Z)
    : PyResult float :=
  match Module_query_get db module_id with
  | None => Ret 0%float
  | Some module =>
      if PrimFloat.eqb (m_absence_threshold module) 0%float then Ret 0%float
      else
        let total_absence := get_total_absence_hours db self (Some module_id) false in
        q ← py_truediv total_absence (m_absence_threshold module);
        Ret (q * 100)%float
  end.

(** [StudentProfile.check_threshold_status(self, module_id)] *)
Definition check_threshold_status (db : DB) (self : StudentProfile) (module_id : Z)
    : Status :=
  match Module_query_get db module_id with
  | None => ok
  | Some module =>
      let total_absence := get_total_absence_hours db self (Some module_id) false in
      let threshold := m_absence_threshold module in
      if PrimFloat.leb threshold total_absence then exceeded
      else if PrimFloat.leb (threshold * 0.5)%float total_absence then warning
      else ok
  end.

End StudentProfileMethods.

Module ProfessorProfileMethods.

(** The [absences] relationship: the rows that point to this professor. *)
Definition absences (db : DB) (self : ProfessorProfile) : list ProfessorAbsence :=
  List.filter (fun a => pa_professor_id a =? pp_id self) (professor_absence db).

(** [ProfessorProfile.get_total_absence_hours(self, count_justified=False)] *)
Definition get_total_absence_hours (db : DB) (self : ProfessorProfile)
    (count_justified : bool) : float :=
  let absences := absences db self in
  let absences :=
    if negb count_justified
    then List.filter (fun a => negb (pa_is_justified a)) absences
    else absences in
  py_sum (map pa_hours absences).

(** [ProfessorProfile.get_total_absence_days(self, count_justified=False)];
    the divisor is the literal 8. *)
Definition get_total_absence_days (db : DB) (self : ProfessorProfile)
    (count_justified : bool) : float :=
  let hours := get_total_absence_hours db self count_justified in
  (hours / 8)%float.

End ProfessorProfileMethods.

(** The totals in the words of the specification. *)
Module Spec.

(** The table is gone through once; the hours of each row that satisfies
    [matching] are added to the running total. *)
Fixpoint add_hours {A : Type} (hours : A -> float) (matching : A -> bool)
    (total : float) (rows : list A) : float :=
  match rows with
  | [] => total
  | a :: rows' =>
      add_hours hours matching
        (if matching a then (total + hours a)%float else total) rows'
  end.

(** Sum of the [hours] of the rows that satisfy [matching]. *)
Definition sum_hours {A : Type} (hours : A -> float) (matching : A -> bool)
    (rows : list A) : float :=
  add_hours hours matching 0%float rows.

(** A student absence counts for a student when it is theirs, is of the
    module asked for when one is asked for, and is not justified unless
    justified absences are to be counted. *)
Definition student_matching (student_id : Z) (module_filter : option Z)
    (count_justified : bool) (a : StudentAbsence) : bool :=
  (sa_student_id a =? student_id)
  && match module_filter with
     | Some m => sa_module_id a =? m
     | None => true
     end
  && (count_justified || negb (sa_is_justified a)).

Definition professor_matching (professor_id : Z) (count_justified : bool)
    (a : ProfessorAbsence) : bool :=
  (pa_professor_id a =? professor_id)
  && (count_justified || negb (pa_is_justified a)).

End Spec.

(** The unjustified hours of a student in a module, as the specification
    words them. *)
Definition unjustified_hours (db : DB) (self : StudentProfile) (module_id : Z) : float :=
  Spec.sum_hours sa_hours
    (Spec.student_matching (sp_id self) (truthy_id (Some module_id)) false)
    (student_absence db).

(** The tables of the examples: [prog1] with the default threshold of 10
    hours, a seminar whose threshold was set to 0, and a lab with a
    threshold of 3 hours. *)
Module School.

Definition prog1 : Module := mkModule 1 "PROG1" "Programmation 1" 42 10 true.

Definition seminar : Module := mkModule 2 "SEM" "Seminaire" 12 0 true.

Definition lab : Module := mkModule 3 "LAB" "Travaux pratiques" 21 3 true.

(** An absence of [School.alice] in a module. *)
Definition missed (id module_id : Z) (hours : float) (is_justified : bool)
    : StudentAbsence :=
  mkStudentAbsence id 1 module_id (mkDate 2024 1 (7 + id)) hours None is_justified 9.

(** A day off of [School.durand]. *)
Definition day_off (id : Z) (hours : float) (is_justified : bool) : ProfessorAbsence :=
  mkProfessorAbsence id 1 (mkDate 2024 1 (7 + id)) hours None is_justified 9.

Definition school (absences : list StudentAbsence) : DB :=
  mkDB [prog1; seminar; lab] absences [].

Definition staff (absences : list ProfessorAbsence) : DB :=
  mkDB [prog1; seminar; lab] [] absences.

(** Four short absences in the lab: 36, 42, 48 and 54 minutes. *)
Definition short_absences : list StudentAbsence :=
  [missed 1 3 0.6 false; missed 2 3 0.7 false; missed 3 3 0.8 false;
   missed 4 3 0.9 false].

End School.

End Float64.
(** ** Vocabulary of the further properties *)

(** What the constraint [unique_student_absence] of the table speaks of. *)
Definition student_absence_key (a : StudentAbsence) : Z * Z * Date :=
  (sa_student_id a, sa_module_id a, sa_date a).

(** What the constraint [unique_professor_absence] speaks of. *)
Definition professor_absence_key (a : ProfessorAbsence) : Z * Date :=
  (pa_professor_id a, pa_date a).

(** No two student absences share student, module and date; no two
    professor absences share professor and date. *)
Definition unique_absences (db : DB) : Prop :=
  NoDup (map student_absence_key (student_absence db))
  /\ NoDup (map professor_absence_key (professor_absence db)).

(** No two absences of a table share their primary key. *)
Definition unique_absence_ids (db : DB) : Prop :=
  NoDup (map sa_id (student_absence db))
  /\ NoDup (map pa_id (professor_absence db)).

(** The absence with this key, with its justified flag turned over. *)
Definition flip_justified (id : Z) (a : StudentAbsence) : StudentAbsence :=
  if sa_id a =? id
  then mkStudentAbsence (sa_id a) (sa_student_id a) (sa_module_id a) (sa_date a)
         (sa_hours a) (sa_reason a) (negb (sa_is_justified a)) (sa_recorded_by_id a)
  else a.

(** The tables after the justified flag of an absence was turned over. *)
Definition with_toggled (db : DB) (id : Z) : DB :=
  mkDB (student_profile db) (professor_profile db) (module db)
    (map (flip_justified id) (student_absence db)) (professor_absence db).

(** The tables after a student absence was deleted. *)
Definition without_student_absence (db : DB) (id : Z) : DB :=
  mkDB (student_profile db) (professor_profile db) (module db)
    (List.filter (fun a => negb (sa_id a =? id)) (student_absence db))
    (professor_absence db).

(** The tables with one more professor absence. *)
Definition with_professor_absence (db : DB) (row : ProfessorAbsence) : DB :=
  mkDB (student_profile db) (professor_profile db) (module db)
    (student_absence db) (professor_absence db ++ [row]).

(** The ways a request can leave the tables. *)
Inductive db_effect (db : DB) : DB -> Prop :=
  | effect_none : db_effect db db
  | effect_student_absence (row : StudentAbsence) :
      sa_id row = next_id (map sa_id (student_absence db)) ->
      Api.existing_absence db (sa_student_id row) (sa_module_id row) (sa_date row)
      = None ->
      db_effect db (with_student_absence db row)
  | effect_professor_absence (row : ProfessorAbsence) :
      pa_id row = next_id (map pa_id (professor_absence db)) ->
      Admin.existing_professor_absence db (pa_professor_id row) (pa_date row) = None ->
      db_effect db (with_professor_absence db row)
  | effect_toggled (id : Z) : db_effect db (with_toggled db id)
  | effect_deleted (id : Z) : db_effect db (without_student_absence db id).


(** Settings in which the database refuses every commit. *)
Definition database_down : Env :=
  mkEnv School.read_date (School.january 31) (fun _ => false) (fun _ => true).

(** ** models.py: roles *)

Module UserRole.

Definition SUPER_ADMIN : string := "super_admin".
Definition ADMIN_STAFF : string := "admin_staff".
Definition PROFESSOR : string := "professor".
Definition STUDENT : string := "student".

(** [UserRole.all()] *)
Definition all : list string := [SUPER_ADMIN; ADMIN_STAFF; PROFESSOR; STUDENT].

End UserRole.

(** [current_user] as the decorators and the dashboard read it: whether
    somebody is logged in, and the columns of that user. *)
Record CurrentUser : Type := mkCurrentUser {
  cu_is_authenticated : bool;
  cu_is_active : bool;
  cu_role : string;
  cu_id : Z;
  cu_is_first_login : bool
}.

(** [x in xs] on strings. *)
Definition str_in (x : string) (xs : list string) : bool :=
  existsb (String.eqb x) xs.

Module UserMethods.

(** [User.is_super_admin], [is_admin_staff], [is_professor], [is_student] *)
Definition is_super_admin (self : CurrentUser) : bool :=
  String.eqb (cu_role self) UserRole.SUPER_ADMIN.

Definition is_admin_staff (self : CurrentUser) : bool :=
  String.eqb (cu_role self) UserRole.ADMIN_STAFF.

Definition is_professor (self : CurrentUser) : bool :=
  String.eqb (cu_role self) UserRole.PROFESSOR.

Definition is_student (self : CurrentUser) : bool :=
  String.eqb (cu_role self) UserRole.STUDENT.

(** [User.can_create_users] *)
Definition can_create_users (self : CurrentUser) : bool :=
  str_in (cu_role self) [UserRole.SUPER_ADMIN; UserRole.ADMIN_STAFF].

End UserMethods.

(** ** utils/decorators.py *)

Module Decorators.

(** What a decorated page handler gives: the decorator's own redirection
    (to an endpoint, with the [next] address when it passes one), the
    status it aborts with, or what the handler returned. *)
Inductive Guarded (A : Type) : Type :=
  | Redirected (endpoint : string) (next : option string)
  | Aborted (code : Z)
  | Called (a : A).

Arguments Redirected {A} endpoint next.
Arguments Aborted {A} code.
Arguments Called {A} a.

(** The decorated function is called and its result returned. *)
Definition call {A : Type} (f : M A) : M (Guarded A) :=
  let* a := f in m_ret (Called a).

(** [login_required_with_role], applied to its roles. *)
Definition login_required_with_role {A : Type} (roles : list string)
    (current_user : CurrentUser) (request_url : string) (f : M A) : M (Guarded A) :=
  if negb (cu_is_authenticated current_user) then
    flash "Veuillez vous connecter pour accéder à cette page." "warning" >>
    m_ret (Redirected "auth.login" (Some request_url))
  else if negb (cu_is_active current_user) then
    flash "Votre compte est désactivé." "danger" >>
    m_ret (Redirected "auth.login" None)
  else if match roles with [] => false | _ :: _ => true end
          && negb (str_in (cu_role current_user) roles) then
    flash "Vous n'avez pas les permissions nécessaires." "danger" >>
    m_ret (Aborted 403)
  else call f.

(** [super_admin_required] *)
Definition super_admin_required {A : Type} (current_user : CurrentUser)
    (request_url : string) (f : M A) : M (Guarded A) :=
  if negb (cu_is_authenticated current_user) then
    flash "Veuillez vous connecter." "warning" >>
    m_ret (Redirected "auth.login" (Some request_url))
  else if negb (String.eqb (cu_role current_user) UserRole.SUPER_ADMIN) then
    flash "Accès réservé au super administrateur." "danger" >>
    m_ret (Aborted 403)
  else call f.

(** [admin_required] *)
Definition admin_required {A : Type} (current_user : CurrentUser)
    (request_url : string) (f : M A) : M (Guarded A) :=
  if negb (cu_is_authenticated current_user) then
    flash "Veuillez vous connecter." "warning" >>
    m_ret (Redirected "auth.login" (Some request_url))
  else if negb (str_in (cu_role current_user)
                  [UserRole.SUPER_ADMIN; UserRole.ADMIN_STAFF]) then
    flash "Accès réservé au personnel administratif." "danger" >>
    m_ret (Aborted 403)
  else call f.

(** [professor_required] *)
Definition professor_required {A : Type} (current_user : CurrentUser)
    (request_url : string) (f : M A) : M (Guarded A) :=
  if negb (cu_is_authenticated current_user) then
    flash "Veuillez vous connecter." "warning" >>
    m_ret (Redirected "auth.login" (Some request_url))
  else if negb (String.eqb (cu_role current_user) UserRole.PROFESSOR) then
    flash "Accès réservé aux professeurs." "danger" >>
    m_ret (Aborted 403)
  else call f.

(** [student_required] *)
Definition student_required {A : Type} (current_user : CurrentUser)
    (request_url : string) (f : M A) : M (Guarded A) :=
  if negb (cu_is_authenticated current_user) then
    flash "Veuillez vous connecter." "warning" >>
    m_ret (Redirected "auth.login" (Some request_url))
  else if negb (String.eqb (cu_role current_user) UserRole.STUDENT) then
    flash "Accès réservé aux étudiants." "danger" >>
    m_ret (Aborted 403)
  else call f.

(** [can_create_users] *)
Definition can_create_users {A : Type} (current_user : CurrentUser)
    (request_url : string) (f : M A) : M (Guarded A) :=
  if negb (cu_is_authenticated current_user) then
    flash "Veuillez vous connecter." "warning" >>
    m_ret (Redirected "auth.login" (Some request_url))
  else if negb (UserMethods.can_create_users current_user) then
    flash "Vous n'avez pas les permissions pour créer des utilisateurs." "danger" >>
    m_ret (Aborted 403)
  else call f.

(** [api_login_required] *)
Definition api_login_required (current_user : CurrentUser) (f : M Api.Response)
    : M Api.Response :=
  if negb (cu_is_authenticated current_user) then
    m_ret ({[ "success" := JBool false;
              "error" := JStr "Authentication required";
              "message" := JStr "Veuillez vous connecter." ]}, 401)
  else if negb (cu_is_active current_user) then
    m_ret ({[ "success" := JBool false;
              "error" := JStr "Account disabled";
              "message" := JStr "Votre compte est désactivé." ]}, 403)
  else f.

(** [api_role_required], applied to its roles. *)
Definition api_role_required (roles : list string) (current_user : CurrentUser)
    (f : M Api.Response) : M Api.Response :=
  if negb (cu_is_authenticated current_user) then
    m_ret ({[ "success" := JBool false;
              "error" := JStr "Authentication required";
              "message" := JStr "Veuillez vous connecter." ]}, 401)
  else if negb (str_in (cu_role current_user) roles) then
    m_ret ({[ "success" := JBool false;
              "error" := JStr "Forbidden";
              "message" := JStr "Vous n'avez pas les permissions nécessaires." ]}, 403)
  else f.

(** [check_first_login]; [endpoint] is [request.endpoint]. *)
Definition check_first_login {A : Type} (current_user : CurrentUser)
    (endpoint : string) (f : M A) : M (Guarded A) :=
  if cu_is_authenticated current_user && cu_is_first_login current_user then
    if negb (String.eqb endpoint "auth.change_password") then
      flash "Veuillez changer votre mot de passe initial." "warning" >>
      m_ret (Redirected "auth.change_password" None)
    else call f
  else call f.

(** [login_required] of flask_login, the outermost decorator of the pages,
    with the login manager as app.py sets it up ([login_view] 'auth.login',
    [login_message], [login_message_category] 'warning').  A request of a
    user who is not authenticated does not reach the decorated function:
    [login_manager.unauthorized()] flashes the login message and redirects
    to the login view, the address asked for going along as [next];
    [next_url] is that address as the login manager writes it.  The pages
    are served for GET and POST, never for the exempt method OPTIONS. *)
Definition login_required {A : Type} (current_user : CurrentUser)
    (next_url : string) (f : M (Guarded A)) : M (Guarded A) :=
  if negb (cu_is_authenticated current_user) then
    flash "Veuillez vous connecter pour accéder à cette page." "warning" >>
    m_ret (Redirected "auth.login" (Some next_url))
  else f.

(** What a decorator returns when the function it decorates is decorated
    itself: the redirection or the abort of either one, or what the
    function returned. *)
Definition flatten {A : Type} (g : Guarded (Guarded A)) : Guarded A :=
  match g with
  | Redirected endpoint next => Redirected endpoint next
  | Aborted code => Aborted code
  | Called a => a
  end.

Definition stacked {A : Type} (f : M (Guarded (Guarded A))) : M (Guarded A) :=
  let* g := f in m_ret (flatten g).

End Decorators.

(** ** The decorated routes *)

Module Routes.

(** [POST /api/v1/absences/students]: [create_student_absence] under
    [@api_login_required] and
    [@api_role_required(UserRole.SUPER_ADMIN, UserRole.ADMIN_STAFF)]; the
    handler records the absence under [current_user.id]. *)
Definition api_create_student_absence (env : Env) (current_user : CurrentUser)
    (data : option Api.AbsenceJson) : M Api.Response :=
  Decorators.api_login_required current_user
    (Decorators.api_role_required [UserRole.SUPER_ADMIN; UserRole.ADMIN_STAFF]
       current_user
       (Api.create_student_absence env (cu_id current_user) data)).

(** [/admin/absences/students/create]: [create_student_absence] under
    [@login_required] and [@admin_required]. *)
Definition admin_create_student_absence (env : Env) (current_user : CurrentUser)
    (request_url next_url : string) (form : Forms.StudentAbsenceForm)
    : M (Decorators.Guarded Admin.HtmlResponse) :=
  Decorators.login_required current_user next_url
    (Decorators.admin_required current_user request_url
       (Admin.create_student_absence env (cu_id current_user) form)).

(** The body of [dashboard] of routes/main.py. *)
Definition dashboard_body (current_user : CurrentUser) : M Admin.HtmlResponse :=
  if String.eqb (cu_role current_user) UserRole.SUPER_ADMIN then
    m_ret (Admin.Redirect "admin.super_admin_dashboard")
  else if String.eqb (cu_role current_user) UserRole.ADMIN_STAFF then
    m_ret (Admin.Redirect "admin.staff_dashboard")
  else if String.eqb (cu_role current_user) UserRole.PROFESSOR then
    m_ret (Admin.Redirect "professor.dashboard")
  else if String.eqb (cu_role current_user) UserRole.STUDENT then
    m_ret (Admin.Redirect "student.dashboard")
  else
    flash "Rôle inconnu." "danger" >>
    m_ret (Admin.Redirect "main.landing").

(** [/dashboard]: [dashboard] under [@login_required] and
    [@check_first_login]. *)
Definition dashboard (current_user : CurrentUser) (next_url : string)
    : M (Decorators.Guarded Admin.HtmlResponse) :=
  Decorators.login_required current_user next_url
    (Decorators.check_first_login current_user "main.dashboard"
       (dashboard_body current_user)).

(** The decorators each dashboard page carries, from the outermost one:
    [@login_required] and [@super_admin_required] on
    [admin.super_admin_dashboard]; [@login_required] and [@admin_required]
    on [admin.staff_dashboard]; [@login_required], [@professor_required]
    and [@check_first_login] on [professor.dashboard]; [@login_required],
    [@student_required] and [@check_first_login] on [student.dashboard].
    Other endpoints are not dashboards. *)
Definition dashboard_guard {A : Type} (endpoint : string)
    : option (CurrentUser -> string -> string -> M A -> M (Decorators.Guarded A)) :=
  if String.eqb endpoint "admin.super_admin_dashboard"
  then Some (fun current_user request_url next_url f =>
               Decorators.login_required current_user next_url
                 (Decorators.super_admin_required current_user request_url f))
  else if String.eqb endpoint "admin.staff_dashboard"
  then Some (fun current_user request_url next_url f =>
               Decorators.login_required current_user next_url
                 (Decorators.admin_required current_user request_url f))
  else if String.eqb endpoint "professor.dashboard"
  then Some (fun current_user request_url next_url f =>
               Decorators.login_required current_user next_url
                 (Decorators.stacked
                    (Decorators.professor_required current_user request_url
                       (Decorators.check_first_login current_user endpoint f))))
  else if String.eqb endpoint "student.dashboard"
  then Some (fun current_user request_url next_url f =>
               Decorators.login_required current_user next_url
                 (Decorators.stacked
                    (Decorators.student_required current_user request_url
                       (Decorators.check_first_login current_user endpoint f))))
  else None.

End Routes.

(** ** routes/admin.py: threshold settings and user status *)

Module AdminSettings.

(** A row of [threshold_setting]: its key, the columns [ThresholdSetting]
    holds and who updated it last. *)
Record SettingRow : Type := mkSettingRow {
  sr_id : Z;
  sr_setting : ThresholdSetting;
  sr_updated_by_id : option Z
}.

(** A row of [user], by the columns [toggle_user_status] reads and
    writes. *)
Record UserRow : Type := mkUserRow {
  u_id : Z;
  u_email : string;
  u_role : string;
  u_is_active : bool
}.

(** The tables and the session these two handlers act on. *)
Record State : Type := mkState {
  settings : list SettingRow;
  users : list UserRow;
  flashes : list (string * string)
}.

(** [request.form] of [update_threshold]: each field as
    [request.form.get(name, default, type=...)] finds it, [None] when it is
    missing or does not convert. *)
Record ThresholdForm : Type := mkThresholdForm {
  tf_setting_type : option string;
  tf_threshold_days : option Z;
  tf_threshold_hours : option Z;
  tf_warning_percentage : option Q
}.

Definition flash_state (message category : string) (s : State) : State :=
  mkState (settings s) (users s) (flashes s ++ [(message, category)]).

(** [ThresholdSetting.query.filter_by(setting_type=setting_type).first()] *)
Definition setting_of_type (rows : list SettingRow) (setting_type : string)
    : option SettingRow :=
  List.find (fun r => String.eqb (ts_setting_type (sr_setting r)) setting_type) rows.

(** The assignments to the row that was found: the first row of that type
    gets the new values, under the same key. *)
Fixpoint assign_first (rows : list SettingRow) (setting_type : string)
    (days hours : Z) (percentage : Q) (user_id : Z) : list SettingRow :=
  match rows with
  | [] => []
  | r :: rows' =>
      if String.eqb (ts_setting_type (sr_setting r)) setting_type
      then mkSettingRow (sr_id r)
             (mkThresholdSetting (ts_setting_type (sr_setting r)) days hours percentage)
             (Some user_id) :: rows'
      else r :: assign_first rows' setting_type days hours percentage user_id
  end.

(** [update_threshold]; a commit that raises leaves the exception to the
    caller and the tables as they were. *)
Definition update_threshold (commit_raises : bool) (current_user_id : Z)
    (form : ThresholdForm) (s : State) : State * PyResult Admin.HtmlResponse :=
  let setting_type :=
    match tf_setting_type form with Some t => t | None => "professor_global" end in
  let threshold_days :=
    match tf_threshold_days form with Some d => d | None => 0 end in
  let threshold_hours :=
    match tf_threshold_hours form with Some h => h | None => 0 end in
  let warning_percentage :=
    match tf_warning_percentage form with Some p => p | None => 50%Q end in
  if (threshold_days =? 0) && (threshold_hours =? 0) then
    (flash_state "Le seuil doit être supérieur à 0." "danger" s,
     Ret (Admin.Redirect "admin.threshold_settings"))
  else
    let rows :=
      match setting_of_type (settings s) setting_type with
      | Some _ =>
          assign_first (settings s) setting_type threshold_days threshold_hours
            warning_percentage current_user_id
      | None =>
          (settings s
           ++ [mkSettingRow (next_id (map sr_id (settings s)))
                 (mkThresholdSetting setting_type threshold_days threshold_hours
                    warning_percentage)
                 (Some current_user_id)])%list
      end in
    if commit_raises then (s, Raise SQLAlchemyError)
    else
      (flash_state "Seuil mis à jour avec succès!" "success"
         (mkState rows (users s) (flashes s)),
       Ret (Admin.Redirect "admin.threshold_settings")).

(** [User.query.get(id)] *)
Definition user_get (rows : list UserRow) (id : Z) : option UserRow :=
  List.find (fun r => u_id r =? id) rows.

(** [user.is_active = not user.is_active] on the row with this key. *)
Definition toggle_active (id : Z) (r : UserRow) : UserRow :=
  if u_id r =? id
  then mkUserRow (u_id r) (u_email r) (u_role r) (negb (u_is_active r))
  else r.

(** [toggle_user_status] *)
Definition toggle_user_status (commit_raises : bool) (current_user : CurrentUser)
    (id : Z) (s : State) : State * PyResult Admin.HtmlResponse :=
  match user_get (users s) id with
  | None => (s, Ret (Admin.Abort 404))
  | Some user =>
      if u_id user =? cu_id current_user then
        (flash_state "Vous ne pouvez pas désactiver votre propre compte." "danger" s,
         Ret (Admin.Redirect "admin.list_users"))
      else if String.eqb (u_role user) UserRole.SUPER_ADMIN
              && negb (String.eqb (cu_role current_user) UserRole.SUPER_ADMIN) then
        (flash_state
           "Seul un super administrateur peut modifier un autre super administrateur."
           "danger" s,
         Ret (Admin.Redirect "admin.list_users"))
      else if commit_raises then (s, Raise SQLAlchemyError)
      else
        (flash_state
           (if negb (u_is_active user) then "Compte activé avec succès."
            else "Compte désactivé avec succès.")
           "success"
           (mkState (settings s) (map (toggle_active (u_id user)) (users s)) (flashes s)),
         Ret (Admin.Redirect "admin.list_users"))
  end.

End AdminSettings.

(** ** models.py: the initial password *)

Module Password.

(** [string.ascii_letters], [string.digits] and the punctuation the method
    adds. *)
Definition ascii_letters : string :=
  "abcdefghijklmnopqrstuvwxyzABCDEFGHIJKLMNOPQRSTUVWXYZ".

Definition digits : string := "0123456789".

Definition alphabet : string := ascii_letters +:+ digits +:+ "!@#$%^&*".

(** [secrets.choice(seq)] at its [i]-th call: the element at a position
    below [len(seq)]; [draw i] is the random number it is taken from. *)
Definition secrets_choice (draw : nat -> nat) (i : nat) (seq : list Ascii.ascii)
    : Ascii.ascii :=
  nth (draw i mod length seq)%nat seq Ascii.zero.

(** [User.generate_initial_password(length=12)] *)
Definition generate_initial_password (draw : nat -> nat) (length : nat) : string :=
  string_of_list_ascii
    (map (fun i => secrets_choice draw i (list_ascii_of_string alphabet))
       (seq 0 length)).

End Password.

(** ** routes/admin.py: the alerts of the dashboards *)

Module Dashboard.

(** An entry of [alerts] in [super_admin_dashboard]. *)
Record Alert : Type := mkAlert {
  al_student_id : Z;
  al_module_id : Z;
  al_student_name : string;
  al_type : Status;
  al_message : string
}.


(** The relationship [student.absences]: the rows that point to the
    student. *)
Definition absences (db : DB) (student : StudentProfile) : list StudentAbsence :=
  List.filter (fun a => sa_student_id a =? sp_id student) (student_absence db).

(** The first and the last name of a student, as both dashboards write
    them. *)
Definition student_name (student : StudentProfile) : string :=
  sp_first_name student +:+ " " +:+ sp_last_name student.

(** [status in ['warning', 'exceeded']] *)
Definition is_alert (status : Status) : bool :=
  match status with
  | ok => false
  | warning | exceeded => true
  end.

(** [next((a for a in alerts if a['student_id'] == .. and a['module_id'] ==
    ..), None)] *)
Definition existing_alert (alerts : list Alert) (student_id module_id : Z)
    : option Alert :=
  List.find (fun a => (al_student_id a =? student_id) && (al_module_id a =? module_id))
    alerts.

(** The inner loop of [super_admin_dashboard], over the absences of one
    student; [absence.module] of a row without module raises. *)
Fixpoint super_admin_scan (db : DB) (student : StudentProfile)
    (rows : list StudentAbsence) (alerts : list Alert) : PyResult (list Alert) :=
  match rows with
  | [] => Ret alerts
  | absence :: rows' =>
      let status :=
        StudentProfileMethods.check_threshold_status db student (sa_module_id absence) in
      if is_alert status then
        match existing_alert alerts (sp_id student) (sa_module_id absence) with
        | Some _ => super_admin_scan db student rows' alerts
        | None =>
            match Module_query_get db (sa_module_id absence) with
            | None => Raise AttributeError
            | Some m =>
                super_admin_scan db student rows'
                  (alerts
                   ++ [mkAlert (sp_id student) (sa_module_id absence)
                         (student_name student) status
                         ("Seuil d'absence "
                          +:+ (match status with
                               | exceeded => "dépassé"
                               | _ => "proche"
                               end)
                          +:+ " pour " +:+ m_name m)])
            end
        end
      else super_admin_scan db student rows' alerts
  end.

(** The outer loop, over [StudentProfile.query.all()]. *)
Fixpoint super_admin_students (db : DB) (students : list StudentProfile)
    (alerts : list Alert) : PyResult (list Alert) :=
  match students with
  | [] => Ret alerts
  | student :: students' =>
      match super_admin_scan db student (absences db student) alerts with
      | Ret alerts' => super_admin_students db students' alerts'
      | Raise e => Raise e
      end
  end.

(** [alerts] as [super_admin_dashboard] computes it. *)
Definition super_admin_alerts (db : DB) : PyResult (list Alert) :=
  super_admin_students db (student_profile db) [].





End Dashboard.

(** The student and the module an alert is about. *)
Definition alert_key (a : Dashboard.Alert) : Z * Z :=
  (Dashboard.al_student_id a, Dashboard.al_module_id a).

(** An alert is justified by the tables: it names a student of the table
    and a module that exists, the student has an absence in that module,
    and the type of the alert is the status of the student in the module,
    which is not 'ok'. *)
Definition alert_justified (db : DB) (a : Dashboard.Alert) : Prop :=
  exists student m absence,
    In student (student_profile db)
    /\ Dashboard.al_student_id a = sp_id student
    /\ Dashboard.al_student_name a = Dashboard.student_name student
    /\ Module_query_get db (Dashboard.al_module_id a) = Some m
    /\ Dashboard.al_type a
       = StudentProfileMethods.check_threshold_status db student
           (Dashboard.al_module_id a)
    /\ Dashboard.al_type a <> ok
    /\ In absence (student_absence db)
    /\ sa_student_id absence = sp_id student
    /\ sa_module_id absence = Dashboard.al_module_id a.

(** What the accumulator of the alert loops keeps: one alert at most for a
    student and a module, and justified alerts only. *)
Definition alerts_kept (db : DB) (alerts : list Dashboard.Alert) : Prop :=
  NoDup (map alert_key alerts) /\ forall a, In a alerts -> alert_justified db a.




(** ** routes/api.py: reading the absences of a student *)

Module ApiRead.






End ApiRead.

(** * Properties *)

(** ** Sums and filters *)

Lemma fold_left_Qplus_acc (xs : list Q) (acc : Q) :
  (fold_left Qplus xs acc == acc + fold_left Qplus xs 0)%Q.
Proof.
  revert acc. induction xs as [|x xs IH]; intros acc; simpl.
  - ring.
  - rewrite (IH (acc + x)%Q), (IH (0 + x)%Q). ring.
Qed.

Lemma py_sum_cons (x : Q) (xs : list Q) :
  (py_sum (x :: xs) == x + py_sum xs)%Q.
Proof.
  unfold py_sum. simpl. rewrite fold_left_Qplus_acc. ring.
Qed.

Lemma py_sum_filter_spec {A : Type} (hours : A -> Q) (p : A -> bool) (rows : list A) :
  (py_sum (map hours (List.filter p rows)) == Spec.sum_hours hours p rows)%Q.
Proof.
  induction rows as [|a rows IH]; simpl.
  - reflexivity.
  - destruct (p a); simpl.
    + rewrite py_sum_cons, IH. reflexivity.
    + exact IH.
Qed.

Lemma filter_twice {A : Type} (p q : A -> bool) (rows : list A) :
  List.filter q (List.filter p rows) = List.filter (fun a => p a && q a) rows.
Proof.
  induction rows as [|a rows IH]; simpl; [reflexivity|].
  destruct (p a); simpl; [destruct (q a)|]; rewrite IH; reflexivity.
Qed.

Lemma filter_all {A : Type} (rows : list A) :
  List.filter (fun _ => true) rows = rows.
Proof.
  induction rows as [|a rows IH]; simpl; [reflexivity | now rewrite IH].
Qed.

Lemma py_sum_app (xs ys : list Q) :
  (py_sum (xs ++ ys) == py_sum xs + py_sum ys)%Q.
Proof.
  induction xs as [|x xs IH]; simpl.
  - unfold py_sum at 2. simpl. ring.
  - rewrite !py_sum_cons, IH. ring.
Qed.

(** ** The aggregator *)

Example py_round_ties_to_even :
  py_round (5 # 2) = 2 /\ py_round (7 # 2) = 4 /\ py_round (-1 # 2) = 0
  /\ py_round ((6 / 10) * 100) = 60.
Proof.
  repeat split.
Qed.

(** [if module_id:] reads a key of 0 like no key at all: every module is
    counted. *)
Lemma module_id_zero_is_no_filter (db : DB) (self : StudentProfile)
    (count_justified : bool) :
  StudentProfileMethods.get_total_absence_hours db self (Some 0) count_justified
  = StudentProfileMethods.get_total_absence_hours db self None count_justified.
Proof.
  reflexivity.
Qed.

(** Three hours missed, two of them justified: one hour counts by default,
    three when justified absences are counted. *)
Example get_total_absence_hours_justified :
  StudentProfileMethods.get_total_absence_hours
    (School.school [School.missed 1 8 1;
                    mkStudentAbsence 2 1 1 (School.january 9) 2 None true 9])
    School.alice (Some 1) false = 1%Q
  /\ StudentProfileMethods.get_total_absence_hours
       (School.school [School.missed 1 8 1;
                       mkStudentAbsence 2 1 1 (School.january 9) 2 None true 9])
       School.alice (Some 1) true = 3%Q.
Proof.
  split; reflexivity.
Qed.

(** The student query, narrowed step by step, selects the rows that
    [Spec.student_matching] describes. *)
Lemma student_query_matching (db : DB) (self : StudentProfile)
    (module_id : option Z) (count_justified : bool) :
  StudentProfileMethods.get_total_absence_hours db self module_id count_justified
  = py_sum (map sa_hours
      (List.filter
         (Spec.student_matching (sp_id self) (truthy_id module_id) count_justified)
         (student_absence db))).
Proof.
  unfold StudentProfileMethods.get_total_absence_hours, Spec.student_matching.
  destruct (truthy_id module_id) as [mid|]; destruct count_justified; simpl;
    rewrite ?filter_twice; do 2 f_equal;
    apply filter_ext; intros a;
    destruct (sa_student_id a =? sp_id self), (sa_is_justified a);
    simpl; rewrite ?andb_true_r, ?andb_false_r; reflexivity.
Qed.

(** Adding up the hours of the rows a filter keeps is going through the
    table once with a running total. *)
Lemma fold_left_add_filter {A : Type} (hours : A -> float) (p : A -> bool)
    (rows : list A) (total : float) :
  fold_left PrimFloat.add (map hours (List.filter p rows)) total
  = Float64.Spec.add_hours hours p total rows.
Proof.
  revert total. induction rows as [|a rows IH]; intros total; simpl.
  - reflexivity.
  - destruct (p a); simpl; apply IH.
Qed.

(** The student query, narrowed step by step, and the sum over what it
    returns. *)
Lemma Float64_student_total (db : Float64.DB) (self : StudentProfile)
    (module_id : option Z) (count_justified : bool) :
  Float64.StudentProfileMethods.get_total_absence_hours db self module_id
    count_justified
  = Float64.Spec.sum_hours Float64.sa_hours
      (Float64.Spec.student_matching (sp_id self) (truthy_id module_id)
         count_justified)
      (Float64.student_absence db).
Proof.
  unfold Float64.StudentProfileMethods.get_total_absence_hours,
    Float64.Spec.sum_hours, Float64.py_sum.
  rewrite <- fold_left_add_filter. do 2 f_equal.
  unfold Float64.Spec.student_matching.
  destruct (truthy_id module_id) as [mid|]; destruct count_justified; simpl;
    rewrite ?filter_twice;
    apply filter_ext; intros a;
    destruct (Float64.sa_student_id a =? sp_id self), (Float64.sa_is_justified a);
    simpl; rewrite ?andb_true_r, ?andb_false_r; reflexivity.
Qed.

Lemma Float64_professor_total (db : Float64.DB) (self : ProfessorProfile)
    (count_justified : bool) :
  Float64.ProfessorProfileMethods.get_total_absence_hours db self count_justified
  = Float64.Spec.sum_hours Float64.pa_hours
      (Float64.Spec.professor_matching (pp_id self) count_justified)
      (Float64.professor_absence db).
Proof.
  unfold Float64.ProfessorProfileMethods.get_total_absence_hours,
    Float64.ProfessorProfileMethods.absences, Float64.Spec.sum_hours, Float64.py_sum.
  rewrite <- fold_left_add_filter. do 2 f_equal.
  unfold Float64.Spec.professor_matching.
  destruct count_justified; simpl; rewrite ?filter_twice;
    apply filter_ext; intros a; rewrite ?andb_true_r; reflexivity.
Qed.

(** C6. [get_total_absence_hours] returns the sum of the [hours] of the
    matching absence records, for a student and for a professor: the
    records of that student (professor), of the given module when a module
    filter is supplied ([module_id] neither [None] nor 0, as [if module_id:]
    reads it), and without the justified ones when [count_justified] is
    false, the value every caller that leaves the argument out gets.  The
    sum is the one Python computes on doubles: the hours are added one
    after the other, in the order of the rows, starting from 0 and rounding
    after each addition. *)
Theorem get_total_absence_hours_sums_matching :
  (forall (db : Float64.DB) (self : StudentProfile) (module_id : option Z)
          (count_justified : bool),
     Float64.StudentProfileMethods.get_total_absence_hours db self module_id
       count_justified
     = Float64.Spec.sum_hours Float64.sa_hours
         (Float64.Spec.student_matching (sp_id self) (truthy_id module_id)
            count_justified)
         (Float64.student_absence db))
  /\ (forall (db : Float64.DB) (self : ProfessorProfile) (count_justified : bool),
     Float64.ProfessorProfileMethods.get_total_absence_hours db self count_justified
     = Float64.Spec.sum_hours Float64.pa_hours
         (Float64.Spec.professor_matching (pp_id self) count_justified)
         (Float64.professor_absence db)).
Proof.
  split; intros.
  - apply Float64_student_total.
  - apply Float64_professor_total.
Qed.

(** Absences of 0.6, 0.7, 0.8 and 0.9 hours add up to 2.9999999999999996
    hours.  Of one unjustified and two justified hours in [prog1] and four
    hours in the lab, the module filter and the default count one hour,
    counting the justified ones three, and no filter, or the key 0, five.
    A professor's justified day off is not counted either. *)
Lemma get_total_absence_hours_sums_matching_witness :
  Float64.StudentProfileMethods.get_total_absence_hours
    (Float64.School.school Float64.School.short_absences) School.alice (Some 3) false
  = 2.9999999999999996%float
  /\ Float64.StudentProfileMethods.get_total_absence_hours
       (Float64.School.school
          [Float64.School.missed 1 1 1 false; Float64.School.missed 2 1 2 true;
           Float64.School.missed 3 3 4 false])
       School.alice (Some 1) false
     = 1%float
  /\ Float64.StudentProfileMethods.get_total_absence_hours
       (Float64.School.school
          [Float64.School.missed 1 1 1 false; Float64.School.missed 2 1 2 true;
           Float64.School.missed 3 3 4 false])
       School.alice (Some 1) true
     = 3%float
  /\ Float64.StudentProfileMethods.get_total_absence_hours
       (Float64.School.school
          [Float64.School.missed 1 1 1 false; Float64.School.missed 2 1 2 true;
           Float64.School.missed 3 3 4 false])
       School.alice None false
     = 5%float
  /\ Float64.StudentProfileMethods.get_total_absence_hours
       (Float64.School.school
          [Float64.School.missed 1 1 1 false; Float64.School.missed 2 1 2 true;
           Float64.School.missed 3 3 4 false])
       School.alice (Some 0) false
     = 5%float
  /\ Float64.ProfessorProfileMethods.get_total_absence_hours
       (Float64.School.staff
          [Float64.School.day_off 1 8 false; Float64.School.day_off 2 4 true])
       School.durand false
     = 8%float.
Proof.
  destruct get_total_absence_hours_sums_matching as (Hs & Hp).
  refine (conj _ (conj _ (conj _ (conj _ (conj _ _)))));
    first [rewrite Hs | rewrite Hp]; reflexivity.
Defined.

(** ** The threshold evaluator *)

Lemma Qle_bool_false (x y : Q) : Qle_bool x y = false -> ~ (x <= y)%Q.
Proof.
  intros H Hle. apply Qle_bool_iff in Hle. congruence.
Qed.

Lemma Qeq_bool_false (x y : Q) : Qeq_bool x y = false -> ~ (x == y)%Q.
Proof.
  intros H Heq. apply Qeq_bool_iff in Heq. congruence.
Qed.

(** Turns the boolean comparisons in the context into their propositions. *)
Ltac reflect_Q :=
  repeat match goal with
  | H : Qle_bool _ _ = true |- _ => apply Qle_bool_iff in H
  | H : Qle_bool _ _ = false |- _ => apply Qle_bool_false in H
  | H : Qeq_bool _ _ = true |- _ => apply Qeq_bool_iff in H
  | H : Qeq_bool _ _ = false |- _ => apply Qeq_bool_false in H
  end.

(** The status of a module that exists, as the two comparisons decide it. *)
Lemma check_threshold_status_found (db : DB) (self : StudentProfile)
    (module_id : Z) (m : Module) :
  Module_query_get db module_id = Some m ->
  StudentProfileMethods.check_threshold_status db self module_id
  = let total :=
      StudentProfileMethods.get_total_absence_hours db self (Some module_id) false in
    if Qle_bool (m_absence_threshold m) total then exceeded
    else if Qle_bool (m_absence_threshold m * (1 # 2)) total then warning
    else ok.
Proof.
  intros Hm. unfold StudentProfileMethods.check_threshold_status.
  now rewrite Hm.
Qed.

(** *** Order of doubles *)







(** The status of a module that exists, as the two comparisons decide it
    on the total of the unjustified hours. *)
Lemma Float64_check_threshold_status_found (db : Float64.DB) (self : StudentProfile)
    (module_id : Z) (m : Float64.Module) :
  Float64.Module_query_get db module_id = Some m ->
  Float64.StudentProfileMethods.check_threshold_status db self module_id
  = let total := Float64.unjustified_hours db self module_id in
    if PrimFloat.leb (Float64.m_absence_threshold m) total then exceeded
    else if PrimFloat.leb (Float64.m_absence_threshold m * 0.5)%float total
         then warning
         else ok.
Proof.
  intros Hm. unfold Float64.StudentProfileMethods.check_threshold_status.
  rewrite Hm, Float64_student_total. reflexivity.
Qed.



(** With a threshold of 0 every total that is not negative is classified
    'exceeded': the first comparison already holds. *)
Lemma check_threshold_status_zero_threshold (db : DB) (self : StudentProfile)
    (module_id : Z) (m : Module) :
  Module_query_get db module_id = Some m ->
  (m_absence_threshold m == 0)%Q ->
  (0 <= StudentProfileMethods.get_total_absence_hours db self (Some module_id) false)%Q ->
  StudentProfileMethods.check_threshold_status db self module_id = exceeded.
Proof.
  intros Hm Hz Hpos.
  rewrite (check_threshold_status_found db self module_id m Hm). cbv zeta.
  destruct (Qle_bool _ _) eqn:He; [reflexivity|].
  reflect_Q. exfalso. apply He. rewrite Hz. exact Hpos.
Qed.

(** C2, as the code behaves.  For a module with threshold 0 and a student
    without any absence, [check_threshold_status] returns 'exceeded' and
    not 'ok', while [get_absence_rate] reports a rate of 0 for the same
    student and module. *)
Theorem zero_threshold_without_absence_is_exceeded :
  m_absence_threshold School.seminar = 0%Q
  /\ Module_query_get (School.school []) 2 = Some School.seminar
  /\ StudentProfileMethods.get_total_absence_hours
       (School.school []) School.alice (Some 2) false = 0%Q
  /\ StudentProfileMethods.check_threshold_status (School.school []) School.alice 2
     = exceeded
  /\ StudentProfileMethods.get_absence_rate (School.school []) School.alice 2
     = Ret 0%Q.
Proof.
  repeat split; reflexivity.
Qed.

(** C7. With the module table fixed, the status is monotonic in the total
    of unjustified hours: if the total in one state of the absence table is
    at most the total in another, the status in the first is at most the
    status in the second, in the order ok < warning < exceeded. *)
Theorem check_threshold_status_monotonic (db1 db2 : DB) (self : StudentProfile)
    (module_id : Z) :
  module db1 = module db2 ->
  (StudentProfileMethods.get_total_absence_hours db1 self (Some module_id) false
   <= StudentProfileMethods.get_total_absence_hours db2 self (Some module_id) false)%Q ->
  status_le (StudentProfileMethods.check_threshold_status db1 self module_id)
            (StudentProfileMethods.check_threshold_status db2 self module_id).
Proof.
  intros Hmod Hle.
  unfold StudentProfileMethods.check_threshold_status, Module_query_get.
  rewrite Hmod.
  destruct (List.find _ (module db2)) as [m|]; [|unfold status_le; simpl; lia].
  set (h1 := StudentProfileMethods.get_total_absence_hours db1 self _ _) in *.
  set (h2 := StudentProfileMethods.get_total_absence_hours db2 self _ _) in *.
  set (t := m_absence_threshold m).
  destruct (Qle_bool t h1) eqn:E1, (Qle_bool t h2) eqn:E2;
    try destruct (Qle_bool (t * (1 # 2)) h1) eqn:W1;
    try destruct (Qle_bool (t * (1 # 2)) h2) eqn:W2;
    reflect_Q; unfold status_le; simpl; try lia; exfalso; lra.
Qed.

(** One more hour of absence moves [alice] from 'warning' (6 of 10 hours)
    no lower: here to 'warning' again (7 of 10 hours). *)
Lemma check_threshold_status_monotonic_witness :
  status_le
    (StudentProfileMethods.check_threshold_status
       (School.school [School.missed 1 8 6]) School.alice 1)
    (StudentProfileMethods.check_threshold_status
       (School.school [School.missed 1 8 6; School.missed 2 9 1]) School.alice 1).
Proof.
  apply (check_threshold_status_monotonic
           (School.school [School.missed 1 8 6])
           (School.school [School.missed 1 8 6; School.missed 2 9 1])
           School.alice 1);
    [reflexivity | vm_compute; discriminate].
Defined.

(** C9. [get_absence_rate] returns 0 when the module does not exist or its
    threshold equals 0, and otherwise the total of unjustified hours divided
    by the threshold, times 100, all on doubles; its division never raises;
    and [check_threshold_status] returns 'ok' when the module does not
    exist. *)
Theorem get_absence_rate_guarded (db : Float64.DB) (self : StudentProfile)
    (module_id : Z) :
  (Float64.Module_query_get db module_id = None ->
     Float64.StudentProfileMethods.get_absence_rate db self module_id = Ret 0%float
     /\ Float64.StudentProfileMethods.check_threshold_status db self module_id = ok)
  /\ (forall m, Float64.Module_query_get db module_id = Some m ->
        PrimFloat.eqb (Float64.m_absence_threshold m) 0 = true ->
        Float64.StudentProfileMethods.get_absence_rate db self module_id = Ret 0%float)
  /\ (forall m, Float64.Module_query_get db module_id = Some m ->
        PrimFloat.eqb (Float64.m_absence_threshold m) 0 = false ->
        Float64.StudentProfileMethods.get_absence_rate db self module_id
        = Ret (Float64.unjustified_hours db self module_id
               / Float64.m_absence_threshold m * 100)%float)
  /\ (forall e,
        Float64.StudentProfileMethods.get_absence_rate db self module_id <> Raise e).
Proof.
  unfold Float64.StudentProfileMethods.get_absence_rate,
    Float64.StudentProfileMethods.check_threshold_status, Float64.py_truediv.
  rewrite Float64_student_total. fold (Float64.unjustified_hours db self module_id).
  destruct (Float64.Module_query_get db module_id) as [m|].
  - refine (conj _ (conj _ (conj _ _))).
    + discriminate.
    + intros m' [= <-] Hz. now rewrite Hz.
    + intros m' [= <-] Hnz. now rewrite Hnz.
    + intros e.
      destruct (PrimFloat.eqb (Float64.m_absence_threshold m) 0); discriminate.
  - refine (conj _ (conj _ (conj _ _))); try discriminate. auto.
Qed.

(** No module has the key 7: the rate is 0 and the status 'ok'.  The
    seminar has threshold 0: the rate is 0 whatever was missed.  [prog1]
    has threshold 10: six unjustified hours (three justified ones and two
    hours in the lab aside) are a rate of 60.  In the lab, 0.6, 0.7, 0.8 and
    0.9 hours of a threshold of 3 are a rate of 99.999999999999986. *)
Lemma get_absence_rate_guarded_witness :
  (Float64.StudentProfileMethods.get_absence_rate
     (Float64.School.school [Float64.School.missed 1 1 6 false]) School.alice 7
   = Ret 0%float
   /\ Float64.StudentProfileMethods.check_threshold_status
        (Float64.School.school [Float64.School.missed 1 1 6 false]) School.alice 7
      = ok)
  /\ Float64.StudentProfileMethods.get_absence_rate
       (Float64.School.school [Float64.School.missed 1 2 6 false]) School.alice 2
     = Ret 0%float
  /\ Float64.StudentProfileMethods.get_absence_rate
       (Float64.School.school
          [Float64.School.missed 1 1 6 false; Float64.School.missed 2 1 3 true;
           Float64.School.missed 3 3 2 false])
       School.alice 1
     = Ret 60%float
  /\ Float64.StudentProfileMethods.get_absence_rate
       (Float64.School.school Float64.School.short_absences) School.alice 3
     = Ret 99.999999999999986%float.
Proof.
  refine (conj _ (conj _ (conj _ _))).
  - apply (get_absence_rate_guarded
             (Float64.School.school [Float64.School.missed 1 1 6 false])
             School.alice 7). reflexivity.
  - apply (proj1 (proj2 (get_absence_rate_guarded
             (Float64.School.school [Float64.School.missed 1 2 6 false])
             School.alice 2)) Float64.School.seminar); reflexivity.
  - rewrite (proj1 (proj2 (proj2 (get_absence_rate_guarded
               (Float64.School.school
                  [Float64.School.missed 1 1 6 false; Float64.School.missed 2 1 3 true;
                   Float64.School.missed 3 3 2 false])
               School.alice 1))) Float64.School.prog1 eq_refl eq_refl).
    reflexivity.
  - rewrite (proj1 (proj2 (proj2 (get_absence_rate_guarded
               (Float64.School.school Float64.School.short_absences)
               School.alice 3))) Float64.School.lab eq_refl eq_refl).
    reflexivity.
Defined.

(** C10. A day is 8 hours in both conversions.  [get_total_hours] is
    [threshold_days * 8 + threshold_hours], so that a threshold given in
    days and hours is the threshold given in hours alone, eight for each
    day.  A professor's [get_total_absence_days] is the sum of the hours of
    the professor's absences (the unjustified ones unless the justified are
    to be counted) divided by 8 on doubles; eight hours are one day. *)
Theorem day_is_eight_hours :
  (forall self : ThresholdSetting,
     ThresholdSettingMethods.get_total_hours self
     = threshold_days self * 8 + threshold_hours self)
  /\ (forall (setting_type : string) (days hours : Z) (percentage : Q),
        ThresholdSettingMethods.get_total_hours
          (mkThresholdSetting setting_type days hours percentage)
        = ThresholdSettingMethods.get_total_hours
            (mkThresholdSetting setting_type 0 (8 * days + hours) percentage))
  /\ (forall (db : Float64.DB) (self : ProfessorProfile) (count_justified : bool),
        Float64.ProfessorProfileMethods.get_total_absence_days db self count_justified
        = (Float64.Spec.sum_hours Float64.pa_hours
             (Float64.Spec.professor_matching (pp_id self) count_justified)
             (Float64.professor_absence db) / 8)%float)
  /\ (forall (db : Float64.DB) (self : ProfessorProfile) (count_justified : bool),
        Float64.Spec.sum_hours Float64.pa_hours
          (Float64.Spec.professor_matching (pp_id self) count_justified)
          (Float64.professor_absence db) = 8%float ->
        Float64.ProfessorProfileMethods.get_total_absence_days db self count_justified
        = 1%float).
Proof.
  refine (conj _ (conj _ (conj _ _))).
  - intros self. reflexivity.
  - intros setting_type days hours percentage.
    unfold ThresholdSettingMethods.get_total_hours. simpl. lia.
  - intros db self count_justified.
    unfold Float64.ProfessorProfileMethods.get_total_absence_days.
    now rewrite Float64_professor_total.
  - intros db self count_justified Height.
    unfold Float64.ProfessorProfileMethods.get_total_absence_days.
    rewrite Float64_professor_total, Height. reflexivity.
Qed.

(** Two days and three hours are 19 hours.  A professor who missed eight
    and four hours without justification and two hours with one was absent
    for a day and a half, for a day and three quarters when the justified
    hours are counted. *)
Lemma day_is_eight_hours_witness :
  ThresholdSettingMethods.get_total_hours (mkThresholdSetting "professor_global" 2 3 50)
  = 19
  /\ Float64.ProfessorProfileMethods.get_total_absence_days
       (Float64.School.staff
          [Float64.School.day_off 1 8 false; Float64.School.day_off 2 4 false;
           Float64.School.day_off 3 2 true])
       School.durand false
     = 1.5%float
  /\ Float64.ProfessorProfileMethods.get_total_absence_days
       (Float64.School.staff
          [Float64.School.day_off 1 8 false; Float64.School.day_off 2 4 false;
           Float64.School.day_off 3 2 true])
       School.durand true
     = 1.75%float
  /\ Float64.ProfessorProfileMethods.get_total_absence_days
       (Float64.School.staff [Float64.School.day_off 1 8 false]) School.durand false
     = 1%float.
Proof.
  destruct day_is_eight_hours as (Hsetting & _ & Hdays & Hday).
  refine (conj _ (conj _ (conj _ _))).
  - rewrite Hsetting. reflexivity.
  - rewrite Hdays. reflexivity.
  - rewrite Hdays. reflexivity.
  - apply Hday. reflexivity.
Defined.

(** ** The JSON error envelope *)

Section Envelope.

Import Exceptions.

Implicit Types (rv : gmap string JVal) (k : string).

Lemma lookup_set_if_str k k' v rv :
  k <> k' -> set_if_str k v rv !! k' = rv !! k'.
Proof.
  intros Hne. unfold set_if_str.
  destruct (truthy_str v); [apply lookup_insert_ne, Hne | reflexivity].
Qed.

Lemma lookup_set_if_truthy k k' v rv :
  k <> k' -> set_if_truthy k v rv !! k' = rv !! k'.
Proof.
  intros Hne. unfold set_if_truthy.
  destruct v as [x|]; [destruct (py_truthy x)|];
    try reflexivity; apply lookup_insert_ne, Hne.
Qed.

Lemma lookup_set_if_not_none k k' v rv :
  k <> k' -> set_if_not_none k v rv !! k' = rv !! k'.
Proof.
  intros Hne. unfold set_if_not_none.
  destruct v; [apply lookup_insert_ne, Hne | reflexivity].
Qed.

Lemma keys_set_if_str k k' v rv :
  is_Some (set_if_str k v rv !! k') -> k' = k \/ is_Some (rv !! k').
Proof.
  destruct (decide (k = k')) as [->|Hne]; [now left|].
  rewrite (lookup_set_if_str _ _ _ _ Hne). now right.
Qed.

Lemma keys_set_if_truthy k k' v rv :
  is_Some (set_if_truthy k v rv !! k') -> k' = k \/ is_Some (rv !! k').
Proof.
  destruct (decide (k = k')) as [->|Hne]; [now left|].
  rewrite (lookup_set_if_truthy _ _ _ _ Hne). now right.
Qed.

Lemma keys_set_if_not_none k k' v rv :
  is_Some (set_if_not_none k v rv !! k') -> k' = k \/ is_Some (rv !! k').
Proof.
  destruct (decide (k = k')) as [->|Hne]; [now left|].
  rewrite (lookup_set_if_not_none _ _ _ _ Hne). now right.
Qed.

(** The three fields [AppException.to_dict] writes last win over whatever
    the payload held under the same keys. *)
Lemma AppException_to_dict_envelope (self : AppExc) :
  AppException_to_dict self !! "success" = Some (JBool false)
  /\ AppException_to_dict self !! "error" = Some (JStr (class_name self))
  /\ AppException_to_dict self !! "message" = Some (JStr (message self)).
Proof.
  unfold AppException_to_dict. repeat split.
  - rewrite !lookup_insert_ne by discriminate. apply lookup_insert_eq.
  - rewrite lookup_insert_ne by discriminate. apply lookup_insert_eq.
  - apply lookup_insert_eq.
Qed.

Lemma AppException_to_dict_keys (self : AppExc) k :
  is_Some (AppException_to_dict self !! k) ->
  k ∈ ["success"; "error"; "message"]
  \/ exists d, payload self = Some d /\ is_Some (d !! k).
Proof.
  unfold AppException_to_dict.
  destruct (decide (k = "message")) as [->|Hm]; [left; set_solver|].
  destruct (decide (k = "error")) as [->|He]; [left; set_solver|].
  destruct (decide (k = "success")) as [->|Hs]; [left; set_solver|].
  rewrite !lookup_insert_ne by congruence.
  destruct (payload self) as [d|].
  - intros Hk. right. now exists d.
  - rewrite lookup_empty. intros [x Hx]. discriminate.
Qed.

(** Looks through the conditional assignments of the subclasses. *)
Ltac skip_extra_fields :=
  repeat first
    [ rewrite lookup_set_if_str by discriminate
    | rewrite lookup_set_if_truthy by discriminate
    | rewrite lookup_set_if_not_none by discriminate ].

(** C8. The dictionary [to_dict] builds for an [AppException] or any of its
    subclasses holds [success] = false, [error] = the name of the class of
    the exception and [message] = its message; any other key is one of the
    extra fields of the subclasses (field, errors, resource_type,
    resource_id, rule, current_hours, threshold_hours, module_name) or comes
    from the payload; and [to_response] serialises that dictionary with the
    status code of the exception. *)
Theorem to_dict_envelope (self : AppExc) :
  to_dict self !! "success" = Some (JBool false)
  /\ to_dict self !! "error" = Some (JStr (class_name self))
  /\ to_dict self !! "message" = Some (JStr (message self))
  /\ (forall k, is_Some (to_dict self !! k) ->
        k ∈ ["success"; "error"; "message"]
        \/ k ∈ extra_fields
        \/ exists d, payload self = Some d /\ is_Some (d !! k))
  /\ to_response self = (to_dict self, status_code self).
Proof.
  pose proof (AppException_to_dict_envelope self) as (Hs & He & Hm).
  assert (Hkeys : forall k, is_Some (to_dict self !! k) ->
            k ∈ extra_fields \/ is_Some (AppException_to_dict self !! k)).
  { intros k. unfold extra_fields.
    destruct self; unfold to_dict, BusinessRuleError_to_dict; intros Hk;
      repeat match type of Hk with
      | is_Some (set_if_str _ _ _ !! _) =>
          apply keys_set_if_str in Hk; destruct Hk as [->|Hk]; [left; set_solver|]
      | is_Some (set_if_truthy _ _ _ !! _) =>
          apply keys_set_if_truthy in Hk; destruct Hk as [->|Hk]; [left; set_solver|]
      | is_Some (set_if_not_none _ _ _ !! _) =>
          apply keys_set_if_not_none in Hk; destruct Hk as [->|Hk]; [left; set_solver|]
      end; right; exact Hk. }
  repeat split.
  - rewrite <- Hs. destruct self; unfold to_dict, BusinessRuleError_to_dict;
      skip_extra_fields; reflexivity.
  - rewrite <- He. destruct self; unfold to_dict, BusinessRuleError_to_dict;
      skip_extra_fields; reflexivity.
  - rewrite <- Hm. destruct self; unfold to_dict, BusinessRuleError_to_dict;
      skip_extra_fields; reflexivity.
  - intros k Hk. destruct (Hkeys k Hk) as [Hx|Hb]; [right; left; exact Hx|].
    destruct (AppException_to_dict_keys self k Hb) as [Henv|Hp];
      [left; exact Henv | right; right; exact Hp].
Qed.

End Envelope.

(** A duplicate email address: the envelope with the extra key [field]. *)
Lemma to_dict_envelope_witness :
  Exceptions.to_dict (Exceptions.DuplicateError "Email déjà utilisé" (Some "email"))
    !! "error" = Some (JStr "DuplicateError")
  /\ ("field" ∈ ["success"; "error"; "message"]
      \/ "field" ∈ Exceptions.extra_fields
      \/ exists d,
           Exceptions.payload
             (Exceptions.DuplicateError "Email déjà utilisé" (Some "email")) = Some d
           /\ is_Some (d !! "field")).
Proof.
  destruct (to_dict_envelope
              (Exceptions.DuplicateError "Email déjà utilisé" (Some "email")))
    as (_ & Herror & _ & Hkeys & _).
  split; [exact Herror|].
  apply Hkeys. exists (JStr "email"). apply lookup_insert_eq.
Defined.

(** ** The absence-creation handlers *)

Lemma date_eqb_eq (a b : Date) : date_eqb a b = true <-> a = b.
Proof.
  unfold date_eqb. destruct a as [y1 m1 d1], b as [y2 m2 d2]; simpl.
  rewrite !andb_true_iff, !Z.eqb_eq. split.
  - intros [[-> ->] ->]. reflexivity.
  - intros [= -> -> ->]. auto.
Qed.

Lemma StudentProfile_query_get_id (db : DB) (id : Z) (s : StudentProfile) :
  StudentProfile_query_get db id = Some s -> sp_id s = id.
Proof.
  intros H. apply find_some in H. destruct H as [_ H]. now apply Z.eqb_eq.
Qed.

Lemma Module_query_get_id (db : DB) (id : Z) (m : Module) :
  Module_query_get db id = Some m -> m_id m = id.
Proof.
  intros H. apply find_some in H. destruct H as [_ H]. now apply Z.eqb_eq.
Qed.

Lemma query_get_listed {A : Type} (key : A -> Z) (rows : list A) (id : Z) :
  existsb (Z.eqb id) (map key rows) = true ->
  exists a, List.find (fun a => key a =? id) rows = Some a.
Proof.
  induction rows as [|a rows IH]; simpl; [discriminate|].
  rewrite (Z.eqb_sym id (key a)).
  destruct (key a =? id); simpl; [intros _; now exists a | exact IH].
Qed.

(** A status of 'warning' is only reached with a threshold other than 0. *)
Lemma warning_threshold_not_zero (db : DB) (self : StudentProfile) (module_id : Z)
    (m : Module) :
  Module_query_get db module_id = Some m ->
  StudentProfileMethods.check_threshold_status db self module_id = warning ->
  Qeq_bool (m_absence_threshold m) 0 = false.
Proof.
  intros Hm. rewrite (check_threshold_status_found db self module_id m Hm). cbv zeta.
  destruct (Qle_bool (m_absence_threshold m) _) eqn:He; [discriminate|].
  destruct (Qle_bool (m_absence_threshold m * _) _) eqn:Hw; [|discriminate].
  intros _. destruct (Qeq_bool (m_absence_threshold m) 0) eqn:Hz; [|reflexivity].
  reflect_Q. exfalso. apply He. rewrite Hz in Hw |- *. lra.
Qed.

(** What the notification step of the API handler does, by the message
    that goes with the status. *)
Lemma Api_send_notifications_run (env : Env) (student : StudentProfile) (m : Module)
    (total_hours : Q) (status : Status) (w : World) :
  (status = warning -> Qeq_bool (m_absence_threshold m) 0 = false) ->
  Api.send_notifications env student m total_hours status w
  = match notification_for student m total_hours status with
    | [] => (w, Ret JNull)
    | msg :: _ =>
        if mail_raises env msg
        then (mkWorld (w_db w) (w_outbox w)
                (w_log w ++ ["Failed to send " ++ status_str status ++ ": mail error"])
                (w_flashes w),
              Ret JNull)
        else (mkWorld (w_db w) (w_outbox w ++ [msg]) (w_log w) (w_flashes w),
              Ret (JStr (status_str status)))
    end.
Proof.
  intros Hnz. destruct status; simpl.
  - reflexivity.
  - unfold m_bind, m_lift, py_truediv. rewrite (Hnz eq_refl).
    unfold m_try, m_bind, EmailService.send_threshold_warning,
      EmailService.send_email.
    destruct (mail_raises env _); reflexivity.
  - unfold m_try, m_bind, EmailService.send_threshold_exceeded,
      EmailService.send_email.
    destruct (mail_raises env _); reflexivity.
Qed.


(** The API handler on a body that passes validation and the duplicate
    check, when the commit goes through. *)
Lemma Api_create_accepted_run (env : Env) (u : Z) (w : World) (data : Api.AbsenceJson)
    (student : StudentProfile) (m : Module) (date : Date) (hours : Q) :
  api_passes_validation env (w_db w) data student m date hours ->
  Api.existing_absence (w_db w) (sp_id student) (m_id m) date = None ->
  let row := api_new_row (w_db w) u data student m date hours in
  let db' := with_student_absence (w_db w) row in
  let total :=
    StudentProfileMethods.get_total_absence_hours db' student (Some (m_id m)) false in
  let status := StudentProfileMethods.check_threshold_status db' student (m_id m) in
  commit_raises env (sa_id row) = false ->
  exists w' notification_sent,
    Api.send_notifications env student m total status (set_db db' w)
    = (w', Ret notification_sent)
    /\ Api.create_student_absence env u (Some data) w
       = (w', Ret (Api.success_response
                     (Some (JDict {[ "id" := JInt (sa_id row);
                                     "total_hours" := JNum total;
                                     "threshold_status" := JStr (status_str status);
                                     "notification_sent" := notification_sent ]}))
                     (Some "Absence enregistrée") 201)).
Proof.
  intros ((sid & Hsid & Hs) & (mid & Hmid & Hm) & (ds & Hds & Hdate) & Hh) Hnew
    row db' total status Hcommit.
  pose proof (StudentProfile_query_get_id _ _ _ Hs) as Es.
  pose proof (Module_query_get_id _ _ _ Hm) as Em.
  subst sid mid.
  assert (Hm' : Module_query_get db' (m_id m) = Some m) by exact Hm.
  pose proof (Api_send_notifications_run env student m total status (set_db db' w)
                (warning_threshold_not_zero db' student (m_id m) m Hm')) as Hrun.
  unfold Api.create_student_absence.
  rewrite Hsid, Hmid, Hds, Hh.
  unfold m_bind at 1. unfold query at 1. cbv iota beta.
  rewrite Hs, Hm, Hdate, Hnew.
  unfold m_try, m_bind, Session.add_student_absence, query.
  cbv zeta. change (sa_id row) with (next_id (map sa_id (student_absence (w_db w))))
    in Hcommit.
  rewrite Hcommit. cbv iota beta.
  change (set_db _ w) with (set_db db' w).
  change (w_db (set_db db' w)) with db'.
  fold total. fold status.
  rewrite Hrun.
  destruct (notification_for student m total status) as [|msg msgs].
  - eexists _, _. split; reflexivity.
  - destruct (mail_raises env msg); eexists _, _; split; reflexivity.
Qed.

Lemma listed_in_filtered {A : Type} (key : A -> Z) (p : A -> bool) (rows : list A)
    (id : Z) :
  existsb (Z.eqb id) (map key (List.filter p rows)) = true ->
  existsb (Z.eqb id) (map key rows) = true.
Proof.
  induction rows as [|a rows IH]; simpl; [auto|].
  destruct (p a); simpl; rewrite ?orb_true_iff; intuition.
Qed.

Lemma validate_select_listed (choices : list Z) (data : option Z) (v : Z) :
  Forms.validate_select choices data = Some v ->
  data = Some v /\ existsb (Z.eqb v) choices = true /\ v <> 0.
Proof.
  unfold Forms.validate_select. destruct data as [x|]; [|discriminate].
  destruct (existsb (Z.eqb x) choices) eqn:Hin; simpl; [|discriminate].
  destruct (x =? 0) eqn:Hz; simpl; [discriminate|].
  intros [= <-]. apply Z.eqb_neq in Hz. auto.
Qed.

(** A validated form names a student and a module that exist. *)
Lemma admin_validated_rows (env : Env) (db : DB) (form : Forms.StudentAbsenceForm)
    (student_id module_id : Z) (date : Date) (hours : Q) :
  admin_passes_validation env db form student_id module_id date hours ->
  (exists student, StudentProfile_query_get db student_id = Some student)
  /\ (exists m, Module_query_get db module_id = Some m).
Proof.
  unfold admin_passes_validation, Forms.student_validate_on_submit.
  destruct (_ && _ && _); [|discriminate].
  destruct (Forms.validate_select _ (Forms.f_student_id form)) as [s|] eqn:Hs;
    [|discriminate].
  destruct (Forms.validate_select _ (Forms.f_module_id form)) as [m|] eqn:Hm;
    [|discriminate].
  destruct (Forms.validate_date env _) as [d|]; [|discriminate].
  destruct (Forms.validate_hours _) as [h|]; [|discriminate].
  intros [= <- <- <- <-].
  apply validate_select_listed in Hs, Hm.
  destruct Hs as (_ & Hs & _), Hm as (_ & Hm & _).
  split.
  - exact (query_get_listed sp_id (student_profile db) s Hs).
  - apply listed_in_filtered in Hm.
    exact (query_get_listed m_id (module db) m Hm).
Qed.


(** ** Email failures *)







(** ** Duplicates *)

Lemma recorded_student_absence_found (db : DB) (student_id module_id : Z) (date : Date) :
  student_absence_recorded db student_id module_id date ->
  exists a, Api.existing_absence db student_id module_id date = Some a.
Proof.
  intros (a & Hin & Hs & Hm & Hd). unfold Api.existing_absence.
  destruct (List.find _ (student_absence db)) as [b|] eqn:Hfind; [now exists b|].
  pose proof (find_none _ _ Hfind a Hin) as Hno. cbv beta in Hno.
  rewrite Hs, Hm, Hd, !Z.eqb_refl in Hno.
  rewrite (proj2 (date_eqb_eq date date) eq_refl) in Hno. discriminate.
Qed.

Lemma recorded_professor_absence_found (db : DB) (professor_id : Z) (date : Date) :
  professor_absence_recorded db professor_id date ->
  exists a, Admin.existing_professor_absence db professor_id date = Some a.
Proof.
  intros (a & Hin & Hp & Hd). unfold Admin.existing_professor_absence.
  destruct (List.find _ (professor_absence db)) as [b|] eqn:Hfind; [now exists b|].
  pose proof (find_none _ _ Hfind a Hin) as Hno. cbv beta in Hno.
  rewrite Hp, Hd, Z.eqb_refl in Hno.
  rewrite (proj2 (date_eqb_eq date date) eq_refl) in Hno. discriminate.
Qed.

Lemma error_response_not_success (message error_type : string) (status_code : Z) :
  fst (Api.error_response message error_type status_code) !! "success"
  = Some (JBool false).
Proof.
  unfold Api.error_response. simpl. apply lookup_insert_eq.
Qed.

Lemma truthy_id_Some (o : option Z) (v : Z) : truthy_id o = Some v -> o = Some v.
Proof.
  destruct o as [z|]; simpl; [|discriminate].
  destruct (z =? 0); [discriminate | congruence].
Qed.

Lemma truthy_str_Some (o : option string) (v : string) :
  truthy_str o = Some v -> o = Some v.
Proof.
  destruct o as [s|]; simpl; [|discriminate].
  destruct (String.eqb s ""); [discriminate | congruence].
Qed.

(** The validated data of a student form are the fields of the form. *)
Lemma admin_validated_fields (env : Env) (db : DB) (form : Forms.StudentAbsenceForm)
    (student_id module_id : Z) (date : Date) (hours : Q) :
  admin_passes_validation env db form student_id module_id date hours ->
  Forms.f_student_id form = Some student_id
  /\ Forms.f_module_id form = Some module_id
  /\ Forms.f_date form = Some date.
Proof.
  unfold admin_passes_validation, Forms.student_validate_on_submit.
  destruct (_ && _ && _); [|discriminate].
  destruct (Forms.validate_select _ (Forms.f_student_id form)) as [s|] eqn:Hs;
    [|discriminate].
  destruct (Forms.validate_select _ (Forms.f_module_id form)) as [m|] eqn:Hm;
    [|discriminate].
  destruct (Forms.validate_date env _) as [d|] eqn:Hd; [|discriminate].
  destruct (Forms.validate_hours _) as [h|]; [|discriminate].
  intros [= <- <- <- <-].
  apply validate_select_listed in Hs, Hm.
  destruct Hs as (Hs & _), Hm as (Hm & _).
  unfold Forms.validate_date in Hd.
  destruct (Forms.f_date form) as [d'|]; [|discriminate].
  destruct (date_gtb d' _); [discriminate|]. injection Hd as ->. auto.
Qed.

Lemma professor_validated_fields (env : Env) (db : DB)
    (form : Forms.ProfessorAbsenceForm) (professor_id : Z) (date : Date) (hours : Q) :
  professor_passes_validation env db form professor_id date hours ->
  Forms.g_professor_id form = Some professor_id /\ Forms.g_date form = Some date.
Proof.
  unfold professor_passes_validation, Forms.professor_validate_on_submit.
  destruct (_ && _ && _); [|discriminate].
  destruct (Forms.validate_select _ (Forms.g_professor_id form)) as [p|] eqn:Hp;
    [|discriminate].
  destruct (Forms.validate_date env _) as [d|] eqn:Hd; [|discriminate].
  destruct (Forms.validate_hours _) as [h|]; [|discriminate].
  intros [= <- <- <-].
  apply validate_select_listed in Hp. destruct Hp as (Hp & _).
  unfold Forms.validate_date in Hd.
  destruct (Forms.g_date form) as [d'|]; [|discriminate].
  destruct (date_gtb d' _); [discriminate|]. injection Hd as ->. auto.
Qed.

(** C5. When a student absence with the same student, module and date is
    already stored, the creation is rejected and nothing changes: the API
    answers with an error, which is DuplicateError with HTTP 409 as soon as
    the body passes validation, and the page handler shows the form again,
    with the message that the absence was already recorded as soon as the
    form passes validation.  A professor absence with the same professor
    and date is rejected by its page handler in the same way. *)
Theorem duplicate_absence_is_rejected :
  (forall (env : Env) (u : Z) (w : World) (data : Api.AbsenceJson)
          (student_id module_id : Z) (date_str : string) (date : Date),
     Api.j_student_id data = Some student_id ->
     Api.j_module_id data = Some module_id ->
     Api.j_date data = Some date_str ->
     strptime_date env date_str = Some date ->
     student_absence_recorded (w_db w) student_id module_id date ->
     exists resp,
       Api.create_student_absence env u (Some data) w = (w, Ret resp)
       /\ fst resp !! "success" = Some (JBool false)
       /\ (forall student m hours,
             api_passes_validation env (w_db w) data student m date hours ->
             resp = Api.error_response "Cette absence existe déjà" "DuplicateError" 409))
  /\ (forall (env : Env) (u : Z) (w : World) (form : Forms.StudentAbsenceForm)
             (student_id module_id : Z) (date : Date),
     Forms.f_student_id form = Some student_id ->
     Forms.f_module_id form = Some module_id ->
     Forms.f_date form = Some date ->
     student_absence_recorded (w_db w) student_id module_id date ->
     exists w',
       Admin.create_student_absence env u form w
       = (w', Ret (Admin.RenderTemplate "admin/absences/create_student.html"))
       /\ w_db w' = w_db w
       /\ w_outbox w' = w_outbox w
       /\ (forall hours,
             admin_passes_validation env (w_db w) form student_id module_id date hours ->
             w' = flashed "Cette absence a déjà été enregistrée." "danger" w))
  /\ (forall (env : Env) (u : Z) (w : World) (form : Forms.ProfessorAbsenceForm)
             (professor_id : Z) (date : Date),
     Forms.g_professor_id form = Some professor_id ->
     Forms.g_date form = Some date ->
     professor_absence_recorded (w_db w) professor_id date ->
     exists w',
       Admin.create_professor_absence env u form w
       = (w', Ret (Admin.RenderTemplate "admin/absences/create_professor.html"))
       /\ w_db w' = w_db w
       /\ w_outbox w' = w_outbox w
       /\ (forall hours,
             professor_passes_validation env (w_db w) form professor_id date hours ->
             w' = flashed "Cette absence a déjà été enregistrée." "danger" w)).
Proof.
  split; [|split].
  - intros env u w data sid mid ds date Hsid Hmid Hds Hdate Hrec.
    destruct (recorded_student_absence_found _ _ _ _ Hrec) as (a & Hfound).
    unfold Api.create_student_absence.
    destruct (truthy_id (Api.j_student_id data)) as [sid'|] eqn:Ts;
      [apply truthy_id_Some in Ts; rewrite Hsid in Ts; injection Ts as <-|].
    2:{ eexists; split; [reflexivity|]. split; [apply error_response_not_success|].
        intros student m hours ((x & Hx & _) & _). congruence. }
    destruct (truthy_id (Api.j_module_id data)) as [mid'|] eqn:Tm;
      [apply truthy_id_Some in Tm; rewrite Hmid in Tm; injection Tm as <-|].
    2:{ eexists; split; [reflexivity|]. split; [apply error_response_not_success|].
        intros student m hours (_ & (x & Hx & _) & _). congruence. }
    destruct (truthy_str (Api.j_date data)) as [ds'|] eqn:Td;
      [apply truthy_str_Some in Td; rewrite Hds in Td; injection Td as <-|].
    2:{ eexists; split; [reflexivity|]. split; [apply error_response_not_success|].
        intros student m hours (_ & _ & (x & Hx & _) & _). congruence. }
    destruct (truthy_num (Api.j_hours data)) as [h|] eqn:Th.
    2:{ eexists; split; [reflexivity|]. split; [apply error_response_not_success|].
        intros student m hours (_ & _ & _ & Hx). congruence. }
    unfold m_bind, query. cbv iota beta.
    destruct (StudentProfile_query_get (w_db w) sid) as [student|] eqn:Hs.
    2:{ eexists; split; [reflexivity|]. split; [apply error_response_not_success|].
        intros student m hours ((x & Hx & Hq) & _).
        apply truthy_id_Some in Hx. rewrite Hsid in Hx. injection Hx as <-.
        rewrite Hs in Hq. discriminate. }
    destruct (Module_query_get (w_db w) mid) as [m|] eqn:Hm.
    2:{ eexists; split; [reflexivity|]. split; [apply error_response_not_success|].
        intros student' m hours (_ & (x & Hx & Hq) & _).
        apply truthy_id_Some in Hx. rewrite Hmid in Hx. injection Hx as <-.
        rewrite Hm in Hq. discriminate. }
    rewrite Hdate, Hfound.
    eexists; split; [reflexivity|]. split; [apply error_response_not_success|].
    reflexivity.
  - intros env u w form sid mid date Hsid Hmid Hdate Hrec.
    destruct (recorded_student_absence_found _ _ _ _ Hrec) as (a & Hfound).
    unfold Admin.create_student_absence, m_bind, query. cbv iota beta zeta.
    destruct (Forms.student_validate_on_submit env _ _ form)
      as [[[[sid' mid'] date'] hours']|] eqn:Hvalid.
    + destruct (admin_validated_fields env (w_db w) form sid' mid' date' hours' Hvalid)
        as (Es & Em & Ed).
      rewrite Hsid in Es. rewrite Hmid in Em. rewrite Hdate in Ed.
      injection Es as <-. injection Em as <-. injection Ed as <-.
      change (Admin.existing_student_absence (w_db w) sid mid date)
        with (Api.existing_absence (w_db w) sid mid date).
      rewrite Hfound. eexists; split; [reflexivity|]. repeat split.
    + eexists; split; [reflexivity|]. repeat split.
      intros hours Hv. unfold admin_passes_validation in Hv.
      rewrite Hv in Hvalid. discriminate.
  - intros env u w form pid date Hpid Hdate Hrec.
    destruct (recorded_professor_absence_found _ _ _ Hrec) as (a & Hfound).
    unfold Admin.create_professor_absence, m_bind, query. cbv iota beta zeta.
    destruct (Forms.professor_validate_on_submit env _ form)
      as [[[pid' date'] hours']|] eqn:Hvalid.
    + destruct (professor_validated_fields env (w_db w) form pid' date' hours' Hvalid)
        as (Ep & Ed).
      rewrite Hpid in Ep. rewrite Hdate in Ed.
      injection Ep as <-. injection Ed as <-.
      rewrite Hfound. eexists; split; [reflexivity|]. repeat split.
    + eexists; split; [reflexivity|]. repeat split.
      intros hours Hv. unfold professor_passes_validation in Hv.
      rewrite Hv in Hvalid. discriminate.
Qed.

(** The absence of 8 January is stored: a second one for the same day is
    refused by the API and by the form; so is a second day off of
    [durand] on 8 January. *)
Lemma duplicate_absence_is_rejected_witness :
  Api.create_student_absence School.fair_weather 9
    (Some (School.request "2024-01-08" 2)) (School.world [School.missed 1 8 4])
  = (School.world [School.missed 1 8 4],
     Ret (Api.error_response "Cette absence existe déjà" "DuplicateError" 409))
  /\ Admin.create_student_absence School.fair_weather 9 (School.form 8 2)
       (School.world [School.missed 1 8 4])
     = (flashed "Cette absence a déjà été enregistrée." "danger"
          (School.world [School.missed 1 8 4]),
        Ret (Admin.RenderTemplate "admin/absences/create_student.html"))
  /\ Admin.create_professor_absence School.fair_weather 9 (School.day_off_form 8 4)
       (School.staff_world [School.day_off 1 8 8])
     = (flashed "Cette absence a déjà été enregistrée." "danger"
          (School.staff_world [School.day_off 1 8 8]),
        Ret (Admin.RenderTemplate "admin/absences/create_professor.html")).
Proof.
  split; [|split].
  - destruct (proj1 duplicate_absence_is_rejected School.fair_weather 9
                (School.world [School.missed 1 8 4]) (School.request "2024-01-08" 2)
                1 1 "2024-01-08" (School.january 8) eq_refl eq_refl eq_refl eq_refl)
      as (resp & Hrun & _ & Hdup).
    + exists (School.missed 1 8 4). repeat split. now left.
    + rewrite Hrun. f_equal. f_equal.
      apply (Hdup School.alice School.prog1 2%Q).
      repeat split; eexists; split; reflexivity.
  - destruct (proj1 (proj2 duplicate_absence_is_rejected) School.fair_weather 9
                (School.world [School.missed 1 8 4]) (School.form 8 2)
                1 1 (School.january 8) eq_refl eq_refl eq_refl)
      as (w' & Hrun & _ & _ & Hdup).
    + exists (School.missed 1 8 4). repeat split. now left.
    + rewrite Hrun. f_equal. apply (Hdup 2%Q). reflexivity.
  - destruct (proj2 (proj2 duplicate_absence_is_rejected) School.fair_weather 9
                (School.staff_world [School.day_off 1 8 8]) (School.day_off_form 8 4)
                1 (School.january 8) eq_refl eq_refl)
      as (w' & Hrun & _ & _ & Hdup).
    + exists (School.day_off 1 8 8). repeat split. now left.
    + rewrite Hrun. f_equal. apply (Hdup 4%Q). reflexivity.
Defined.

(** ** The notifier *)





(** * Further properties *)

(** ** Totals, rate and status *)

Lemma sum_hours_app {A : Type} (hours : A -> Q) (p : A -> bool) (xs ys : list A) :
  (Spec.sum_hours hours p (xs ++ ys)
   == Spec.sum_hours hours p xs + Spec.sum_hours hours p ys)%Q.
Proof.
  induction xs as [|a xs IH]; simpl; [ring|].
  destruct (p a); rewrite IH; ring.
Qed.

(** The total of a student, by the rows that count. *)
Lemma student_total_spec (db : DB) (self : StudentProfile) (module_id : option Z)
    (count_justified : bool) :
  (StudentProfileMethods.get_total_absence_hours db self module_id count_justified
   == Spec.sum_hours sa_hours
        (Spec.student_matching (sp_id self) (truthy_id module_id) count_justified)
        (student_absence db))%Q.
Proof.
  rewrite student_query_matching. apply py_sum_filter_spec.
Qed.



(** A new row changes a total by its hours when it counts for it (the
    student's row, of the module asked for, not justified unless justified
    absences are counted) and leaves every other total as it was. *)
Lemma total_with_new_row (db : DB) (row : StudentAbsence)
    (self : StudentProfile) (module_id : option Z) (count_justified : bool) :
  (StudentProfileMethods.get_total_absence_hours (with_student_absence db row) self
     module_id count_justified
   == StudentProfileMethods.get_total_absence_hours db self module_id count_justified
      + (if Spec.student_matching (sp_id self) (truthy_id module_id) count_justified row
         then sa_hours row else 0))%Q.
Proof.
  rewrite !student_total_spec. unfold with_student_absence. simpl student_absence.
  rewrite sum_hours_app. simpl.
  destruct (Spec.student_matching _ _ _ row); ring.
Qed.

(** ** Every outcome of the API handler *)


(** The handler either refuses the body before it touches anything, or
    fails at the commit, or stores the row and answers 201. *)
Lemma Api_create_cases (env : Env) (u : Z) (data : option Api.AbsenceJson) (w : World) :
  (exists message error_type code,
     In code [400; 404; 409]
     /\ Api.create_student_absence env u data w
        = (w, Ret (Api.error_response message error_type code)))
  \/ (exists d student m date hours,
        data = Some d
        /\ api_passes_validation env (w_db w) d student m date hours
        /\ Api.existing_absence (w_db w) (sp_id student) (m_id m) date = None
        /\ ((commit_raises env (sa_id (api_new_row (w_db w) u d student m date hours))
             = true
             /\ Api.create_student_absence env u data w
                = (mkWorld (w_db w) (w_outbox w)
                     (w_log w ++ ["Error creating absence: database error"])
                     (w_flashes w),
                   Ret (Api.error_response "database error" "DatabaseError" 500)))
            \/ commit_raises env (sa_id (api_new_row (w_db w) u d student m date hours))
               = false)).
Proof.
  destruct data as [d|].
  2:{ left. exists "Données requises", "ValidationError", 400.
      split; [simpl; auto | reflexivity]. }
  unfold Api.create_student_absence.
  destruct (truthy_id (Api.j_student_id d)) as [sid|] eqn:Ts.
  2:{ left. exists "Tous les champs sont requis", "ValidationError", 400.
      split; [simpl; auto | reflexivity]. }
  destruct (truthy_id (Api.j_module_id d)) as [mid|] eqn:Tm.
  2:{ left. exists "Tous les champs sont requis", "ValidationError", 400.
      split; [simpl; auto | reflexivity]. }
  destruct (truthy_str (Api.j_date d)) as [ds|] eqn:Td.
  2:{ left. exists "Tous les champs sont requis", "ValidationError", 400.
      split; [simpl; auto | reflexivity]. }
  destruct (truthy_num (Api.j_hours d)) as [h|] eqn:Th.
  2:{ left. exists "Tous les champs sont requis", "ValidationError", 400.
      split; [simpl; auto | reflexivity]. }
  unfold m_bind at 1. unfold query at 1. cbv iota beta.
  destruct (StudentProfile_query_get (w_db w) sid) as [student|] eqn:Hs.
  2:{ left. exists "Étudiant non trouvé", "NotFoundError", 404.
      split; [simpl; auto | reflexivity]. }
  destruct (Module_query_get (w_db w) mid) as [m|] eqn:Hm.
  2:{ left. exists "Module non trouvé", "NotFoundError", 404.
      split; [simpl; auto | reflexivity]. }
  destruct (strptime_date env ds) as [date|] eqn:Hdate.
  2:{ left. exists "Format de date invalide (YYYY-MM-DD)", "ValidationError", 400.
      split; [simpl; auto | reflexivity]. }
  destruct (Api.existing_absence (w_db w) sid mid date) as [a|] eqn:Hnew.
  { left. exists "Cette absence existe déjà", "DuplicateError", 409.
    split; [simpl; auto | reflexivity]. }
  right. exists d, student, m, date, h.
  pose proof (StudentProfile_query_get_id _ _ _ Hs) as Es.
  pose proof (Module_query_get_id _ _ _ Hm) as Em.
  subst sid mid.
  split; [reflexivity|]. split.
  { repeat split; eauto. }
  split; [exact Hnew|].
  change (sa_id (api_new_row (w_db w) u d student m date h))
    with (next_id (map sa_id (student_absence (w_db w)))).
  destruct (commit_raises env (next_id (map sa_id (student_absence (w_db w)))))
    eqn:Hcommit; [left | right; reflexivity].
  split; [reflexivity|].
  unfold m_bind at 1. unfold query at 1. cbv iota beta.
  rewrite ?Hs, ?Hm, ?Hdate, ?Hnew.
  unfold m_try, m_bind, Session.add_student_absence. cbv zeta.
  rewrite Hcommit. reflexivity.
Qed.





(** ** What a request does to the tables *)

Lemma db_eta (db : DB) :
  mkDB (student_profile db) (professor_profile db) (module db) (student_absence db)
    (professor_absence db) = db.
Proof.
  now destruct db.
Qed.

Lemma Api_send_notifications_db (env : Env) (student : StudentProfile) (m : Module)
    (total_hours : Q) (status : Status) (w : World) :
  w_db (fst (Api.send_notifications env student m total_hours status w)) = w_db w.
Proof.
  destruct status; simpl; [reflexivity| |].
  - unfold m_bind, m_lift, py_truediv.
    destruct (Qeq_bool (m_absence_threshold m) 0); [reflexivity|].
    unfold m_try, m_bind, EmailService.send_threshold_warning,
      EmailService.send_email.
    destruct (mail_raises env _); reflexivity.
  - unfold m_try, m_bind, EmailService.send_threshold_exceeded,
      EmailService.send_email.
    destruct (mail_raises env _); reflexivity.
Qed.

Lemma Admin_send_notifications_db (env : Env) (student : StudentProfile) (m : Module)
    (total_hours : Q) (status : Status) (w : World) :
  w_db (fst (Admin.send_notifications env student m total_hours status w)) = w_db w.
Proof.
  destruct status; simpl; [reflexivity| |].
  - unfold m_bind, m_lift, py_truediv.
    destruct (Qeq_bool (m_absence_threshold m) 0); [reflexivity|].
    unfold m_try, EmailService.send_threshold_warning, EmailService.send_email.
    destruct (mail_raises env _); reflexivity.
  - unfold m_try, EmailService.send_threshold_exceeded, EmailService.send_email.
    destruct (mail_raises env _); reflexivity.
Qed.

Lemma StudentAbsence_query_get_id (db : DB) (id : Z) (a : StudentAbsence) :
  StudentAbsence_query_get db id = Some a -> sa_id a = id.
Proof.
  intros H. apply find_some in H. destruct H as [_ H]. now apply Z.eqb_eq.
Qed.

(** Every request leaves the tables in one of the five ways of
    [db_effect]. *)
Lemma handle_db_effect (env : Env) (r : Request) (w : World) :
  db_effect (w_db w) (w_db (handle env r w)).
Proof.
  destruct r as [u data|id|id|u form|u form|id|id]; simpl.
  - destruct (Api_create_cases env u data w)
      as [(message & error_type & code & _ & Hrun)
         |(d & student & m & date & hours & -> & Hvalid & Hnew & Hcommit)].
    + rewrite Hrun. constructor.
    + destruct Hcommit as [(_ & Hrun)|Hcommit].
      * rewrite Hrun. simpl. constructor.
      * destruct (Api_create_accepted_run env u w d student m date hours Hvalid Hnew
                    Hcommit) as (w' & ns & Hsend & Hrun).
        rewrite Hrun. simpl.
        pose proof (Api_send_notifications_db env student m
                      (StudentProfileMethods.get_total_absence_hours
                         (with_student_absence (w_db w)
                            (api_new_row (w_db w) u d student m date hours))
                         student (Some (m_id m)) false)
                      (StudentProfileMethods.check_threshold_status
                         (with_student_absence (w_db w)
                            (api_new_row (w_db w) u d student m date hours))
                         student (m_id m))
                      (set_db (with_student_absence (w_db w)
                                 (api_new_row (w_db w) u d student m date hours)) w))
          as Hdb.
        rewrite Hsend in Hdb. simpl in Hdb. rewrite Hdb.
        apply effect_student_absence; [reflexivity | exact Hnew].
  - unfold Api.toggle_student_absence_justified, m_bind, query.
    destruct (StudentAbsence_query_get (w_db w) id) as [a|] eqn:Ha; [|constructor].
    unfold m_try, m_bind, Session.toggle_justified.
    destruct (commit_raises env _); simpl; [constructor|].
    apply (effect_toggled (w_db w) (sa_id a)).
  - unfold Api.delete_student_absence, m_bind, query.
    destruct (StudentAbsence_query_get (w_db w) id) as [a|] eqn:Ha; [|constructor].
    unfold m_try, m_bind, Session.delete_student_absence.
    destruct (commit_raises env _); simpl; [constructor|].
    apply (effect_deleted (w_db w) (sa_id a)).
  - unfold Admin.create_student_absence, m_bind, query. cbv zeta.
    destruct (Forms.student_validate_on_submit _ _ _ form)
      as [[[[sid mid] date] hours]|]; [|constructor].
    destruct (Admin.existing_student_absence (w_db w) sid mid date) eqn:Hnew;
      [constructor|].
    unfold Session.add_student_absence. cbv zeta.
    destruct (commit_raises env _); [constructor|]. cbv iota beta.
    pose (row := admin_new_row (w_db w) u form sid mid date hours).
    change (set_db _ w) with (set_db (with_student_absence (w_db w) row) w).
    assert (Heff : db_effect (w_db w) (with_student_absence (w_db w) row))
      by (apply effect_student_absence; [reflexivity | exact Hnew]).
    change (w_db (set_db (with_student_absence (w_db w) row) w))
      with (with_student_absence (w_db w) row).
    destruct (StudentProfile_query_get _ sid) as [student|]; [|exact Heff].
    destruct (Module_query_get _ mid) as [m|]; [|exact Heff].
    match goal with
    | |- context [Admin.send_notifications env student m ?t ?s ?w0] =>
        pose proof (Admin_send_notifications_db env student m t s w0) as Hdb;
        destruct (Admin.send_notifications env student m t s w0) as [w1 [[]|e]]
    end; simpl in Hdb |- *; rewrite Hdb; exact Heff.
  - unfold Admin.create_professor_absence, m_bind, query. cbv zeta.
    destruct (Forms.professor_validate_on_submit _ _ form)
      as [[[pid date] hours]|]; [|constructor].
    destruct (Admin.existing_professor_absence (w_db w) pid date) eqn:Hnew;
      [constructor|].
    unfold Session.add_professor_absence. cbv zeta.
    destruct (commit_raises env _); [constructor|]. simpl.
    apply (effect_professor_absence (w_db w)
             (mkProfessorAbsence (next_id (map pa_id (professor_absence (w_db w))))
                pid date hours (Some (Forms.g_reason form)) (Forms.g_is_justified form)
                u));
      [reflexivity | exact Hnew].
  - unfold Admin.toggle_student_absence_justified, m_bind, query.
    destruct (StudentAbsence_query_get (w_db w) id) as [a|] eqn:Ha; [|constructor].
    unfold Session.toggle_justified.
    destruct (commit_raises env _); simpl; [constructor|].
    apply (effect_toggled (w_db w) (sa_id a)).
  - unfold Admin.delete_student_absence, m_bind, query.
    destruct (StudentAbsence_query_get (w_db w) id) as [a|] eqn:Ha; [|constructor].
    unfold Session.delete_student_absence.
    destruct (commit_raises env _); simpl; [constructor|].
    apply (effect_deleted (w_db w) (sa_id a)).
Qed.

(** ** Invariants of the absence tables *)

Lemma NoDup_snoc {A : Type} (l : list A) (x : A) :
  NoDup l -> ~ In x l -> NoDup (l ++ [x]).
Proof.
  intros Hl Hx. apply NoDup_app. split; [exact Hl|]. split; [|apply NoDup_singleton].
  intros y Hy Hin. apply list_elem_of_In in Hy, Hin.
  destruct Hin as [<-|[]]. contradiction.
Qed.

Lemma NoDup_map_filter {K R : Type} (key : R -> K) (keep : R -> bool)
    (rows : list R) :
  NoDup (map key rows) -> NoDup (map key (List.filter keep rows)).
Proof.
  induction rows as [|a rows IH]; simpl; intros Hl; [constructor|].
  apply NoDup_cons in Hl. destruct Hl as [Ha Hl].
  destruct (keep a); simpl; [|auto]. apply NoDup_cons. split; [|auto].
  intros Hin. apply Ha. apply list_elem_of_In in Hin. apply list_elem_of_In.
  apply in_map_iff in Hin. destruct Hin as (b & Hb & Hin).
  apply in_map_iff. exists b. split; [exact Hb|].
  apply filter_In in Hin. tauto.
Qed.

Lemma existing_absence_none_fresh (db : DB) (student_id module_id : Z) (date : Date) :
  Api.existing_absence db student_id module_id date = None ->
  ~ In (student_id, module_id, date) (map student_absence_key (student_absence db)).
Proof.
  intros Hnone Hin. apply in_map_iff in Hin. destruct Hin as (a & Hkey & Hin).
  pose proof (find_none _ _ Hnone a Hin) as Hno. cbv beta in Hno.
  unfold student_absence_key in Hkey. injection Hkey as Hs Hm Hd.
  rewrite Hs, Hm, Hd, !Z.eqb_refl in Hno.
  rewrite (proj2 (date_eqb_eq date date) eq_refl) in Hno. discriminate.
Qed.

Lemma existing_professor_absence_none_fresh (db : DB) (professor_id : Z) (date : Date) :
  Admin.existing_professor_absence db professor_id date = None ->
  ~ In (professor_id, date) (map professor_absence_key (professor_absence db)).
Proof.
  intros Hnone Hin. apply in_map_iff in Hin. destruct Hin as (a & Hkey & Hin).
  pose proof (find_none _ _ Hnone a Hin) as Hno. cbv beta in Hno.
  unfold professor_absence_key in Hkey. injection Hkey as Hp Hd.
  rewrite Hp, Hd, Z.eqb_refl in Hno.
  rewrite (proj2 (date_eqb_eq date date) eq_refl) in Hno. discriminate.
Qed.

Lemma next_id_above (ids : list Z) (id : Z) : In id ids -> id < next_id ids.
Proof.
  unfold next_id. induction ids as [|x ids IH]; simpl; [intros []|].
  intros [->|Hin]; [lia|]. specialize (IH Hin). lia.
Qed.

Lemma next_id_fresh (ids : list Z) : ~ In (next_id ids) ids.
Proof.
  intros Hin. apply next_id_above in Hin. lia.
Qed.

Lemma flip_justified_key (id : Z) (l : list StudentAbsence) :
  map student_absence_key (map (flip_justified id) l) = map student_absence_key l.
Proof.
  rewrite map_map. apply map_ext. intros a. unfold flip_justified.
  destruct (sa_id a =? id); reflexivity.
Qed.

Lemma flip_justified_id (id : Z) (l : list StudentAbsence) :
  map sa_id (map (flip_justified id) l) = map sa_id l.
Proof.
  rewrite map_map. apply map_ext. intros a. unfold flip_justified.
  destruct (sa_id a =? id); reflexivity.
Qed.

Lemma db_effect_unique_absences (db db' : DB) :
  db_effect db db' -> unique_absences db -> unique_absences db'.
Proof.
  unfold unique_absences.
  intros [|row _ Hnew|row _ Hnew|id|id] [Hs Hp]; simpl; split; try assumption.
  - rewrite map_app. simpl. apply NoDup_snoc; [exact Hs|].
    exact (existing_absence_none_fresh _ _ _ _ Hnew).
  - rewrite map_app. simpl. apply NoDup_snoc; [exact Hp|].
    exact (existing_professor_absence_none_fresh _ _ _ Hnew).
  - now rewrite flip_justified_key.
  - now apply NoDup_map_filter.
Qed.

Lemma db_effect_unique_ids (db db' : DB) :
  db_effect db db' -> unique_absence_ids db -> unique_absence_ids db'.
Proof.
  unfold unique_absence_ids.
  intros [|row Hid _|row Hid _|id|id] [Hs Hp]; simpl; split; try assumption.
  - rewrite map_app. simpl. apply NoDup_snoc; [exact Hs|].
    rewrite Hid. apply next_id_fresh.
  - rewrite map_app. simpl. apply NoDup_snoc; [exact Hp|].
    rewrite Hid. apply next_id_fresh.
  - now rewrite flip_justified_id.
  - now apply NoDup_map_filter.
Qed.

(** X4. The uniqueness the two absence tables declare is kept by the handlers
    themselves: if no two student absences share student, module and date
    and no two professor absences share professor and date, then the same
    holds after any sequence of creations, toggles and deletions, whatever
    the mail service and the commits do. *)
Theorem handlers_keep_absences_unique (env : Env) (rs : list Request) (w : World) :
  unique_absences (w_db w) -> unique_absences (w_db (serve env rs w)).
Proof.
  unfold serve. revert w. induction rs as [|r rs IH]; intros w Hw; simpl; [exact Hw|].
  apply IH. exact (db_effect_unique_absences _ _ (handle_db_effect env r w) Hw).
Qed.

(** After the two creations of [School.first_request] and
    [School.second_request] and a third one that repeats the second, the
    table still has one row per student, module and date. *)
Lemma handlers_keep_absences_unique_witness :
  unique_absences
    (w_db (serve School.fair_weather
             [School.first_request; School.second_request; School.second_request]
             (School.world []))).
Proof.
  apply handlers_keep_absences_unique.
  split; constructor.
Defined.

(** X5. Primary keys stay unique: a new row gets a key above every key of its
    table, and toggling and deleting introduce none. *)
Theorem handlers_keep_ids_unique (env : Env) (rs : list Request) (w : World) :
  unique_absence_ids (w_db w) -> unique_absence_ids (w_db (serve env rs w)).
Proof.
  unfold serve. revert w. induction rs as [|r rs IH]; intros w Hw; simpl; [exact Hw|].
  apply IH. exact (db_effect_unique_ids _ _ (handle_db_effect env r w) Hw).
Qed.

Lemma handlers_keep_ids_unique_witness :
  unique_absence_ids
    (w_db (serve School.fair_weather
             [School.first_request; ApiDeleteStudentAbsence 1; School.second_request]
             (School.world []))).
Proof.
  apply handlers_keep_ids_unique.
  split; constructor.
Defined.

(** ** Toggling and deleting *)

Lemma flip_justified_twice (id : Z) (a : StudentAbsence) :
  flip_justified id (flip_justified id a) = a.
Proof.
  unfold flip_justified. destruct (sa_id a =? id) eqn:Hid; simpl; rewrite Hid.
  - rewrite negb_involutive. now destruct a.
  - reflexivity.
Qed.

Lemma with_toggled_twice (db : DB) (id : Z) :
  with_toggled (with_toggled db id) id = db.
Proof.
  unfold with_toggled. simpl. rewrite map_map.
  rewrite (map_ext _ (fun a => a) (flip_justified_twice id)), map_id.
  apply db_eta.
Qed.

Lemma query_get_toggled (db : DB) (id id' : Z) :
  StudentAbsence_query_get (with_toggled db id) id'
  = option_map (flip_justified id) (StudentAbsence_query_get db id').
Proof.
  unfold StudentAbsence_query_get, with_toggled. simpl.
  induction (student_absence db) as [|a l IH]; simpl; [reflexivity|].
  replace (sa_id (flip_justified id a)) with (sa_id a)
    by (unfold flip_justified; destruct (sa_id a =? id); reflexivity).
  destruct (sa_id a =? id'); [reflexivity | exact IH].
Qed.

(** The tables after the API or the page handler toggled an absence that
    exists, when the commit goes through. *)
Lemma toggle_found_db (env : Env) (id : Z) (a : StudentAbsence) (w : World) :
  StudentAbsence_query_get (w_db w) id = Some a ->
  commit_raises env id = false ->
  w_db (handle env (ApiToggleStudentAbsenceJustified id) w) = with_toggled (w_db w) id
  /\ w_db (handle env (AdminToggleStudentAbsenceJustified id) w)
     = with_toggled (w_db w) id.
Proof.
  intros Ha Hcommit. pose proof (StudentAbsence_query_get_id _ _ _ Ha) as Hid.
  split; simpl.
  - unfold Api.toggle_student_absence_justified, m_bind, query. rewrite Ha.
    unfold m_try, m_bind, Session.toggle_justified. rewrite Hid, Hcommit. reflexivity.
  - unfold Admin.toggle_student_absence_justified, m_bind, query. rewrite Ha.
    unfold Session.toggle_justified. rewrite Hid, Hcommit. reflexivity.
Qed.

Lemma toggle_missing_world (env : Env) (id : Z) (w : World) :
  StudentAbsence_query_get (w_db w) id = None ->
  handle env (ApiToggleStudentAbsenceJustified id) w = w
  /\ handle env (AdminToggleStudentAbsenceJustified id) w = w.
Proof.
  intros Ha. split; simpl.
  - unfold Api.toggle_student_absence_justified, m_bind, query. now rewrite Ha.
  - unfold Admin.toggle_student_absence_justified, m_bind, query. now rewrite Ha.
Qed.

(** X6. Toggling the justified flag of an absence twice gives the tables back
    as they were, through the API and through the page handler, when the
    commits for that absence go through; after one toggle the absence is
    found with its flag negated and nothing else changed. *)
Theorem toggling_twice_restores_the_tables (env : Env) (id : Z) (w : World) :
  commit_raises env id = false ->
  w_db (serve env [ApiToggleStudentAbsenceJustified id;
                   ApiToggleStudentAbsenceJustified id] w) = w_db w
  /\ w_db (serve env [AdminToggleStudentAbsenceJustified id;
                      AdminToggleStudentAbsenceJustified id] w) = w_db w
  /\ (forall a, StudentAbsence_query_get (w_db w) id = Some a ->
        StudentAbsence_query_get
          (w_db (handle env (ApiToggleStudentAbsenceJustified id) w)) id
        = Some (mkStudentAbsence (sa_id a) (sa_student_id a) (sa_module_id a)
                  (sa_date a) (sa_hours a) (sa_reason a) (negb (sa_is_justified a))
                  (sa_recorded_by_id a))).
Proof.
  intros Hcommit. unfold serve. cbn [fold_left].
  destruct (StudentAbsence_query_get (w_db w) id) as [a|] eqn:Ha.
  - destruct (toggle_found_db env id a w Ha Hcommit) as (Hapi & Hadmin).
    assert (Ha' : forall w', w_db w' = with_toggled (w_db w) id ->
              StudentAbsence_query_get (w_db w') id = Some (flip_justified id a)).
    { intros w' ->. rewrite query_get_toggled, Ha. reflexivity. }
    split; [|split].
    + destruct (toggle_found_db env id _ _ (Ha' _ Hapi) Hcommit) as (-> & _).
      rewrite Hapi. apply with_toggled_twice.
    + destruct (toggle_found_db env id _ _ (Ha' _ Hadmin) Hcommit) as (_ & ->).
      rewrite Hadmin. apply with_toggled_twice.
    + intros a' [= <-]. rewrite (Ha' _ Hapi). unfold flip_justified.
      now rewrite (StudentAbsence_query_get_id _ _ _ Ha), Z.eqb_refl.
  - destruct (toggle_missing_world env id w Ha) as (Hapi & Hadmin).
    rewrite !Hapi, !Hadmin. repeat split. intros a [=].
Qed.

(** [alice]'s absence of 8 January is justified, then unjustified again. *)
Lemma toggling_twice_restores_the_tables_witness :
  w_db (serve School.fair_weather
          [ApiToggleStudentAbsenceJustified 1; ApiToggleStudentAbsenceJustified 1]
          (School.world [School.missed 1 8 6]))
  = School.school [School.missed 1 8 6].
Proof.
  apply (toggling_twice_restores_the_tables School.fair_weather 1
           (School.world [School.missed 1 8 6])).
  reflexivity.
Defined.

Lemma query_get_without (db : DB) (id id' : Z) :
  StudentAbsence_query_get (without_student_absence db id) id'
  = if id' =? id then None else StudentAbsence_query_get db id'.
Proof.
  unfold StudentAbsence_query_get, without_student_absence. simpl.
  induction (student_absence db) as [|a l IH]; simpl.
  - now destruct (id' =? id).
  - destruct (sa_id a =? id) eqn:Ha; simpl.
    + rewrite IH. apply Z.eqb_eq in Ha. subst id.
      destruct (id' =? sa_id a) eqn:Hi; [reflexivity|].
      rewrite Z.eqb_sym, Hi. reflexivity.
    + destruct (sa_id a =? id') eqn:Hi; [|exact IH].
      apply Z.eqb_eq in Hi. subst id'. now rewrite Ha.
Qed.

(** X7. Deleting an absence that is not there is answered with 404 and changes
    nothing; deleting one that is there, when the commit goes through,
    leaves no absence under that key and every other key as it was found
    before. *)
Theorem deleting_removes_that_absence_only (env : Env) (id : Z) (w : World) :
  (StudentAbsence_query_get (w_db w) id = None ->
     Api.delete_student_absence env id w
     = (w, Ret (Api.error_response "Absence non trouvée" "NotFoundError" 404))
     /\ Admin.delete_student_absence env id w = (w, Ret (Admin.Abort 404)))
  /\ (commit_raises env id = false ->
      forall id',
        StudentAbsence_query_get (w_db (handle env (ApiDeleteStudentAbsence id) w)) id'
        = (if id' =? id then None else StudentAbsence_query_get (w_db w) id')
        /\ StudentAbsence_query_get
             (w_db (handle env (AdminDeleteStudentAbsence id) w)) id'
           = (if id' =? id then None else StudentAbsence_query_get (w_db w) id')).
Proof.
  split.
  - intros Ha. split.
    + unfold Api.delete_student_absence, m_bind, query. now rewrite Ha.
    + unfold Admin.delete_student_absence, m_bind, query. now rewrite Ha.
  - intros Hcommit id'. simpl.
    unfold Api.delete_student_absence, Admin.delete_student_absence, m_bind, query.
    destruct (StudentAbsence_query_get (w_db w) id) as [a|] eqn:Ha.
    + pose proof (StudentAbsence_query_get_id _ _ _ Ha) as Hid.
      unfold m_try, m_bind, Session.delete_student_absence. rewrite Hid, Hcommit.
      simpl. fold (without_student_absence (w_db w) id).
      rewrite query_get_without. auto.
    + simpl. destruct (id' =? id) eqn:Hi; [|auto].
      apply Z.eqb_eq in Hi. subst id'. rewrite Ha. auto.
Qed.

Lemma deleting_removes_that_absence_only_witness :
  StudentAbsence_query_get
    (w_db (handle School.fair_weather (ApiDeleteStudentAbsence 1)
             (School.world [School.missed 1 8 6; School.missed 2 9 1]))) 2
  = Some (School.missed 2 9 1)
  /\ Api.delete_student_absence School.fair_weather 7
       (School.world [School.missed 1 8 6])
     = (School.world [School.missed 1 8 6],
        Ret (Api.error_response "Absence non trouvée" "NotFoundError" 404)).
Proof.
  split.
  - apply (proj2 (deleting_removes_that_absence_only School.fair_weather 1
                    (School.world [School.missed 1 8 6; School.missed 2 9 1]))
             eq_refl 2).
  - apply (proj1 (deleting_removes_that_absence_only School.fair_weather 7
                    (School.world [School.missed 1 8 6])) eq_refl).
Defined.

(** ** How the handlers move the totals *)

(** With unique keys a key names one row. *)
Lemma unique_key_row (l : list StudentAbsence) (a b : StudentAbsence) :
  NoDup (map sa_id l) -> In a l -> In b l -> sa_id a = sa_id b -> a = b.
Proof.
  induction l as [|c l IH]; simpl; intros Hl Ha Hb Hid; [contradiction|].
  apply NoDup_cons in Hl. destruct Hl as [Hc Hl].
  rewrite list_elem_of_In in Hc.
  destruct Ha as [->|Ha], Hb as [->|Hb].
  - reflexivity.
  - exfalso. apply Hc. rewrite Hid. now apply in_map.
  - exfalso. apply Hc. rewrite <- Hid. now apply in_map.
  - now apply IH.
Qed.

(** A toggle leaves the hours a filter selects as they were when the filter
    reads every row of the table as it read it before. *)
Lemma selected_hours_toggled (p : StudentAbsence -> bool) (id : Z)
    (l : list StudentAbsence) :
  (forall b, In b l -> p (flip_justified id b) = p b) ->
  map sa_hours (List.filter p (map (flip_justified id) l))
  = map sa_hours (List.filter p l).
Proof.
  induction l as [|b l IH]; simpl; intros Hp; [reflexivity|].
  rewrite (Hp b (or_introl eq_refl)).
  assert (Hl : map sa_hours (List.filter p (map (flip_justified id) l))
               = map sa_hours (List.filter p l))
    by (apply IH; intros; apply Hp; now right).
  destruct (p b); simpl; [|exact Hl].
  rewrite Hl. f_equal. unfold flip_justified. destruct (sa_id b =? id); reflexivity.
Qed.

(** The same for a total. *)
Lemma total_toggled (db : DB) (id : Z) (self : StudentProfile)
    (module_id : option Z) (count_justified : bool) :
  (forall b, In b (student_absence db) ->
     Spec.student_matching (sp_id self) (truthy_id module_id) count_justified
       (flip_justified id b)
     = Spec.student_matching (sp_id self) (truthy_id module_id) count_justified b) ->
  StudentProfileMethods.get_total_absence_hours (with_toggled db id) self module_id
    count_justified
  = StudentProfileMethods.get_total_absence_hours db self module_id count_justified.
Proof.
  intros Hp. rewrite !student_query_matching. unfold with_toggled.
  simpl student_absence. now rewrite selected_hours_toggled.
Qed.

(** X8. Toggling an absence (the commit going through, keys being unique)
    changes no total that counts the justified absences, and no default
    total and no status but those of the absence's own student in the
    absence's own module: the totals of every other student and of every
    other module are computed from the same hours in the same order as
    before. *)
Theorem toggling_leaves_other_totals (env : Env) (r : Request) (id : Z)
    (a : StudentAbsence) (w : World) :
  r = ApiToggleStudentAbsenceJustified id \/ r = AdminToggleStudentAbsenceJustified id ->
  NoDup (map sa_id (student_absence (w_db w))) ->
  StudentAbsence_query_get (w_db w) id = Some a ->
  commit_raises env id = false ->
  (forall (self : StudentProfile) (module_id : option Z),
     StudentProfileMethods.get_total_absence_hours (w_db (handle env r w)) self
       module_id true
     = StudentProfileMethods.get_total_absence_hours (w_db w) self module_id true)
  /\ (forall (self : StudentProfile) (k : Z) (count_justified : bool),
        sp_id self <> sa_student_id a \/ (k <> 0 /\ k <> sa_module_id a) ->
        StudentProfileMethods.get_total_absence_hours (w_db (handle env r w)) self
          (Some k) count_justified
        = StudentProfileMethods.get_total_absence_hours (w_db w) self (Some k)
            count_justified
        /\ StudentProfileMethods.check_threshold_status (w_db (handle env r w)) self k
           = StudentProfileMethods.check_threshold_status (w_db w) self k).
Proof.
  intros Hr Hids Ha Hcommit.
  assert (Hdb : w_db (handle env r w) = with_toggled (w_db w) id).
  { destruct (toggle_found_db env id a w Ha Hcommit) as (Hapi & Hadmin).
    destruct Hr as [->| ->]; assumption. }
  rewrite Hdb.
  pose proof (StudentAbsence_query_get_id _ _ _ Ha) as Hid.
  assert (Hin : In a (student_absence (w_db w))).
  { apply find_some in Ha. tauto. }
  split.
  - intros self module_id. apply total_toggled. intros b _.
    unfold Spec.student_matching, flip_justified.
    destruct (sa_id b =? id); reflexivity.
  - intros self k cj Hother.
    assert (Htotal : forall cj',
              StudentProfileMethods.get_total_absence_hours
                (with_toggled (w_db w) id) self (Some k) cj'
              = StudentProfileMethods.get_total_absence_hours (w_db w) self (Some k)
                  cj').
    { intros cj'. apply total_toggled. intros b Hb.
      unfold flip_justified. destruct (sa_id b =? id) eqn:Hbid; [|reflexivity].
      apply Z.eqb_eq in Hbid.
      assert (b = a) as -> by (apply (unique_key_row _ _ _ Hids Hb Hin); congruence).
      unfold Spec.student_matching. simpl.
      destruct Hother as [Hs|(Hk0 & Hk)].
      - assert (Hne : sa_student_id a <> sp_id self) by congruence.
        apply Z.eqb_neq in Hne. now rewrite Hne.
      - apply Z.eqb_neq in Hk0. rewrite Hk0.
        assert (Hne : sa_module_id a <> k) by congruence.
        apply Z.eqb_neq in Hne. now rewrite Hne, !andb_false_r. }
    split; [apply Htotal|].
    unfold StudentProfileMethods.check_threshold_status.
    rewrite Htotal. reflexivity.
Qed.

(** [alice] missed 6 hours in [prog1] and 1 hour in the seminar.  When the
    first absence is justified, her total in [prog1] with the justified
    absences counted is still 6 hours, and her total in the seminar is
    still 1 hour. *)
Lemma toggling_leaves_other_totals_witness :
  StudentProfileMethods.get_total_absence_hours
    (w_db (handle School.fair_weather (ApiToggleStudentAbsenceJustified 1)
             (School.world [School.missed 1 8 6;
                            mkStudentAbsence 2 1 2 (School.january 9) 1 None false 9])))
    School.alice (Some 1) true
  = 6%Q
  /\ StudentProfileMethods.get_total_absence_hours
       (w_db (handle School.fair_weather (ApiToggleStudentAbsenceJustified 1)
                (School.world [School.missed 1 8 6;
                               mkStudentAbsence 2 1 2 (School.january 9) 1 None false
                                 9])))
       School.alice (Some 2) false
     = 1%Q.
Proof.
  destruct (toggling_leaves_other_totals School.fair_weather
              (ApiToggleStudentAbsenceJustified 1) 1 (School.missed 1 8 6)
              (School.world [School.missed 1 8 6;
                             mkStudentAbsence 2 1 2 (School.january 9) 1 None false 9]))
    as (Hcounted & Hother).
  - now left.
  - apply (bool_decide_unpack _). vm_compute. reflexivity.
  - reflexivity.
  - reflexivity.
  - split.
    + rewrite Hcounted. reflexivity.
    + destruct (Hother School.alice 2 false) as (Htotal & _).
      * right. split; discriminate.
      * rewrite Htotal. reflexivity.
Defined.

Lemma status_le_of_totals (db1 db2 : DB) (self : StudentProfile) (module_id : Z) :
  module db1 = module db2 ->
  (StudentProfileMethods.get_total_absence_hours db1 self (Some module_id) false
   <= StudentProfileMethods.get_total_absence_hours db2 self (Some module_id) false)%Q ->
  status_le (StudentProfileMethods.check_threshold_status db1 self module_id)
            (StudentProfileMethods.check_threshold_status db2 self module_id).
Proof.
  intros Hmod Hle.
  unfold StudentProfileMethods.check_threshold_status, Module_query_get.
  rewrite Hmod.
  destruct (List.find _ (module db2)) as [m|]; [|unfold status_le; simpl; lia].
  set (h1 := StudentProfileMethods.get_total_absence_hours db1 self _ _) in *.
  set (h2 := StudentProfileMethods.get_total_absence_hours db2 self _ _) in *.
  set (t := m_absence_threshold m).
  destruct (Qle_bool t h1) eqn:E1, (Qle_bool t h2) eqn:E2;
    try destruct (Qle_bool (t * (1 # 2)) h1) eqn:W1;
    try destruct (Qle_bool (t * (1 # 2)) h2) eqn:W2;
    reflect_Q; unfold status_le; simpl; try lia; exfalso; lra.
Qed.

(** A row that does not count for a total leaves it as it was. *)
Lemma total_with_other_row (db : DB) (row : StudentAbsence)
    (self : StudentProfile) (module_id : option Z) (count_justified : bool) :
  Spec.student_matching (sp_id self) (truthy_id module_id) count_justified row = false ->
  StudentProfileMethods.get_total_absence_hours (with_student_absence db row) self
    module_id count_justified
  = StudentProfileMethods.get_total_absence_hours db self module_id count_justified.
Proof.
  intros Hrow. rewrite !student_query_matching. unfold with_student_absence.
  simpl student_absence. rewrite List.filter_app. simpl. rewrite Hrow.
  now rewrite app_nil_r.
Qed.

(** X9. What a creation the API stores does to the totals.  The totals of
    every other student and of every other module are computed from the
    same hours in the same order as before; a justified absence leaves the
    default totals and the status of every student as they were as well;
    and when the hours are not negative the status of the student in the
    module does not get lower, in the order ok < warning < exceeded. *)
Theorem creation_never_lowers_the_status (env : Env) (u : Z) (w : World)
    (data : Api.AbsenceJson) (student : StudentProfile) (m : Module) (date : Date)
    (hours : Q) :
  api_passes_validation env (w_db w) data student m date hours ->
  Api.existing_absence (w_db w) (sp_id student) (m_id m) date = None ->
  commit_raises env (next_id (map sa_id (student_absence (w_db w)))) = false ->
  (forall (other : StudentProfile) (module_id : option Z) (count_justified : bool),
     sp_id other <> sp_id student
     \/ (exists k, module_id = Some k /\ k <> 0 /\ k <> m_id m) ->
     StudentProfileMethods.get_total_absence_hours
       (w_db (handle env (ApiCreateStudentAbsence u (Some data)) w)) other
       module_id count_justified
     = StudentProfileMethods.get_total_absence_hours (w_db w) other module_id
         count_justified)
  /\ (Api.j_is_justified data = Some true ->
      forall (self : StudentProfile) (module_id : option Z) (k : Z),
        StudentProfileMethods.get_total_absence_hours
          (w_db (handle env (ApiCreateStudentAbsence u (Some data)) w)) self
          module_id false
        = StudentProfileMethods.get_total_absence_hours (w_db w) self module_id false
        /\ StudentProfileMethods.check_threshold_status
             (w_db (handle env (ApiCreateStudentAbsence u (Some data)) w)) self k
           = StudentProfileMethods.check_threshold_status (w_db w) self k)
  /\ ((0 <= hours)%Q ->
      status_le
        (StudentProfileMethods.check_threshold_status (w_db w) student (m_id m))
        (StudentProfileMethods.check_threshold_status
           (w_db (handle env (ApiCreateStudentAbsence u (Some data)) w)) student
           (m_id m))).
Proof.
  intros Hvalid Hnew Hcommit.
  assert (Hdb : w_db (handle env (ApiCreateStudentAbsence u (Some data)) w)
                = with_student_absence (w_db w)
                    (api_new_row (w_db w) u data student m date hours)).
  { destruct (Api_create_accepted_run env u w data student m date hours Hvalid Hnew
                Hcommit) as (w' & ns & Hsend & Hrun).
    unfold handle. rewrite Hrun. cbn [fst].
    pose proof (Api_send_notifications_db env student m
                  (StudentProfileMethods.get_total_absence_hours
                     (with_student_absence (w_db w)
                        (api_new_row (w_db w) u data student m date hours))
                     student (Some (m_id m)) false)
                  (StudentProfileMethods.check_threshold_status
                     (with_student_absence (w_db w)
                        (api_new_row (w_db w) u data student m date hours))
                     student (m_id m))
                  (set_db (with_student_absence (w_db w)
                             (api_new_row (w_db w) u data student m date hours)) w))
      as Hkeep.
    rewrite Hsend in Hkeep. exact Hkeep. }
  rewrite Hdb.
  assert (Hmid : m_id m <> 0).
  { destruct Hvalid as (_ & (mid & Hmid & Hm) & _).
    rewrite (Module_query_get_id _ _ _ Hm). destruct (Api.j_module_id data) as [z|];
      simpl in Hmid; [|discriminate].
    destruct (z =? 0) eqn:Hz; [discriminate|]. injection Hmid as <-.
    now apply Z.eqb_neq. }
  assert (Ht : truthy_id (Some (m_id m)) = Some (m_id m)).
  { simpl. apply Z.eqb_neq in Hmid. now rewrite Hmid. }
  refine (conj _ (conj _ _)).
  - intros other module_id cj Hother.
    apply total_with_other_row.
    unfold Spec.student_matching, api_new_row. simpl.
    destruct Hother as [Hs|(k & -> & Hk0 & Hk)].
    + assert (Hne : sp_id student <> sp_id other) by congruence.
      apply Z.eqb_neq in Hne. now rewrite Hne.
    + simpl. apply Z.eqb_neq in Hk0. rewrite Hk0.
      assert (Hne : m_id m <> k) by congruence.
      apply Z.eqb_neq in Hne. now rewrite Hne, andb_false_r.
  - intros Hj self module_id k.
    assert (Htotal : forall mf,
              StudentProfileMethods.get_total_absence_hours
                (with_student_absence (w_db w)
                   (api_new_row (w_db w) u data student m date hours))
                self mf false
              = StudentProfileMethods.get_total_absence_hours (w_db w) self mf false).
    { intros mf. apply total_with_other_row.
      unfold Spec.student_matching, api_new_row. simpl. rewrite Hj. simpl.
      now rewrite andb_false_r. }
    split; [apply Htotal|].
    unfold StudentProfileMethods.check_threshold_status.
    rewrite Htotal. reflexivity.
  - intros Hpos. apply status_le_of_totals; [reflexivity|].
    rewrite total_with_new_row, Ht.
    destruct (Spec.student_matching _ _ _ _); unfold api_new_row; cbn [sa_hours]; lra.
Qed.

(** [alice] has missed four of the ten hours of [prog1], which is 'ok'; one
    more hour makes five, which is 'warning'. *)
Lemma creation_never_lowers_the_status_witness :
  StudentProfileMethods.check_threshold_status
    (School.school [School.missed 1 8 4]) School.alice 1 = ok
  /\ StudentProfileMethods.check_threshold_status
       (w_db (handle School.fair_weather School.second_request
                (School.world [School.missed 1 8 4])))
       School.alice 1 = warning
  /\ status_le
       (StudentProfileMethods.check_threshold_status
          (School.school [School.missed 1 8 4]) School.alice 1)
       (StudentProfileMethods.check_threshold_status
          (w_db (handle School.fair_weather School.second_request
                   (School.world [School.missed 1 8 4])))
          School.alice 1).
Proof.
  refine (conj eq_refl (conj eq_refl _)).
  apply (creation_never_lowers_the_status School.fair_weather 9
           (School.world [School.missed 1 8 4]) (School.request "2024-01-09" 1)
           School.alice School.prog1 (School.january 9) 1%Q).
  - repeat split; eexists; split; reflexivity.
  - reflexivity.
  - reflexivity.
  - vm_compute. discriminate.
Defined.

(** ** Commits that fail *)

(** X10. When the commit of a validated, new absence raises, nothing is stored
    and nothing is sent.  The API catches the exception: it logs one line
    and answers 500 with the error kind DatabaseError.  The page handler
    does not catch it: the exception leaves the handler, with no message
    flashed. *)
Theorem failed_commit_stores_nothing :
  (forall (env : Env) (u : Z) (w : World) (data : Api.AbsenceJson)
          (student : StudentProfile) (m : Module) (date : Date) (hours : Q),
     api_passes_validation env (w_db w) data student m date hours ->
     Api.existing_absence (w_db w) (sp_id student) (m_id m) date = None ->
     commit_raises env (next_id (map sa_id (student_absence (w_db w)))) = true ->
     Api.create_student_absence env u (Some data) w
     = (mkWorld (w_db w) (w_outbox w)
          (w_log w ++ ["Error creating absence: database error"]) (w_flashes w),
        Ret (Api.error_response "database error" "DatabaseError" 500)))
  /\ (forall (env : Env) (u : Z) (w : World) (form : Forms.StudentAbsenceForm)
             (student_id module_id : Z) (date : Date) (hours : Q),
     admin_passes_validation env (w_db w) form student_id module_id date hours ->
     Admin.existing_student_absence (w_db w) student_id module_id date = None ->
     commit_raises env (next_id (map sa_id (student_absence (w_db w)))) = true ->
     Admin.create_student_absence env u form w = (w, Raise SQLAlchemyError)).
Proof.
  split.
  - intros env u w data student m date hours
      ((sid & Hsid & Hs) & (mid & Hmid & Hm) & (ds & Hds & Hdate) & Hh) Hnew Hcommit.
    pose proof (StudentProfile_query_get_id _ _ _ Hs) as Es.
    pose proof (Module_query_get_id _ _ _ Hm) as Em.
    subst sid mid.
    unfold Api.create_student_absence. rewrite Hsid, Hmid, Hds, Hh.
    unfold m_bind at 1. unfold query at 1. cbv iota beta.
    rewrite Hs, Hm, Hdate, Hnew.
    unfold m_try, m_bind, Session.add_student_absence. cbv zeta.
    rewrite Hcommit. reflexivity.
  - intros env u w form sid mid date hours Hvalid Hnew Hcommit.
    unfold Admin.create_student_absence.
    unfold m_bind at 1. unfold query at 1. cbv iota beta zeta.
    unfold admin_passes_validation in Hvalid. rewrite Hvalid, Hnew.
    unfold m_bind, Session.add_student_absence. cbv zeta.
    rewrite Hcommit. reflexivity.
Qed.

Lemma failed_commit_stores_nothing_witness :
  Api.create_student_absence database_down 9 (Some (School.request "2024-01-09" 1))
    (School.world [School.missed 1 8 4])
  = (mkWorld (School.school [School.missed 1 8 4]) []
       ["Error creating absence: database error"] [],
     Ret (Api.error_response "database error" "DatabaseError" 500))
  /\ Admin.create_student_absence database_down 9 (School.form 9 1)
       (School.world [School.missed 1 8 4])
     = (School.world [School.missed 1 8 4], Raise SQLAlchemyError).
Proof.
  split.
  - apply (proj1 failed_commit_stores_nothing database_down 9
             (School.world [School.missed 1 8 4]) (School.request "2024-01-09" 1)
             School.alice School.prog1 (School.january 9) 1%Q).
    + repeat split; eexists; split; reflexivity.
    + reflexivity.
    + reflexivity.
  - apply (proj2 failed_commit_stores_nothing database_down 9
             (School.world [School.missed 1 8 4]) (School.form 9 1)
             1 1 (School.january 9) 1%Q); reflexivity.
Defined.

(** ** What the web form lets through *)

Lemma validate_hours_range (data : option Q) (h : Q) :
  Forms.validate_hours data = Some h ->
  data = Some h /\ (1 # 2 <= h)%Q /\ (h <= 12)%Q.
Proof.
  unfold Forms.validate_hours, truthy_num. destruct data as [q|]; [|discriminate].
  destruct (Qeq_bool q 0); [discriminate|].
  destruct (Qle_bool (1 # 2) q) eqn:Hlo; [|discriminate].
  destruct (Qle_bool q 12) eqn:Hhi; [|discriminate].
  simpl. intros [= <-]. reflect_Q. auto.
Qed.

Lemma listed_active (db : DB) (id : Z) :
  existsb (Z.eqb id) (map m_id (List.filter m_is_active (module db))) = true ->
  exists m, In m (module db) /\ m_id m = id /\ m_is_active m = true.
Proof.
  rewrite existsb_exists. intros (x & Hin & Hx). apply Z.eqb_eq in Hx. subst x.
  apply in_map_iff in Hin. destruct Hin as (m & Hid & Hin).
  apply filter_In in Hin. exists m. tauto.
Qed.

(** X11. Whatever the page handler of the student absences stores went through
    the form: the tables are left as they were or got one row whose hours
    lie between 0.5 and 12, whose date is not after today, whose student
    exists, whose module is an active one, and which is recorded under the
    user who sent the form. *)
Theorem form_bounds_what_is_stored (env : Env) (u : Z)
    (form : Forms.StudentAbsenceForm) (w : World) :
  w_db (handle env (AdminCreateStudentAbsence u form) w) = w_db w
  \/ exists row,
       w_db (handle env (AdminCreateStudentAbsence u form) w)
       = with_student_absence (w_db w) row
       /\ (1 # 2 <= sa_hours row)%Q /\ (sa_hours row <= 12)%Q
       /\ date_gtb (sa_date row) (date_today env) = false
       /\ (exists s, StudentProfile_query_get (w_db w) (sa_student_id row) = Some s)
       /\ (exists m, In m (module (w_db w)) /\ m_id m = sa_module_id row
                     /\ m_is_active m = true)
       /\ sa_recorded_by_id row = u
       /\ sa_is_justified row = Forms.f_is_justified form.
Proof.
  simpl. unfold Admin.create_student_absence, m_bind, query. cbv zeta.
  destruct (Forms.student_validate_on_submit _ _ _ form)
    as [[[[sid mid] date] hours]|] eqn:Hvalid; [|now left].
  destruct (Admin.existing_student_absence (w_db w) sid mid date) eqn:Hnew;
    [now left|].
  unfold Session.add_student_absence. cbv zeta.
  destruct (commit_raises env _); [now left|]. cbv iota beta. right.
  pose (row := admin_new_row (w_db w) u form sid mid date hours).
  change (set_db _ w) with (set_db (with_student_absence (w_db w) row) w).
  change (w_db (set_db (with_student_absence (w_db w) row) w))
    with (with_student_absence (w_db w) row).
  exists row. split.
  { destruct (StudentProfile_query_get _ sid) as [student|]; [|reflexivity].
    destruct (Module_query_get _ mid) as [m|]; [|reflexivity].
    match goal with
    | |- context [Admin.send_notifications env student m ?t ?s ?w0] =>
        pose proof (Admin_send_notifications_db env student m t s w0) as Hdb;
        destruct (Admin.send_notifications env student m t s w0) as [w1 [[]|e]]
    end; simpl in Hdb |- *; exact Hdb. }
  clear -Hvalid. unfold Forms.student_validate_on_submit in Hvalid.
  destruct (_ && _ && _); [|discriminate].
  destruct (Forms.validate_select _ (Forms.f_student_id form)) as [s|] eqn:Hs;
    [|discriminate].
  destruct (Forms.validate_select _ (Forms.f_module_id form)) as [m|] eqn:Hm;
    [|discriminate].
  destruct (Forms.validate_date env _) as [d|] eqn:Hd; [|discriminate].
  destruct (Forms.validate_hours _) as [h|] eqn:Hh; [|discriminate].
  injection Hvalid as <- <- <- <-.
  apply validate_select_listed in Hs, Hm. apply validate_hours_range in Hh.
  destruct Hs as (_ & Hs & _), Hm as (_ & Hm & _), Hh as (_ & Hlo & Hhi).
  unfold Forms.validate_date in Hd.
  destruct (Forms.f_date form) as [d'|]; [|discriminate].
  destruct (date_gtb d' (date_today env)) eqn:Hgt; [discriminate|].
  injection Hd as <-.
  simpl. repeat split; try assumption.
  - exact (query_get_listed sp_id (student_profile (w_db w)) s Hs).
  - exact (listed_active (w_db w) m Hm).
Qed.

(** ** Who reaches the handlers *)

(** X12. Only an authenticated, active super admin or member of the admin staff
    reaches the API handler that records an absence: for anybody else the
    decorated route answers 401 or 403 with [success] false and leaves the
    world as it is; for those users it is the handler itself, recording
    under their own key. *)
Theorem api_creation_is_for_staff_only (env : Env) (current_user : CurrentUser)
    (data : option Api.AbsenceJson) (w : World) :
  (cu_is_authenticated current_user
   && cu_is_active current_user
   && str_in (cu_role current_user) [UserRole.SUPER_ADMIN; UserRole.ADMIN_STAFF]
   = true ->
   Routes.api_create_student_absence env current_user data w
   = Api.create_student_absence env (cu_id current_user) data w)
  /\ (cu_is_authenticated current_user
      && cu_is_active current_user
      && str_in (cu_role current_user) [UserRole.SUPER_ADMIN; UserRole.ADMIN_STAFF]
      = false ->
      exists body code,
        Routes.api_create_student_absence env current_user data w
        = (w, Ret (body, code))
        /\ (code = 401 \/ code = 403)
        /\ (code = 401 <-> cu_is_authenticated current_user = false)
        /\ body !! "success" = Some (JBool false)
        /\ is_Some (body !! "error") /\ is_Some (body !! "message")).
Proof.
  unfold Routes.api_create_student_absence, Decorators.api_login_required,
    Decorators.api_role_required.
  destruct (cu_is_authenticated current_user), (cu_is_active current_user),
    (str_in (cu_role current_user) _); simpl; split; intros H;
    try discriminate; try reflexivity;
    eexists _, _; (split; [reflexivity|]);
    repeat split; auto; try discriminate; try (intros [=]);
    try (eexists; reflexivity).
Qed.

(** A student is refused with 403; a member of the admin staff records the
    absence. *)
Lemma api_creation_is_for_staff_only_witness :
  Routes.api_create_student_absence School.fair_weather
    (mkCurrentUser true true UserRole.ADMIN_STAFF 9 false)
    (Some (School.request "2024-01-08" 5)) (School.world [])
  = Api.create_student_absence School.fair_weather 9
      (Some (School.request "2024-01-08" 5)) (School.world [])
  /\ exists body code,
       Routes.api_create_student_absence School.fair_weather
         (mkCurrentUser true true UserRole.STUDENT 1 false)
         (Some (School.request "2024-01-08" 5)) (School.world [])
       = (School.world [], Ret (body, code))
       /\ (code = 401 \/ code = 403).
Proof.
  split.
  - apply (proj1 (api_creation_is_for_staff_only School.fair_weather
                    (mkCurrentUser true true UserRole.ADMIN_STAFF 9 false)
                    (Some (School.request "2024-01-08" 5)) (School.world []))).
    reflexivity.
  - destruct (proj2 (api_creation_is_for_staff_only School.fair_weather
                       (mkCurrentUser true true UserRole.STUDENT 1 false)
                       (Some (School.request "2024-01-08" 5)) (School.world []))
                eq_refl) as (body & code & Hrun & Hcode & _).
    exists body, code. split; [exact Hrun | exact Hcode].
Defined.

(** X13. The page that records a student absence, under [@login_required]
    and [@admin_required], is reached by authenticated super admins and
    members of the admin staff only.  A request of somebody who is not
    logged in is answered by the login manager: its message is flashed and
    the request is redirected to the login page, with the address asked for
    as [next].  A logged-in user of another role is stopped with 403 and
    the message of [admin_required].  In both cases nothing else changes:
    only the one message is added to the world. *)
Theorem admin_creation_is_for_staff_only (env : Env) (current_user : CurrentUser)
    (request_url next_url : string) (form : Forms.StudentAbsenceForm) (w : World) :
  (cu_is_authenticated current_user = true ->
   str_in (cu_role current_user) [UserRole.SUPER_ADMIN; UserRole.ADMIN_STAFF] = true ->
   Routes.admin_create_student_absence env current_user request_url next_url form w
   = Decorators.call (Admin.create_student_absence env (cu_id current_user) form) w)
  /\ (cu_is_authenticated current_user = false ->
      Routes.admin_create_student_absence env current_user request_url next_url form w
      = (flashed "Veuillez vous connecter pour accéder à cette page." "warning" w,
         Ret (Decorators.Redirected "auth.login" (Some next_url))))
  /\ (cu_is_authenticated current_user = true ->
      str_in (cu_role current_user) [UserRole.SUPER_ADMIN; UserRole.ADMIN_STAFF] = false ->
      Routes.admin_create_student_absence env current_user request_url next_url form w
      = (flashed "Accès réservé au personnel administratif." "danger" w,
         Ret (Decorators.Aborted 403))).
Proof.
  unfold Routes.admin_create_student_absence, Decorators.login_required,
    Decorators.admin_required.
  refine (conj _ (conj _ _)).
  - intros -> ->. reflexivity.
  - intros ->. reflexivity.
  - intros -> ->. reflexivity.
Qed.

(** A member of the admin staff records five hours of [alice]; a professor
    is stopped with 403 and a visitor who is not logged in is sent to the
    login page, and for neither of them is anything stored. *)
Lemma admin_creation_is_for_staff_only_witness :
  student_absence
    (w_db (fst (Routes.admin_create_student_absence School.fair_weather
                  (mkCurrentUser true true UserRole.ADMIN_STAFF 9 false)
                  "http://localhost/admin/absences/students/create"
                  "/admin/absences/students/create" (School.form 8 5)
                  (School.world []))))
  = [mkStudentAbsence 1 1 1 (School.january 8) 5 (Some "") false 9]
  /\ Routes.admin_create_student_absence School.fair_weather
       (mkCurrentUser true true UserRole.PROFESSOR 2 false)
       "http://localhost/admin/absences/students/create"
       "/admin/absences/students/create" (School.form 8 5) (School.world [])
     = (mkWorld (School.school []) [] []
          [("Accès réservé au personnel administratif.", "danger")],
        Ret (Decorators.Aborted 403))
  /\ Routes.admin_create_student_absence School.fair_weather
       (mkCurrentUser false true UserRole.ADMIN_STAFF 9 false)
       "http://localhost/admin/absences/students/create"
       "/admin/absences/students/create" (School.form 8 5) (School.world [])
     = (mkWorld (School.school []) [] []
          [("Veuillez vous connecter pour accéder à cette page.", "warning")],
        Ret (Decorators.Redirected "auth.login"
               (Some "/admin/absences/students/create"))).
Proof.
  refine (conj _ (conj _ _)).
  - rewrite (proj1 (admin_creation_is_for_staff_only School.fair_weather
                      (mkCurrentUser true true UserRole.ADMIN_STAFF 9 false)
                      "http://localhost/admin/absences/students/create"
                      "/admin/absences/students/create" (School.form 8 5)
                      (School.world [])) eq_refl eq_refl).
    reflexivity.
  - rewrite (proj2 (proj2 (admin_creation_is_for_staff_only School.fair_weather
                      (mkCurrentUser true true UserRole.PROFESSOR 2 false)
                      "http://localhost/admin/absences/students/create"
                      "/admin/absences/students/create" (School.form 8 5)
                      (School.world []))) eq_refl eq_refl).
    reflexivity.
  - rewrite (proj1 (proj2 (admin_creation_is_for_staff_only School.fair_weather
                      (mkCurrentUser false true UserRole.ADMIN_STAFF 9 false)
                      "http://localhost/admin/absences/students/create"
                      "/admin/absences/students/create" (School.form 8 5)
                      (School.world []))) eq_refl).
    reflexivity.
Defined.

(** X14. [admin_required] and [can_create_users] let the same users through and
    stop the others in the same way (to the login page, or with 403): they
    differ in the message they flash only.  [login_required_with_role] given
    the two staff roles does the same for a user who is active and sends an
    authenticated user who is not active to the login page; given no role
    it lets every authenticated, active user through. *)
Theorem staff_decorators_agree {A : Type} (current_user : CurrentUser)
    (request_url : string) (f : M A) (w : World) :
  snd (Decorators.admin_required current_user request_url f w)
  = snd (Decorators.can_create_users current_user request_url f w)
  /\ w_db (fst (Decorators.admin_required current_user request_url f w))
     = w_db (fst (Decorators.can_create_users current_user request_url f w))
  /\ (cu_is_active current_user = true ->
      snd (Decorators.login_required_with_role
             [UserRole.SUPER_ADMIN; UserRole.ADMIN_STAFF] current_user request_url f w)
      = snd (Decorators.admin_required current_user request_url f w))
  /\ (cu_is_authenticated current_user = true ->
      cu_is_active current_user = false ->
      snd (Decorators.login_required_with_role
             [UserRole.SUPER_ADMIN; UserRole.ADMIN_STAFF] current_user request_url f w)
      = Ret (Decorators.Redirected "auth.login" None))
  /\ (cu_is_authenticated current_user = true ->
      cu_is_active current_user = true ->
      Decorators.login_required_with_role [] current_user request_url f w
      = Decorators.call f w).
Proof.
  unfold Decorators.admin_required, Decorators.can_create_users,
    Decorators.login_required_with_role, UserMethods.can_create_users.
  destruct (cu_is_authenticated current_user), (cu_is_active current_user),
    (str_in (cu_role current_user) _); simpl;
    repeat split; try discriminate; reflexivity.
Qed.

(** A student who is logged in and active passes the decorator that asks
    for no role. *)
Lemma staff_decorators_agree_witness :
  Decorators.login_required_with_role []
    (mkCurrentUser true true UserRole.STUDENT 1 false) "/profile"
    (m_ret tt) (School.world [])
  = Decorators.call (m_ret tt) (School.world []).
Proof.
  apply (staff_decorators_agree (mkCurrentUser true true UserRole.STUDENT 1 false)
           "/profile" (m_ret tt) (School.world [])); reflexivity.
Defined.

(** ** The role-based dashboard *)

Lemma role_in_all (role : string) :
  In role UserRole.all ->
  role = UserRole.SUPER_ADMIN \/ role = UserRole.ADMIN_STAFF
  \/ role = UserRole.PROFESSOR \/ role = UserRole.STUDENT.
Proof.
  simpl. intuition.
Qed.

(** X15. The role-based dashboard, under [@login_required] and
    [@check_first_login].  Somebody who is not logged in is sent to the
    login page by the login manager.  A user who still has the initial
    password is sent to the page that changes it, with a message.  Any
    other user whose role is one of [UserRole.all()] is sent, with nothing
    flashed, to a dashboard whose own decorators let that user through; a
    user with any other role is sent to the landing page with the message
    that the role is unknown. *)
Theorem dashboard_lands_where_the_user_is_admitted (current_user : CurrentUser)
    (next_url : string) (w : World) :
  (cu_is_authenticated current_user = false ->
   Routes.dashboard current_user next_url w
   = (flashed "Veuillez vous connecter pour accéder à cette page." "warning" w,
      Ret (Decorators.Redirected "auth.login" (Some next_url))))
  /\ (cu_is_authenticated current_user = true ->
      cu_is_first_login current_user = true ->
      Routes.dashboard current_user next_url w
      = (flashed "Veuillez changer votre mot de passe initial." "warning" w,
         Ret (Decorators.Redirected "auth.change_password" None)))
  /\ (cu_is_authenticated current_user = true ->
      cu_is_first_login current_user = false ->
      In (cu_role current_user) UserRole.all ->
      exists endpoint,
        Routes.dashboard current_user next_url w
        = (w, Ret (Decorators.Called (Admin.Redirect endpoint)))
        /\ forall (A : Type), exists guard,
             Routes.dashboard_guard (A := A) endpoint = Some guard
             /\ forall request_url next_url' f w',
                  guard current_user request_url next_url' f w'
                  = Decorators.call f w')
  /\ (cu_is_authenticated current_user = true ->
      cu_is_first_login current_user = false ->
      ~ In (cu_role current_user) UserRole.all ->
      Routes.dashboard current_user next_url w
      = (flashed "Rôle inconnu." "danger" w,
         Ret (Decorators.Called (Admin.Redirect "main.landing")))).
Proof.
  unfold Routes.dashboard, Decorators.login_required, Decorators.check_first_login.
  refine (conj _ (conj _ (conj _ _))).
  - intros ->. reflexivity.
  - intros -> ->. reflexivity.
  - intros Hauth Hfirst Hrole. rewrite Hauth, Hfirst. simpl.
    apply role_in_all in Hrole. unfold Routes.dashboard_body.
    destruct Hrole as [Hr|[Hr|[Hr|Hr]]]; rewrite Hr; simpl;
      eexists; (split; [reflexivity|]); intros A; eexists; (split; [reflexivity|]);
      intros request_url next_url' f w';
      unfold Decorators.login_required, Decorators.stacked,
        Decorators.super_admin_required, Decorators.admin_required,
        Decorators.professor_required, Decorators.student_required,
        Decorators.check_first_login, Decorators.call, m_bind, m_ret;
      rewrite ?Hauth, ?Hfirst, ?Hr; simpl;
      destruct (f w') as [w'' [a|e]]; reflexivity.
  - intros Hauth Hfirst Hrole. rewrite Hauth, Hfirst. simpl.
    unfold Routes.dashboard_body.
    assert (Hne : forall r, In r UserRole.all -> String.eqb (cu_role current_user) r = false).
    { intros r Hr. apply String.eqb_neq. intros Heq. apply Hrole. now rewrite Heq. }
    rewrite !Hne by (simpl; auto). reflexivity.
Qed.

(** A professor is sent to the professors' dashboard; with the initial
    password still in place, to the page that changes it. *)
Lemma dashboard_lands_where_the_user_is_admitted_witness :
  Routes.dashboard (mkCurrentUser true true UserRole.PROFESSOR 2 true) "/dashboard"
    (School.world [])
  = (mkWorld (School.school []) [] []
       [("Veuillez changer votre mot de passe initial.", "warning")],
     Ret (Decorators.Redirected "auth.change_password" None))
  /\ exists endpoint,
       Routes.dashboard (mkCurrentUser true true UserRole.PROFESSOR 2 false)
         "/dashboard" (School.world [])
       = (School.world [], Ret (Decorators.Called (Admin.Redirect endpoint)))
       /\ endpoint = "professor.dashboard".
Proof.
  split.
  - rewrite (proj1 (proj2 (dashboard_lands_where_the_user_is_admitted
                      (mkCurrentUser true true UserRole.PROFESSOR 2 true) "/dashboard"
                      (School.world []))) eq_refl eq_refl).
    reflexivity.
  - destruct (proj1 (proj2 (proj2 (dashboard_lands_where_the_user_is_admitted
                       (mkCurrentUser true true UserRole.PROFESSOR 2 false)
                       "/dashboard" (School.world [])))) eq_refl eq_refl)
      as (endpoint & Hrun & _).
    + simpl. auto.
    + exists endpoint. split; [exact Hrun|].
      vm_compute in Hrun. now injection Hrun as <-.
Defined.

(** ** Threshold settings *)

Section ThresholdSettings.

Import AdminSettings.

Implicit Types (rows : list SettingRow) (t : string).

(** The rows of one type. *)
Local Abbreviation of_type t rows :=
  (List.filter (fun r => String.eqb (ts_setting_type (sr_setting r)) t) rows).

Lemma assign_first_found rows t d h p u r :
  setting_of_type rows t = Some r ->
  setting_of_type (assign_first rows t d h p u) t
  = Some (mkSettingRow (sr_id r) (mkThresholdSetting t d h p) (Some u)).
Proof.
  unfold setting_of_type.
  induction rows as [|x rows IH]; simpl; [discriminate|].
  destruct (String.eqb (ts_setting_type (sr_setting x)) t) eqn:Hx; simpl.
  - intros [= <-]. rewrite Hx. apply String.eqb_eq in Hx. now rewrite Hx.
  - rewrite Hx. exact IH.
Qed.

Lemma assign_first_other rows t t' d h p u :
  t' <> t -> of_type t' (assign_first rows t d h p u) = of_type t' rows.
Proof.
  intros Hne. induction rows as [|x rows IH]; simpl; [reflexivity|].
  destruct (String.eqb (ts_setting_type (sr_setting x)) t) eqn:Hx; simpl.
  - apply String.eqb_eq in Hx. rewrite Hx.
    assert (Ht : String.eqb t t' = false) by (apply String.eqb_neq; congruence).
    now rewrite Ht.
  - destruct (String.eqb (ts_setting_type (sr_setting x)) t'); now rewrite IH.
Qed.

Lemma assign_first_count rows t d h p u :
  length (of_type t (assign_first rows t d h p u)) = length (of_type t rows).
Proof.
  induction rows as [|x rows IH]; simpl; [reflexivity|].
  destruct (String.eqb (ts_setting_type (sr_setting x)) t) eqn:Hx; simpl.
  - rewrite Hx. simpl. reflexivity.
  - rewrite Hx. exact IH.
Qed.

Lemma setting_of_type_none rows t :
  setting_of_type rows t = None -> of_type t rows = [].
Proof.
  unfold setting_of_type. induction rows as [|x rows IH]; simpl; [reflexivity|].
  destruct (String.eqb (ts_setting_type (sr_setting x)) t); [discriminate | exact IH].
Qed.

Lemma setting_of_type_found_count rows t r :
  setting_of_type rows t = Some r -> (1 <= length (of_type t rows))%nat.
Proof.
  unfold setting_of_type. induction rows as [|x rows IH]; simpl; [discriminate|].
  destruct (String.eqb (ts_setting_type (sr_setting x)) t); simpl; [lia | exact IH].
Qed.

Lemma setting_of_type_app_new rows t r :
  setting_of_type rows t = None ->
  ts_setting_type (sr_setting r) = t ->
  setting_of_type (rows ++ [r]) t = Some r.
Proof.
  unfold setting_of_type. intros Hnone Hr.
  induction rows as [|x rows IH]; simpl in *.
  - rewrite Hr, String.eqb_refl. reflexivity.
  - destruct (String.eqb (ts_setting_type (sr_setting x)) t); [discriminate | auto].
Qed.

(** X16. [update_threshold] refuses a threshold of 0 days and 0 hours and
    leaves the settings as they are.  Any other threshold is stored as an
    upsert (the commit going through): afterwards the setting found for the
    type holds the days, hours and percentage that were sent and the user
    who sent them, its total is [days * 8 + hours] hours; the settings of
    the other types are the same rows as before; and a type that had
    settings has as many as before, a type that had none has one.  Missing
    fields stand for 'professor_global', 0, 0 and 50. *)
Theorem threshold_update_is_an_upsert (current_user_id : Z) (form : ThresholdForm)
    (s : State) :
  let t := default "professor_global" (tf_setting_type form) in
  let days := default 0 (tf_threshold_days form) in
  let hours := default 0 (tf_threshold_hours form) in
  let percentage := default 50%Q (tf_warning_percentage form) in
  (days = 0 /\ hours = 0 ->
   update_threshold false current_user_id form s
   = (flash_state "Le seuil doit être supérieur à 0." "danger" s,
      Ret (Admin.Redirect "admin.threshold_settings")))
  /\ (~ (days = 0 /\ hours = 0) ->
      exists s' row,
        update_threshold false current_user_id form s
        = (s', Ret (Admin.Redirect "admin.threshold_settings"))
        /\ setting_of_type (settings s') t = Some row
        /\ sr_setting row = mkThresholdSetting t days hours percentage
        /\ sr_updated_by_id row = Some current_user_id
        /\ ThresholdSettingMethods.get_total_hours (sr_setting row) = days * 8 + hours
        /\ (forall t', t' <> t -> of_type t' (settings s') = of_type t' (settings s))
        /\ length (of_type t (settings s'))
           = Nat.max 1 (length (of_type t (settings s)))
        /\ users s' = users s).
Proof.
  intros t days hours percentage.
  unfold update_threshold.
  change (match tf_setting_type form with Some t => t | None => "professor_global" end)
    with t.
  change (match tf_threshold_days form with Some d => d | None => 0 end) with days.
  change (match tf_threshold_hours form with Some h => h | None => 0 end) with hours.
  change (match tf_warning_percentage form with Some p => p | None => 50%Q end)
    with percentage.
  cbv zeta. split.
  - intros [-> ->]. reflexivity.
  - intros Hnz.
    destruct ((days =? 0) && (hours =? 0)) eqn:Hz.
    { apply andb_true_iff in Hz. rewrite !Z.eqb_eq in Hz. tauto. }
    destruct (setting_of_type (settings s) t) as [r|] eqn:Hfound.
    + eexists _, _. split; [reflexivity|]. simpl.
      split; [apply (assign_first_found _ _ _ _ _ _ _ Hfound)|].
      repeat split.
      * intros t' Hne. now apply assign_first_other.
      * rewrite assign_first_count.
        pose proof (setting_of_type_found_count _ _ _ Hfound). lia.
    + eexists _, _. split; [reflexivity|]. simpl.
      split; [apply setting_of_type_app_new; [exact Hfound | reflexivity]|].
      repeat split.
      * intros t' Hne. rewrite List.filter_app. simpl.
        assert (Ht : String.eqb t t' = false) by (apply String.eqb_neq; congruence).
        rewrite Ht. apply app_nil_r.
      * rewrite List.filter_app, (setting_of_type_none _ _ Hfound). simpl.
        now rewrite String.eqb_refl.
Qed.

End ThresholdSettings.

(** The global threshold of the professors is set to 3 days and 4 hours,
    then to 2 days: one setting, of 16 hours. *)
Lemma threshold_update_is_an_upsert_witness :
  exists s' row,
    AdminSettings.update_threshold false 9
      (AdminSettings.mkThresholdForm None (Some 2) None None)
      (AdminSettings.mkState
         [AdminSettings.mkSettingRow 1
            (mkThresholdSetting "professor_global" 3 4 50) (Some 9)] [] [])
    = (s', Ret (Admin.Redirect "admin.threshold_settings"))
    /\ AdminSettings.setting_of_type (AdminSettings.settings s') "professor_global"
       = Some row
    /\ ThresholdSettingMethods.get_total_hours (AdminSettings.sr_setting row) = 16
    /\ length (AdminSettings.settings s') = 1%nat.
Proof.
  destruct (proj2 (threshold_update_is_an_upsert 9
                     (AdminSettings.mkThresholdForm None (Some 2) None None)
                     (AdminSettings.mkState
                        [AdminSettings.mkSettingRow 1
                           (mkThresholdSetting "professor_global" 3 4 50) (Some 9)]
                        [] [])))
    as (s' & row & Hrun & Hfound & _ & _ & Htotal & _).
  - simpl. intros [H _]. discriminate.
  - exists s', row. split; [exact Hrun|]. split; [exact Hfound|].
    split; [exact Htotal|].
    injection Hrun as <-. reflexivity.
Defined.

(** ** The status of a user account *)

Section UserStatus.

Import AdminSettings.

Lemma user_get_toggled (rows : list UserRow) (k id : Z) :
  user_get (map (toggle_active k) rows) id
  = option_map (toggle_active k) (user_get rows id).
Proof.
  unfold user_get. induction rows as [|r rows IH]; simpl; [reflexivity|].
  replace (u_id (toggle_active k r)) with (u_id r)
    by (unfold toggle_active; destruct (u_id r =? k); reflexivity).
  destruct (u_id r =? id); [reflexivity | exact IH].
Qed.

Lemma user_get_id (rows : list UserRow) (id : Z) (r : UserRow) :
  user_get rows id = Some r -> u_id r = id.
Proof.
  intros H. apply find_some in H. destruct H as [_ H]. now apply Z.eqb_eq.
Qed.

(** X17. What [toggle_user_status] can and cannot do, whoever calls it and
    whatever the commit does: the account of the caller is left as it is;
    the account of a super admin is left as it is unless the caller is a
    super admin; only the active flag of the account asked for changes,
    never a key, an email or a role, nor a threshold setting; and when the
    request is allowed and the commit goes through the flag of that account
    is negated. *)
Theorem user_status_safeguards (commit_raises : bool) (current_user : CurrentUser)
    (id : Z) (s : State) :
  let s' := fst (toggle_user_status commit_raises current_user id s) in
  user_get (users s') (cu_id current_user) = user_get (users s) (cu_id current_user)
  /\ (cu_role current_user <> UserRole.SUPER_ADMIN ->
      forall id' row,
        user_get (users s) id' = Some row -> u_role row = UserRole.SUPER_ADMIN ->
        user_get (users s') id' = Some row)
  /\ (forall id', id' <> id -> user_get (users s') id' = user_get (users s) id')
  /\ map u_id (users s') = map u_id (users s)
  /\ map u_email (users s') = map u_email (users s)
  /\ map u_role (users s') = map u_role (users s)
  /\ settings s' = settings s
  /\ (forall row,
        user_get (users s) id = Some row ->
        id <> cu_id current_user ->
        (u_role row = UserRole.SUPER_ADMIN -> cu_role current_user = UserRole.SUPER_ADMIN) ->
        commit_raises = false ->
        user_get (users s') id
        = Some (mkUserRow (u_id row) (u_email row) (u_role row)
                  (negb (u_is_active row)))).
Proof.
  assert (Hmaps : forall k rows,
            map u_id (map (toggle_active k) rows) = map u_id rows
            /\ map u_email (map (toggle_active k) rows) = map u_email rows
            /\ map u_role (map (toggle_active k) rows) = map u_role rows).
  { intros k rows. rewrite !map_map. repeat split; apply map_ext; intros r;
      unfold toggle_active; destruct (u_id r =? k); reflexivity. }
  assert (Hother : forall k rows id', id' <> k ->
            user_get (map (toggle_active k) rows) id' = user_get rows id').
  { intros k rows id' Hne. rewrite user_get_toggled.
    destruct (user_get rows id') as [r|] eqn:Hr; [|reflexivity]. simpl.
    apply user_get_id in Hr. unfold toggle_active.
    assert (Hk : (u_id r =? k) = false) by (apply Z.eqb_neq; congruence).
    now rewrite Hk. }
  unfold toggle_user_status.
  destruct (user_get (users s) id) as [user|] eqn:Huser; cbv zeta.
  2:{ simpl. repeat split; auto. intros row [=]. }
  pose proof (user_get_id _ _ _ Huser) as Hid.
  destruct (u_id user =? cu_id current_user) eqn:Hself.
  { simpl. repeat split; auto. intros row [= <-] Hne.
    apply Z.eqb_eq in Hself. congruence. }
  destruct (String.eqb (u_role user) UserRole.SUPER_ADMIN
            && negb (String.eqb (cu_role current_user) UserRole.SUPER_ADMIN))
    eqn:Hsuper.
  { simpl. repeat split; auto. intros row [= <-] _ Hrole _.
    apply andb_true_iff in Hsuper. destruct Hsuper as [Hr Hc].
    apply String.eqb_eq in Hr. rewrite (proj2 (String.eqb_eq _ _) (Hrole Hr)) in Hc.
    discriminate. }
  destruct commit_raises.
  { simpl. repeat split; auto. intros row _ _ _ [=]. }
  simpl. apply Z.eqb_neq in Hself.
  destruct (Hmaps (u_id user) (users s)) as (Hi & He & Hr).
  split; [apply Hother; congruence|].
  split; [|split; [|repeat split; auto]].
  - intros Hnot id' row Hrow Hrole.
    destruct (Z.eq_dec id' (u_id user)) as [->|Hne]; [|rewrite Hother; auto].
    rewrite Hid, Huser in Hrow. injection Hrow as <-.
    apply andb_false_iff in Hsuper. destruct Hsuper as [Hs|Hs].
    + apply String.eqb_neq in Hs. contradiction.
    + apply negb_false_iff, String.eqb_eq in Hs. contradiction.
  - intros id' Hne. apply Hother. congruence.
  - intros row [= <-] _ _ _.
    rewrite user_get_toggled, Huser. simpl. unfold toggle_active.
    now rewrite Z.eqb_refl.
Qed.

End UserStatus.

(** A member of the admin staff deactivates a student's account. *)
Lemma user_status_safeguards_witness :
  AdminSettings.user_get
    (AdminSettings.users
       (fst (AdminSettings.toggle_user_status false
               (mkCurrentUser true true UserRole.ADMIN_STAFF 9 false) 1
               (AdminSettings.mkState []
                  [AdminSettings.mkUserRow 1 "alice@example.org" UserRole.STUDENT true;
                   AdminSettings.mkUserRow 9 "staff@example.org" UserRole.ADMIN_STAFF
                     true] [])))) 1
  = Some (AdminSettings.mkUserRow 1 "alice@example.org" UserRole.STUDENT false).
Proof.
  destruct (user_status_safeguards false
              (mkCurrentUser true true UserRole.ADMIN_STAFF 9 false) 1
              (AdminSettings.mkState []
                 [AdminSettings.mkUserRow 1 "alice@example.org" UserRole.STUDENT true;
                  AdminSettings.mkUserRow 9 "staff@example.org" UserRole.ADMIN_STAFF
                    true] []))
    as (_ & _ & _ & _ & _ & _ & _ & Hflag).
  apply (Hflag (AdminSettings.mkUserRow 1 "alice@example.org" UserRole.STUDENT true));
    [reflexivity | discriminate | discriminate | reflexivity].
Defined.

(** ** The initial password *)

Lemma nth_mod_in {A : Type} (l : list A) (d : A) (k : nat) :
  l <> [] -> In (nth (k mod length l) l d) l.
Proof.
  intros Hl. apply nth_In. apply Nat.mod_upper_bound.
  destruct l; [contradiction | simpl; lia].
Qed.

(** X19. A generated password has the length asked for and consists of
    characters of the alphabet (the 52 letters, the 10 digits and the 8
    signs [!@#$%^&*], 70 different characters), whatever the random numbers
    are. *)
Theorem initial_password_shape (draw : nat -> nat) (n : nat) :
  String.length (Password.generate_initial_password draw n) = n
  /\ Forall (fun c => In c (list_ascii_of_string Password.alphabet))
       (list_ascii_of_string (Password.generate_initial_password draw n))
  /\ length (list_ascii_of_string Password.alphabet) = 70%nat
  /\ NoDup (list_ascii_of_string Password.alphabet).
Proof.
  unfold Password.generate_initial_password.
  assert (Hlen : forall l, String.length (string_of_list_ascii l) = length l).
  { induction l as [|c l IH]; simpl; [reflexivity | now rewrite IH]. }
  split; [|split; [|split]].
  - rewrite Hlen, length_map, length_seq. reflexivity.
  - rewrite list_ascii_of_string_of_list_ascii.
    apply List.Forall_forall. intros c Hc. apply in_map_iff in Hc.
    destruct Hc as (i & <- & _). unfold Password.secrets_choice.
    apply nth_mod_in. discriminate.
  - reflexivity.
  - apply (bool_decide_unpack _). vm_compute. reflexivity.
Qed.

(** ** The alerts of the dashboards *)

Section SuperAdminAlerts.

Import Dashboard.

Variable db : DB.

Lemma existing_alert_none (alerts : list Alert) (student_id module_id : Z) :
  existing_alert alerts student_id module_id = None ->
  ~ In (student_id, module_id) (map alert_key alerts).
Proof.
  intros Hnone Hin. apply in_map_iff in Hin. destruct Hin as (a & Hkey & Hin).
  pose proof (find_none _ _ Hnone a Hin) as Hno. cbv beta in Hno.
  unfold alert_key in Hkey. injection Hkey as Hs Hm.
  rewrite Hs, Hm, !Z.eqb_refl in Hno. discriminate.
Qed.

Lemma existing_alert_some (alerts : list Alert) (student_id module_id : Z) (a : Alert) :
  existing_alert alerts student_id module_id = Some a ->
  In (student_id, module_id) (map alert_key alerts).
Proof.
  intros Hsome. apply find_some in Hsome. destruct Hsome as [Hin Hkey].
  apply andb_true_iff in Hkey. rewrite !Z.eqb_eq in Hkey. destruct Hkey as [Hs Hm].
  apply in_map_iff. exists a. split; [|exact Hin].
  unfold alert_key. now rewrite Hs, Hm.
Qed.

Lemma is_alert_module (student : StudentProfile) (module_id : Z) :
  is_alert (StudentProfileMethods.check_threshold_status db student module_id) = true ->
  exists m, Module_query_get db module_id = Some m.
Proof.
  unfold StudentProfileMethods.check_threshold_status.
  destruct (Module_query_get db module_id) as [m|]; [eauto | discriminate].
Qed.

Local Abbreviation alerts_ok alerts := (alerts_kept db alerts).

Lemma super_admin_scan_spec (student : StudentProfile) (rows : list StudentAbsence) :
  In student (student_profile db) ->
  (forall x, In x rows -> In x (student_absence db) /\ sa_student_id x = sp_id student) ->
  forall alerts, alerts_ok alerts ->
  exists alerts',
    super_admin_scan db student rows alerts = Ret alerts'
    /\ alerts_ok alerts'
    /\ (forall k, In k (map alert_key alerts) -> In k (map alert_key alerts'))
    /\ (forall x, In x rows ->
          is_alert (StudentProfileMethods.check_threshold_status db student
                      (sa_module_id x)) = true ->
          In (sp_id student, sa_module_id x) (map alert_key alerts')).
Proof.
  intros Hstudent. induction rows as [|x rows IH]; intros Hrows alerts Hok.
  - exists alerts. simpl. repeat split; auto; [apply Hok | apply Hok | intros x []].
  - assert (Hrows' : forall y, In y rows ->
              In y (student_absence db) /\ sa_student_id y = sp_id student)
      by (intros y Hy; apply Hrows; now right).
    destruct (Hrows x (or_introl eq_refl)) as [Hx Hsx].
    simpl.
    destruct (is_alert (StudentProfileMethods.check_threshold_status db student
                          (sa_module_id x))) eqn:Halert.
    + destruct (existing_alert alerts (sp_id student) (sa_module_id x)) as [a|] eqn:Hex.
      * destruct (IH Hrows' alerts Hok) as (alerts' & Hrun & Hok' & Hmono & Hall).
        exists alerts'. repeat split; auto; try apply Hok'.
        intros y [<-|Hy] Hy'; [|auto].
        apply Hmono. exact (existing_alert_some _ _ _ _ Hex).
      * destruct (is_alert_module student (sa_module_id x) Halert) as (m & Hm).
        rewrite Hm.
        set (new := mkAlert (sp_id student) (sa_module_id x) (student_name student)
                      _ _).
        assert (Hok1 : alerts_ok (alerts ++ [new])%list).
        { destruct Hok as [Hnd Hsound]. split.
          - rewrite map_app. simpl. apply NoDup_snoc; [exact Hnd|].
            exact (existing_alert_none _ _ _ Hex).
          - intros a Ha. apply in_app_iff in Ha. destruct Ha as [Ha|[<-|[]]]; [auto|].
            exists student, m, x. simpl. repeat split; auto.
            intros Hokst. rewrite Hokst in Halert. discriminate. }
        destruct (IH Hrows' (alerts ++ [new])%list Hok1) as (alerts' & Hrun & Hok' & Hmono & Hall).
        exists alerts'. repeat split; auto; try apply Hok'.
        -- intros k Hk. apply Hmono. rewrite map_app, in_app_iff. now left.
        -- intros y [<-|Hy] Hy'; [|auto].
           apply Hmono. rewrite map_app, in_app_iff. right. simpl. now left.
    + destruct (IH Hrows' alerts Hok) as (alerts' & Hrun & Hok' & Hmono & Hall).
      exists alerts'. repeat split; auto; try apply Hok'.
      intros y [<-|Hy] Hy'; [congruence | auto].
Qed.

Lemma super_admin_students_spec (students : list StudentProfile) :
  (forall s, In s students -> In s (student_profile db)) ->
  forall alerts, alerts_ok alerts ->
  exists alerts',
    super_admin_students db students alerts = Ret alerts'
    /\ alerts_ok alerts'
    /\ (forall k, In k (map alert_key alerts) -> In k (map alert_key alerts'))
    /\ (forall s x, In s students -> In x (student_absence db) ->
          sa_student_id x = sp_id s ->
          is_alert (StudentProfileMethods.check_threshold_status db s
                      (sa_module_id x)) = true ->
          In (sp_id s, sa_module_id x) (map alert_key alerts')).
Proof.
  induction students as [|s students IH]; intros Hsub alerts Hok.
  - exists alerts. simpl. repeat split; auto; [apply Hok | apply Hok | intros s x []].
  - simpl.
    destruct (super_admin_scan_spec s (absences db s) (Hsub s (or_introl eq_refl)))
      with (alerts := alerts) as (alerts1 & Hrun1 & Hok1 & Hmono1 & Hall1); [|exact Hok|].
    { intros x Hx. unfold absences in Hx. apply filter_In in Hx.
      destruct Hx as [Hx Hs]. apply Z.eqb_eq in Hs. auto. }
    rewrite Hrun1.
    destruct (IH (fun s' Hs' => Hsub s' (or_intror Hs')) alerts1 Hok1)
      as (alerts' & Hrun & Hok' & Hmono & Hall).
    exists alerts'. repeat split; auto; try apply Hok'.
    intros s' x [<-|Hs'] Hx Hsx Halert; [|eauto].
    apply Hmono, Hall1; [|exact Halert].
    unfold absences. apply filter_In. split; [exact Hx|]. now apply Z.eqb_eq.
Qed.

(** X20. The loop that fills the alerts of the super admin's dashboard never
    raises, and its list is exactly what the tables justify: no two alerts
    are about the same student and module; every alert names a student and
    a module that exist, with an absence of that student in that module, and
    carries the status of the student there, 'warning' or 'exceeded'; and
    every absence of a student of the table whose status in the module is
    'warning' or 'exceeded' has its alert.  The page shows at most the first
    ten. *)
Theorem super_admin_alerts_are_the_justified_ones :
  exists alerts,
    super_admin_alerts db = Ret alerts
    /\ NoDup (map alert_key alerts)
    /\ (forall a, In a alerts -> alert_justified db a)
    /\ (forall student absence,
          In student (student_profile db) ->
          In absence (student_absence db) ->
          sa_student_id absence = sp_id student ->
          StudentProfileMethods.check_threshold_status db student
            (sa_module_id absence) <> ok ->
          In (sp_id student, sa_module_id absence) (map alert_key alerts))
    /\ (length (firstn 10 alerts) <= 10)%nat.
Proof.
  unfold super_admin_alerts.
  destruct (super_admin_students_spec (student_profile db) (fun s H => H) [])
    as (alerts & Hrun & [Hnd Hsound] & _ & Hall).
  { split; [constructor | intros a []]. }
  exists alerts. split; [exact Hrun|]. split; [exact Hnd|]. split; [exact Hsound|].
  split.
  - intros student absence Hs Ha Hsa Hstatus. apply Hall; auto.
    destruct (StudentProfileMethods.check_threshold_status db student _);
      [contradiction | reflexivity | reflexivity].
  - apply firstn_le_length.
Qed.

End SuperAdminAlerts.

Section StaffAlerts.

Import Dashboard.

Variable db : DB.
Variable classe_name_of : StudentProfile -> string.

Local Abbreviation status_of s module_id :=
  (StudentProfileMethods.check_threshold_status db s module_id).





End StaffAlerts.


(** ** Reading the absences of a student *)

Section StudentAbsencesEndpoint.

Variable db : DB.
Variable class_id_of : StudentProfile -> option Z.
Variable order_by_date_desc : list StudentAbsence -> list StudentAbsence.
Variable isoformat : Date -> string.

(** Ordering returns the rows it was given, each once. *)
Hypothesis order_by_permutes : forall rows, Permutation (order_by_date_desc rows) rows.


End StudentAbsencesEndpoint.


(** ** The status on doubles *)

Lemma SFleb_trans (x y z : spec_float) :
  SFleb x y = true -> SFleb y z = true -> SFleb x z = true.
Proof.
  unfold SFleb.
  destruct x as [sx|sx| |sx mx ex], y as [sy|sy| |sy my ey], z as [sz|sz| |sz mz ez];
    simpl; try discriminate; try reflexivity;
    try (destruct sx; try discriminate; try reflexivity);
    try (destruct sy; try discriminate; try reflexivity);
    try (destruct sz; try discriminate; try reflexivity);
    change (PosDef.Pos.compare_cont Eq) with Pos.compare;
    destruct (Z.compare_spec ex ey), (Z.compare_spec ey ez), (Z.compare_spec ex ez);
    try discriminate; try reflexivity; try lia; subst;
    destruct (Pos.compare_spec mx my), (Pos.compare_spec my mz),
      (Pos.compare_spec mx mz);
    simpl; try discriminate; try reflexivity; try lia.
Qed.

(** [<=] on doubles is transitive. *)
Lemma leb_trans (x y z : float) :
  PrimFloat.leb x y = true -> PrimFloat.leb y z = true -> PrimFloat.leb x z = true.
Proof.
  rewrite !leb_spec. apply SFleb_trans.
Qed.

(** X23. On doubles too, with the module table fixed, the status is
    monotonic in the total of the unjustified hours: if Python's [<=] holds
    between the total in one state of the absence table and the total in
    another, the status in the first is at most the status in the second,
    in the order ok < warning < exceeded.  Both comparisons of
    [check_threshold_status] are upward closed, whatever the threshold. *)
Theorem status_is_monotonic_on_doubles (db1 db2 : Float64.DB) (self : StudentProfile)
    (module_id : Z) :
  Float64.module db1 = Float64.module db2 ->
  PrimFloat.leb (Float64.unjustified_hours db1 self module_id)
    (Float64.unjustified_hours db2 self module_id) = true ->
  status_le (Float64.StudentProfileMethods.check_threshold_status db1 self module_id)
            (Float64.StudentProfileMethods.check_threshold_status db2 self module_id).
Proof.
  intros Hmod Hle.
  unfold Float64.StudentProfileMethods.check_threshold_status, Float64.Module_query_get.
  rewrite Hmod.
  destruct (List.find _ (Float64.module db2)) as [m|]; [|unfold status_le; simpl; lia].
  rewrite !Float64_student_total.
  fold (Float64.unjustified_hours db1 self module_id)
       (Float64.unjustified_hours db2 self module_id).
  set (h1 := Float64.unjustified_hours db1 self module_id) in *.
  set (h2 := Float64.unjustified_hours db2 self module_id) in *.
  set (t := Float64.m_absence_threshold m).
  cbv zeta.
  destruct (PrimFloat.leb t h1) eqn:E1.
  - rewrite (leb_trans _ _ _ E1 Hle). unfold status_le; simpl; lia.
  - destruct (PrimFloat.leb (t * 0.5)%float h1) eqn:W1.
    + destruct (PrimFloat.leb t h2); [unfold status_le; simpl; lia|].
      rewrite (leb_trans _ _ _ W1 Hle). unfold status_le; simpl; lia.
    + destruct (PrimFloat.leb t h2), (PrimFloat.leb (t * 0.5)%float h2);
        unfold status_le; simpl; lia.
Qed.

(** In the lab, with its threshold of 3 hours, absences of 0.6, 0.7, 0.8
    and 0.9 hours are 'warning'; six more minutes make it 'exceeded'. *)
Lemma status_is_monotonic_on_doubles_witness :
  Float64.StudentProfileMethods.check_threshold_status
    (Float64.School.school Float64.School.short_absences) School.alice 3
  = warning
  /\ Float64.StudentProfileMethods.check_threshold_status
       (Float64.School.school
          (Float64.School.short_absences ++ [Float64.School.missed 5 3 0.1 false]))
       School.alice 3
     = exceeded
  /\ status_le
       (Float64.StudentProfileMethods.check_threshold_status
          (Float64.School.school Float64.School.short_absences) School.alice 3)
       (Float64.StudentProfileMethods.check_threshold_status
          (Float64.School.school
             (Float64.School.short_absences ++ [Float64.School.missed 5 3 0.1 false]))
          School.alice 3).
Proof.
  refine (conj eq_refl (conj eq_refl _)).
  apply (status_is_monotonic_on_doubles
           (Float64.School.school Float64.School.short_absences)
           (Float64.School.school
              (Float64.School.short_absences ++ [Float64.School.missed 5 3 0.1 false]))
           School.alice 3); reflexivity.
Defined.

(** A threshold that [== 0] finds equal to 0 compares like 0. *)
Lemma leb_zero (t x : float) :
  PrimFloat.eqb t 0 = true -> PrimFloat.leb t x = PrimFloat.leb 0 x.
Proof.
  rewrite FloatAxioms.eqb_spec, !FloatAxioms.leb_spec.
  change (Prim2SF 0) with (S754_zero false).
  unfold SFeqb, SFleb.
  destruct (Prim2SF t) as [s|s| |s mt et]; simpl; try discriminate;
    try reflexivity; destruct s; discriminate.
Qed.

(** X24. On doubles, a module whose threshold is 0 (0.0 or -0.0) puts every
    student whose total of unjustified hours is a number that is not
    negative, so every student without any absence, at 'exceeded', while
    [get_absence_rate] answers 0 for the same student and module: the guard
    against a threshold of 0 is in [get_absence_rate] only. *)
Theorem zero_threshold_is_exceeded_on_doubles (db : Float64.DB) (self : StudentProfile)
    (module_id : Z) (m : Float64.Module) :
  Float64.Module_query_get db module_id = Some m ->
  PrimFloat.eqb (Float64.m_absence_threshold m) 0 = true ->
  PrimFloat.leb 0 (Float64.unjustified_hours db self module_id) = true ->
  Float64.StudentProfileMethods.check_threshold_status db self module_id = exceeded
  /\ Float64.StudentProfileMethods.get_absence_rate db self module_id = Ret 0%float.
Proof.
  intros Hm Hz Hpos. split.
  - rewrite (Float64_check_threshold_status_found db self module_id m Hm). cbv zeta.
    now rewrite (leb_zero _ _ Hz), Hpos.
  - unfold Float64.StudentProfileMethods.get_absence_rate. now rewrite Hm, Hz.
Qed.

(** The seminar has threshold 0: [alice], who missed nothing, has
    'exceeded' it, at a rate of 0. *)
Lemma zero_threshold_is_exceeded_on_doubles_witness :
  Float64.StudentProfileMethods.check_threshold_status (Float64.School.school [])
    School.alice 2
  = exceeded
  /\ Float64.StudentProfileMethods.get_absence_rate (Float64.School.school [])
       School.alice 2
     = Ret 0%float.
Proof.
  apply (zero_threshold_is_exceeded_on_doubles (Float64.School.school [])
           School.alice 2 Float64.School.seminar); reflexivity.
Defined.
